(** * NesaVent backend: registration, payment, ticket and check-in lifecycle

    A shallow embedding of the registration lifecycle of the NesaVent
    event-ticketing backend and of the ticket inventory it mutates:

    - [models/Event.ts]            ticket tiers and the event pre-save hook,
    - [models/Registration.ts]     registrations and their pre-save hooks,
    - [services/event.service.ts]  [updateTicketAvailability],
    - [services/registration.service.ts]
                                   [createRegistration], [generateTicket],
                                   [cancelRegistration], [checkInRegistration],
                                   [validateQRCode],
    - [services/payment.service.ts] [createPayment],
                                   [handlePaymentNotification] and its handlers,
    - [services/checkin.service.ts] [processCheckIn], [bulkCheckIn],
    - [jobs/payment.job.ts]        [expirePaymentsJob],
    - [utils/crypto.ts], [utils/qrcode.ts]  the QR credential codec.

    Modelling conventions.

    - The document store is an explicit [Store]; every service method is a
      function from the store to a result and the store it leaves behind.
      A thrown [Error] is [Err message]; the store written before the throw
      is kept, as nothing in the source rolls a write back.
    - A document loaded from the store is a value (a copy); [save] writes it
      back under its [_id].  The pre-save hooks of the schemas run inside the
      save functions.
    - JavaScript numbers that hold counters, prices and millisecond
      timestamps are [Z]; ObjectIds are [nat].
    - Everything the process obtains from outside (the clock, nanoid, the
      payment provider, Cloudinary, the mailer) is read from an [Env] value
      handed to the call.  The cipher, the JSON codec of the QR payload and
      SHA-512 are the members of the class [Primitives].
    - Mongoose validates a document against its schema before the
      pre-save hooks run.  For a new document this is part of
      [Registration_create].  A stored document passed the validators when
      it was written: the stores of the statements stand for such documents,
      and the saves of a loaded document are modelled for the values the
      schema accepts (a negative tier counter or amount handed to a call is
      outside the embedding).  Unique indexes belong to the database and
      are not modelled.
    - A QR payload is taken at the type of [interface QRCodeData], with a
      numeric timestamp; JSON texts of another shape are outside the
      embedding. *)

From Stdlib Require Import ZArith List String Bool Lia Arith DecimalString.
From Stdlib Require PrimFloat FloatOps SpecFloat Uint63.
From Stdlib Require DecimalZ DecimalPos.
Import ListNotations.
Local Open Scope string_scope.
Local Open Scope Z_scope.

Set Implicit Arguments.

(* ================================================================= *)
(** ** Results and the store monad *)

Inductive Result (A : Type) : Type :=
| Ok (a : A)
| Err (message : string).
Arguments Ok {A} a.
Arguments Err {A} message.

(* ================================================================= *)
(** ** Data model: [models/Event.ts] *)

Inductive EventStatus : Type :=
| ev_draft | ev_pending_approval | ev_approved | ev_rejected
| ev_published | ev_ongoing | ev_completed | ev_cancelled.

Record ITicketType : Type := mkTicketType {
  tt_id : nat;
  tt_name : string;
  price : Z;
  quota : Z;
  sold : Z;
  reserved : Z;
  available : Z;
  isActive : bool
}.

Record IEvent : Type := mkEvent {
  ev_id : nat;
  title : string;
  ev_organizerId : nat;
  ev_status : EventStatus;
  registrationOpen : Z;
  registrationClose : Z;
  ticketTypes : list ITicketType;
  totalQuota : Z;
  totalSold : Z;
  totalRevenue : Z
}.

(* ================================================================= *)
(** ** Data model: [models/Registration.ts] *)

Inductive PaymentStatus : Type :=
| pay_pending | pay_paid | pay_expired | pay_failed | pay_refunded.

Inductive TicketStatus : Type :=
| tk_valid | tk_used | tk_cancelled | tk_expired.

Inductive RegistrationStatus : Type :=
| pending_payment | confirmed | cancelled | attended | no_show.

Record IParticipant : Type := mkParticipant {
  fullName : string;
  email : string;
  phone : string
}.

Record IPayment : Type := mkPayment {
  method : string;
  provider : option string;
  pay_status : PaymentStatus;
  amount : Z;
  adminFee : Z;
  totalAmount : Z;
  snapToken : option string;
  snapUrl : option string;
  transactionId : option string;
  orderId : string;
  paidAt : option Z;
  expiredAt : Z;
  refundedAt : option Z;
  refundReason : option string
}.

Record ICheckIn : Type := mkCheckIn {
  checkedAt : Z;
  checkedBy : nat;
  location : option string;
  deviceInfo : option string
}.

Record ITicket : Type := mkTicket {
  ticketNumber : string;
  qrCode : string;
  qrCodeUrl : option string;
  pdfUrl : option string;
  tk_status : TicketStatus;
  checkIn : option ICheckIn
}.

Record ICancellation : Type := mkCancellation {
  cancelledAt : Z;
  cancelledBy : option nat;
  reason : string;
  refundStatus : string
}.

Record INotifications : Type := mkNotifications {
  reminderSent : bool;
  confirmationSent : bool;
  thankYouSent : bool
}.

(** [metadata.checkInUndone], the record [undoCheckIn] leaves. *)
Record ICheckInUndone : Type := mkCheckInUndone {
  undoneAt : Z;
  undoneBy : nat;
  undo_reason : string;
  originalCheckIn : option ICheckIn
}.

Record IRegistration : Type := mkRegistration {
  reg_id : nat;
  registrationNumber : string;
  userId : nat;
  eventId : nat;
  organizerId : nat;
  ticketType_id : nat;
  ticketType_name : string;
  ticketType_price : Z;
  quantity : Z;
  participant : IParticipant;
  payment : IPayment;
  ticket : ITicket;
  status : RegistrationStatus;
  cancellation : option ICancellation;
  notifications : INotifications;
  checkInUndone : option ICheckInUndone
}.

(** Field updates (the assignments [doc.path = value] of the source). *)

Definition set_pay_status (v : PaymentStatus) (p : IPayment) : IPayment :=
  mkPayment (method p) (provider p) v (amount p) (adminFee p) (totalAmount p)
    (snapToken p) (snapUrl p) (transactionId p) (orderId p) (paidAt p)
    (expiredAt p) (refundedAt p) (refundReason p).

Definition set_paidAt (v : option Z) (p : IPayment) : IPayment :=
  mkPayment (method p) (provider p) (pay_status p) (amount p) (adminFee p)
    (totalAmount p) (snapToken p) (snapUrl p) (transactionId p) (orderId p) v
    (expiredAt p) (refundedAt p) (refundReason p).

Definition set_transactionId (v : option string) (p : IPayment) : IPayment :=
  mkPayment (method p) (provider p) (pay_status p) (amount p) (adminFee p)
    (totalAmount p) (snapToken p) (snapUrl p) v (orderId p) (paidAt p)
    (expiredAt p) (refundedAt p) (refundReason p).

Definition set_refundedAt (v : option Z) (p : IPayment) : IPayment :=
  mkPayment (method p) (provider p) (pay_status p) (amount p) (adminFee p)
    (totalAmount p) (snapToken p) (snapUrl p) (transactionId p) (orderId p)
    (paidAt p) (expiredAt p) v (refundReason p).

Definition set_refundReason (v : option string) (p : IPayment) : IPayment :=
  mkPayment (method p) (provider p) (pay_status p) (amount p) (adminFee p)
    (totalAmount p) (snapToken p) (snapUrl p) (transactionId p) (orderId p)
    (paidAt p) (expiredAt p) (refundedAt p) v.

Definition set_tk_status (v : TicketStatus) (t : ITicket) : ITicket :=
  mkTicket (ticketNumber t) (qrCode t) (qrCodeUrl t) (pdfUrl t) v (checkIn t).

Definition set_ticketNumber (v : string) (t : ITicket) : ITicket :=
  mkTicket v (qrCode t) (qrCodeUrl t) (pdfUrl t) (tk_status t) (checkIn t).

Definition set_checkIn (v : option ICheckIn) (t : ITicket) : ITicket :=
  mkTicket (ticketNumber t) (qrCode t) (qrCodeUrl t) (pdfUrl t) (tk_status t) v.

Definition set_payment (v : IPayment) (r : IRegistration) : IRegistration :=
  mkRegistration (reg_id r) (registrationNumber r) (userId r) (eventId r)
    (organizerId r) (ticketType_id r) (ticketType_name r) (ticketType_price r)
    (quantity r) (participant r) v (ticket r) (status r) (cancellation r)
    (notifications r) (checkInUndone r).

Definition set_ticket (v : ITicket) (r : IRegistration) : IRegistration :=
  mkRegistration (reg_id r) (registrationNumber r) (userId r) (eventId r)
    (organizerId r) (ticketType_id r) (ticketType_name r) (ticketType_price r)
    (quantity r) (participant r) (payment r) v (status r) (cancellation r)
    (notifications r) (checkInUndone r).

Definition set_status (v : RegistrationStatus) (r : IRegistration)
  : IRegistration :=
  mkRegistration (reg_id r) (registrationNumber r) (userId r) (eventId r)
    (organizerId r) (ticketType_id r) (ticketType_name r) (ticketType_price r)
    (quantity r) (participant r) (payment r) (ticket r) v (cancellation r)
    (notifications r) (checkInUndone r).

Definition set_cancellation (v : option ICancellation) (r : IRegistration)
  : IRegistration :=
  mkRegistration (reg_id r) (registrationNumber r) (userId r) (eventId r)
    (organizerId r) (ticketType_id r) (ticketType_name r) (ticketType_price r)
    (quantity r) (participant r) (payment r) (ticket r) (status r) v
    (notifications r) (checkInUndone r).

Definition set_notifications (v : INotifications) (r : IRegistration)
  : IRegistration :=
  mkRegistration (reg_id r) (registrationNumber r) (userId r) (eventId r)
    (organizerId r) (ticketType_id r) (ticketType_name r) (ticketType_price r)
    (quantity r) (participant r) (payment r) (ticket r) (status r)
    (cancellation r) v (checkInUndone r).

Definition set_registrationNumber (v : string) (r : IRegistration)
  : IRegistration :=
  mkRegistration (reg_id r) v (userId r) (eventId r)
    (organizerId r) (ticketType_id r) (ticketType_name r) (ticketType_price r)
    (quantity r) (participant r) (payment r) (ticket r) (status r)
    (cancellation r) (notifications r) (checkInUndone r).

Definition set_reg_id (v : nat) (r : IRegistration) : IRegistration :=
  mkRegistration v (registrationNumber r) (userId r) (eventId r)
    (organizerId r) (ticketType_id r) (ticketType_name r) (ticketType_price r)
    (quantity r) (participant r) (payment r) (ticket r) (status r)
    (cancellation r) (notifications r) (checkInUndone r).

(* ================================================================= *)
(** ** The world: store, provider, blob store, and per-call inputs *)

(** [intents] is the payment provider's list of created transactions
    (order ids); [blobs] is the Cloudinary bucket, public id to content.
    A QR image is represented by the text it encodes. *)
Record Store : Type := mkStore {
  events : list IEvent;
  registrations : list IRegistration;
  users : list nat;
  intents : list string;
  blobs : list (string * string)
}.

(** What one call reads from outside the process. [None] and [false] stand
    for a rejected promise. *)
Record Env : Type := mkEnv {
  now : Z;                                   (* Date.now() *)
  year : Z;                                  (* new Date().getFullYear() *)
  nanoid10 : string;                         (* nanoid(10).toUpperCase() *)
  nanoid12 : string;                         (* nanoid(12).toUpperCase() *)
  generateToken8 : string;                   (* generateToken(8) *)
  expiryHours : Z;                           (* config.payment.expiryHours *)
  createTransaction : option (string * string); (* snap: token, redirect_url *)
  toDataURL_ok : bool;                       (* QRCode.toDataURL *)
  cloudinary_upload : string -> option string;  (* public id to secure_url *)
  generateTicketPDF_ok : bool;
  sendEmail_ok : bool;
  formatDate : Z -> string                   (* date-fns format(date, ...) *)
}.

Definition M (A : Type) : Type := Store -> Result A * Store.

Definition ret {A} (a : A) : M A := fun s => (Ok a, s).
Definition throw {A} (message : string) : M A := fun s => (Err message, s).
Definition bind {A B} (m : M A) (k : A -> M B) : M B :=
  fun s => match m s with
           | (Ok a, s') => k a s'
           | (Err e, s') => (Err e, s')
           end.
(** [try { m } catch (error) { h error }] *)
Definition catch {A} (m : M A) (h : string -> M A) : M A :=
  fun s => match m s with
           | (Ok a, s') => (Ok a, s')
           | (Err e, s') => h e s'
           end.
Definition get_store : M Store := fun s => (Ok s, s).
Definition put_store (s' : Store) : M unit := fun _ => (Ok tt, s').

Declare Scope store_scope.
Delimit Scope store_scope with store.
Notation "x <- m ;; k" := (bind m (fun x => k))
  (at level 61, m at next level, right associativity) : store_scope.
Notation "m ;;; k" := (bind m (fun _ => k))
  (at level 61, right associativity) : store_scope.
Local Open Scope store_scope.

(** [if (!x) throw new Error(message)] for a nullable [x]. *)
Definition orThrow {A} (x : option A) (message : string) : M A :=
  match x with
  | Some a => ret a
  | None => throw message
  end.

(** [if (c) throw new Error(message)] *)
Definition throwIf (c : bool) (message : string) : M unit :=
  if c then throw message else ret tt.

(* ================================================================= *)
(** ** Collections *)

(** [array.find(p)] is [List.find]; an assignment to the found element
    updates the first element that satisfies [p]. *)
Fixpoint update_first {A} (p : A -> bool) (f : A -> A) (l : list A) : list A :=
  match l with
  | [] => []
  | x :: rest => if p x then f x :: rest else x :: update_first p f rest
  end.

Definition sumZ (l : list Z) : Z := fold_left Z.add l 0.

Definition has_tt_id (id : nat) (t : ITicketType) : bool := Nat.eqb (tt_id t) id.
Definition has_ev_id (id : nat) (e : IEvent) : bool := Nat.eqb (ev_id e) id.
Definition has_reg_id (id : nat) (r : IRegistration) : bool :=
  Nat.eqb (reg_id r) id.

Definition findTicketType (e : IEvent) (ticketTypeId : nat)
  : option ITicketType :=
  find (has_tt_id ticketTypeId) (ticketTypes e).

Definition lookupEvent (s : Store) (id : nat) : option IEvent :=
  find (has_ev_id id) (events s).

Definition lookupRegistration (s : Store) (id : nat) : option IRegistration :=
  find (has_reg_id id) (registrations s).

(** The tier [ticketTypeId] of event [eventId] as stored. *)
Definition lookupTier (s : Store) (eventId ticketTypeId : nat)
  : option ITicketType :=
  match lookupEvent s eventId with
  | Some e => findTicketType e ticketTypeId
  | None => None
  end.

Definition Event_findById (id : nat) : M (option IEvent) :=
  fun s => (Ok (lookupEvent s id), s).

Definition Registration_findById (id : nat) : M (option IRegistration) :=
  fun s => (Ok (lookupRegistration s id), s).

Definition User_findById (id : nat) : M (option nat) :=
  fun s => (Ok (find (Nat.eqb id) (users s)), s).

(* ================================================================= *)
(** ** [models/Event.ts]: the pre-save hook and [event.save()] *)

Definition ticketType_eqb (a b : ITicketType) : bool :=
  Nat.eqb (tt_id a) (tt_id b) && String.eqb (tt_name a) (tt_name b)
  && Z.eqb (price a) (price b) && Z.eqb (quota a) (quota b)
  && Z.eqb (sold a) (sold b) && Z.eqb (reserved a) (reserved b)
  && Z.eqb (available a) (available b) && Bool.eqb (isActive a) (isActive b).

Fixpoint ticketTypes_eqb (l1 l2 : list ITicketType) : bool :=
  match l1, l2 with
  | [], [] => true
  | a :: r1, b :: r2 => ticketType_eqb a b && ticketTypes_eqb r1 r2
  | _, _ => false
  end.

(** [ticket.available = ticket.quota - ticket.sold - ticket.reserved] *)
Definition recomputeAvailable (t : ITicketType) : ITicketType :=
  mkTicketType (tt_id t) (tt_name t) (price t) (quota t) (sold t) (reserved t)
    (quota t - sold t - reserved t) (isActive t).

Definition set_ticketTypes (v : list ITicketType) (e : IEvent) : IEvent :=
  mkEvent (ev_id e) (title e) (ev_organizerId e) (ev_status e)
    (registrationOpen e) (registrationClose e) v
    (totalQuota e) (totalSold e) (totalRevenue e).

Definition set_ev_status (v : EventStatus) (e : IEvent) : IEvent :=
  mkEvent (ev_id e) (title e) (ev_organizerId e) v
    (registrationOpen e) (registrationClose e) (ticketTypes e)
    (totalQuota e) (totalSold e) (totalRevenue e).

(** [eventSchema.pre('save')], the part that runs when [ticketTypes] is
    modified: the total quota and every tier's [available] are recomputed.
    (The slug part runs only for a new or retitled event.) *)
Definition eventPreSave (stored : option IEvent) (doc : IEvent) : IEvent :=
  let modified :=
    match stored with
    | Some old => negb (ticketTypes_eqb (ticketTypes old) (ticketTypes doc))
    | None => true
    end in
  if modified then
    mkEvent (ev_id doc) (title doc) (ev_organizerId doc) (ev_status doc)
      (registrationOpen doc) (registrationClose doc)
      (map recomputeAvailable (ticketTypes doc))
      (sumZ (map quota (ticketTypes doc))) (totalSold doc) (totalRevenue doc)
  else doc.

Definition set_events (v : list IEvent) (s : Store) : Store :=
  mkStore v (registrations s) (users s) (intents s) (blobs s).

Definition set_registrations (v : list IRegistration) (s : Store) : Store :=
  mkStore (events s) v (users s) (intents s) (blobs s).

(** [event.save()] of a loaded event.  The validators of the tier paths
    ([min: 0] on [sold] and [reserved]) are not part of it: the embedding
    covers the saves whose counters are not negative. *)
Definition Event_save (doc : IEvent) : M unit :=
  fun s =>
    let doc' := eventPreSave (lookupEvent s (ev_id doc)) doc in
    (Ok tt,
     set_events (update_first (has_ev_id (ev_id doc)) (fun _ => doc') (events s))
       s).

(* ================================================================= *)
(** ** [EventService.updateTicketAvailability] *)

(** [ticketType.sold = soldCount; ticketType.reserved = reservedCount;
     ticketType.available = ticketType.quota - soldCount - reservedCount] *)
Definition setCounters (soldCount reservedCount : Z) (t : ITicketType)
  : ITicketType :=
  mkTicketType (tt_id t) (tt_name t) (price t) (quota t) soldCount reservedCount
    (quota t - soldCount - reservedCount) (isActive t).

Definition updateTicketAvailability (eventId ticketTypeId : nat)
    (soldCount reservedCount : Z) : M unit :=
  found <- Event_findById eventId ;;
  event <- orThrow found "Event tidak ditemukan" ;;
  _ <- orThrow (findTicketType event ticketTypeId)
         "Tipe tiket tidak ditemukan" ;;
  let tiers := update_first (has_tt_id ticketTypeId)
                 (setCounters soldCount reservedCount) (ticketTypes event) in
  (* Update total stats *)
  let event' :=
    mkEvent (ev_id event) (title event) (ev_organizerId event) (ev_status event)
      (registrationOpen event) (registrationClose event) tiers
      (totalQuota event)
      (sumZ (map sold tiers))
      (sumZ (map (fun t => sold t * price t) tiers)) in
  Event_save event'.

(* ================================================================= *)
(** ** [models/Registration.ts]: pre-save hooks, [save] and [create] *)

Definition PaymentStatus_eqb (a b : PaymentStatus) : bool :=
  match a, b with
  | pay_pending, pay_pending | pay_paid, pay_paid | pay_expired, pay_expired
  | pay_failed, pay_failed | pay_refunded, pay_refunded => true
  | _, _ => false
  end.

Definition RegistrationStatus_eqb (a b : RegistrationStatus) : bool :=
  match a, b with
  | pending_payment, pending_payment | confirmed, confirmed
  | cancelled, cancelled | attended, attended | no_show, no_show => true
  | _, _ => false
  end.

Definition TicketStatus_eqb (a b : TicketStatus) : bool :=
  match a, b with
  | tk_valid, tk_valid | tk_used, tk_used | tk_cancelled, tk_cancelled
  | tk_expired, tk_expired => true
  | _, _ => false
  end.

(** Template literal interpolation of an integer. *)
Definition showZ (z : Z) : string := NilZero.string_of_int (Z.to_int z).

(** A string is falsy exactly when it is empty. *)
Definition isEmpty (s : string) : bool := String.eqb s "".

(** First hook: [if (this.isNew && !this.registrationNumber)]. *)
Definition preSaveRegistrationNumber (env : Env) (isNew : bool)
    (doc : IRegistration) : IRegistration :=
  if isNew && isEmpty (registrationNumber doc)
  then set_registrationNumber
         ("NV-" ++ showZ (year env) ++ "-" ++ nanoid10 env) doc
  else doc.

(** Second hook: [if (this.isModified('payment.status') &&
    this.payment.status === 'paid' && !this.ticket.ticketNumber)]. *)
Definition preSaveTicketNumber (env : Env) (modifiedPaymentStatus : bool)
    (doc : IRegistration) : IRegistration :=
  if modifiedPaymentStatus
     && PaymentStatus_eqb (pay_status (payment doc)) pay_paid
     && isEmpty (ticketNumber (ticket doc))
  then set_status confirmed
         (set_ticket
            (set_ticketNumber
               ("NV-TIX-" ++ showZ (year env) ++ "-" ++ nanoid12 env)
               (ticket doc))
            doc)
  else doc.

(** [doc.save()] of a loaded registration: [payment.status] counts as
    modified when it differs from the stored value.  The hooks mutate the
    in-memory document, which is returned.  (A stored document has its
    required paths, and the assignments the services make before a save
    leave them filled.) *)
Definition Registration_save (env : Env) (doc : IRegistration)
  : M IRegistration :=
  fun s =>
    let stored := lookupRegistration s (reg_id doc) in
    let isNew := match stored with Some _ => false | None => true end in
    let modified :=
      match stored with
      | Some old => negb (PaymentStatus_eqb (pay_status (payment old))
                                            (pay_status (payment doc)))
      | None => true
      end in
    let doc' := preSaveTicketNumber env modified
                  (preSaveRegistrationNumber env isNew doc) in
    (Ok doc',
     set_registrations
       (if isNew then registrations s ++ [doc']
        else update_first (has_reg_id (reg_id doc)) (fun _ => doc')
               (registrations s))
       s).

(** A new ObjectId, distinct from every stored one. *)
Definition freshId (l : list IRegistration) : nat :=
  S (list_max (map reg_id l)).

(** The validators of [registrationSchema] that a document of this record
    can fail: [required] on a string path rejects the empty string, [min]
    bounds a number.  The ids and [payment.expiredAt] are always present
    here and the enums are types; the setters [trim] and [lowercase] of the
    participant paths are left out. *)
Definition registrationSchemaAccepts (doc : IRegistration) : bool :=
  negb (isEmpty (registrationNumber doc))
  && negb (isEmpty (ticketType_name doc))
  && (0 <=? ticketType_price doc)
  && (1 <=? quantity doc)
  && negb (isEmpty (fullName (participant doc)))
  && negb (isEmpty (email (participant doc)))
  && negb (isEmpty (phone (participant doc)))
  && negb (isEmpty (method (payment doc)))
  && (0 <=? amount (payment doc))
  && (0 <=? adminFee (payment doc))
  && (0 <=? totalAmount (payment doc))
  && negb (isEmpty (orderId (payment doc))).

(** The head of the message of Mongoose's [ValidationError]; the message
    goes on to list the paths that failed. *)
Definition validationFailed : string := "Registration validation failed".

(** [Registration.create(fields)]: the new document is validated, and only
    then do the pre-save hooks run and is it stored under a new [_id].  The
    registration number of the first hook comes too late for the [required]
    validator of [registrationNumber]. *)
Definition Registration_create (env : Env) (fields : IRegistration)
  : M IRegistration :=
  throwIf (negb (registrationSchemaAccepts fields)) validationFailed ;;;
  s <- get_store ;;
  Registration_save env (set_reg_id (freshId (registrations s)) fields).

(** [Registration.findOne({ userId, eventId, status: { $nin: ['cancelled'] } })] *)
Definition findActiveRegistration (userId_ eventId_ : nat)
  : M (option IRegistration) :=
  fun s =>
    (Ok (find (fun r => Nat.eqb (userId r) userId_
                        && Nat.eqb (eventId r) eventId_
                        && negb (RegistrationStatus_eqb (status r) cancelled))
           (registrations s)), s).

(** [Registration.findOne({ 'payment.orderId': order_id })] *)
Definition findByOrderId (order_id : string) : M (option IRegistration) :=
  fun s =>
    (Ok (find (fun r => String.eqb (orderId (payment r)) order_id)
           (registrations s)), s).

(* ================================================================= *)
(** ** [utils/crypto.ts] and [utils/qrcode.ts] *)

(** [interface QRCodeData] *)
Record QRCodeData : Type := mkQRCodeData {
  qr_ticketNumber : string;
  qr_registrationId : nat;
  qr_eventId : nat;
  qr_userId : nat;
  qr_timestamp : Z
}.

(** The library functions the credential and the webhook rest on.
    [AES_decrypt] is [CryptoJS.AES.decrypt(data, key).toString(Utf8)] and
    [JSON_parse] is [JSON.parse] at the payload type; [None] stands for the
    exception either may raise. *)
Class Primitives : Type := {
  sha512_hex : string -> string;
  serverKey : string;
  AES_encrypt : string -> string;
  AES_decrypt : string -> option string;
  JSON_stringify : QRCodeData -> string;
  JSON_parse : string -> option QRCodeData
}.

Section Credential.
Context {P : Primitives}.

Definition encrypt (data : string) : string := AES_encrypt data.

Definition decrypt (encryptedData : string) : option string :=
  AES_decrypt encryptedData.

Definition encryptQRCode (data : QRCodeData) : string :=
  encrypt (JSON_stringify data).

(** [try { return JSON.parse(decrypt(encryptedData)) }
     catch { throw new Error('Data QR code tidak valid') }] *)
Definition decryptQRCode (encryptedData : string) : Result QRCodeData :=
  match decrypt encryptedData with
  | Some decryptedString =>
      match JSON_parse decryptedString with
      | Some data => Ok data
      | None => Err "Data QR code tidak valid"
      end
  | None => Err "Data QR code tidak valid"
  end.

Definition generateQRCodeData (data : QRCodeData) : string :=
  encryptQRCode data.

Definition generateQRCodeDataURL (env : Env) (data : QRCodeData) : M string :=
  if toDataURL_ok env then ret (generateQRCodeData data)
  else throw "Gagal membuat QR code".

End Credential.

(* ================================================================= *)
(** ** [services/cloudinary.service.ts] and the mailer *)

Definition set_blobs (v : list (string * string)) (s : Store) : Store :=
  mkStore (events s) (registrations s) (users s) (intents s) v.

Definition set_intents (v : list string) (s : Store) : Store :=
  mkStore (events s) (registrations s) (users s) v (blobs s).

Definition cloudinaryUpload (env : Env) (content publicId failure : string)
  : M string :=
  match cloudinary_upload env publicId with
  | Some secure_url =>
      fun s => (Ok secure_url, set_blobs (blobs s ++ [(publicId, content)]) s)
  | None => throw failure
  end.

Definition uploadDataURLToCloudinary (env : Env) (dataURL publicId : string)
  : M string :=
  cloudinaryUpload env dataURL publicId "Gagal mengupload gambar".

Definition uploadToCloudinary (env : Env) (buffer publicId : string)
  : M string :=
  cloudinaryUpload env buffer publicId "Gagal mengupload file".

Definition uploadQRCode (env : Env) (dataURL ticketNumber_ : string)
  : M string :=
  uploadDataURLToCloudinary env dataURL ("qr-" ++ ticketNumber_).

Definition uploadTicketPDF (env : Env) (pdfBuffer ticketNumber_ : string)
  : M string :=
  uploadToCloudinary env pdfBuffer ("ticket-" ++ ticketNumber_).

(** The PDF is represented by the QR text it embeds. *)
Definition generateTicketPDF (env : Env) (qrCodeDataURL : string) : M string :=
  if generateTicketPDF_ok env then ret qrCodeDataURL
  else throw "Gagal membuat PDF tiket".

Definition sendRegistrationConfirmationEmail (env : Env) : M unit :=
  if sendEmail_ok env then ret tt
  else throw "Email service tidak dikonfigurasi".

(* ================================================================= *)
(** ** [PaymentService.createPayment] *)

Record CreatePaymentData : Type := mkCreatePaymentData {
  cp_registrationId : nat;
  cp_amount : Z
}.

Record PaymentIntent : Type := mkPaymentIntent {
  pi_snapToken : string;
  pi_snapUrl : string;
  pi_orderId : string
}.

(** [registration.payment.orderId = orderId; ... .snapToken = ...;
    .snapUrl = ...; .method = 'midtrans'; .totalAmount = ...; .adminFee = ...] *)
Definition recordIntent (orderId_ token url : string) (total fee : Z)
    (p : IPayment) : IPayment :=
  mkPayment "midtrans" (provider p) (pay_status p) (amount p) fee total
    (Some token) (Some url) (transactionId p) orderId_ (paidAt p)
    (expiredAt p) (refundedAt p) (refundReason p).

(** [snap.createTransaction(parameter)]: on success the provider holds an
    intent for the order id. *)
Definition snap_createTransaction (env : Env) (orderId_ : string)
  : M (string * string) :=
  match createTransaction env with
  | Some transaction =>
      fun s => (Ok transaction, set_intents (intents s ++ [orderId_]) s)
  | None => throw "Midtrans API error"
  end.

Definition createPayment (env : Env) (data : CreatePaymentData)
  : M PaymentIntent :=
  catch
    (found <- Registration_findById (cp_registrationId data) ;;
     registration <- orThrow found "Registrasi tidak ditemukan" ;;
     throwIf (negb (PaymentStatus_eqb (pay_status (payment registration))
                                      pay_pending))
       "Payment sudah diproses" ;;;
     (* Generate unique order ID *)
     let orderId_ :=
       "NV-ORDER-" ++ showZ (now env) ++ "-" ++ generateToken8 env in
     let adminFee_ := 0 in
     let totalAmount_ := cp_amount data + adminFee_ in
     (* custom_field2: registration.eventId._id of the populated event *)
     populated <- Event_findById (eventId registration) ;;
     _ <- orThrow populated "Cannot read properties of null" ;;
     transaction <- snap_createTransaction env orderId_ ;;
     _ <- Registration_save env
            (set_payment
               (recordIntent orderId_ (fst transaction) (snd transaction)
                  totalAmount_ adminFee_ (payment registration))
               registration) ;;
     ret (mkPaymentIntent (fst transaction) (snd transaction) orderId_))
    (fun _ => throw "Gagal membuat transaksi pembayaran").

(* ================================================================= *)
(** ** [RegistrationService.generateTicket] and [createRegistration] *)

Section RegistrationService.
Context {P : Primitives}.

Definition set_issued (number qr : string) (qrUrl pdf : option string)
    (t : ITicket) : ITicket :=
  mkTicket number qr qrUrl pdf (tk_status t) (checkIn t).

Definition set_confirmationSent (v : bool) (n : INotifications)
  : INotifications :=
  mkNotifications (reminderSent n) v (thankYouSent n).

Definition generateTicket (env : Env) (registration : IRegistration)
  : M IRegistration :=
  found <- Event_findById (eventId registration) ;;
  event <- orThrow found "Event tidak ditemukan" ;;
  (* Generate QR code data *)
  let qrData :=
    mkQRCodeData
      (if isEmpty (ticketNumber (ticket registration))
       then "NV-TIX-" ++ showZ (now env)
       else ticketNumber (ticket registration))
      (reg_id registration) (ev_id event) (userId registration) (now env) in
  qrCodeDataURL <- generateQRCodeDataURL env qrData ;;
  qrCodeUrl_ <- uploadQRCode env qrCodeDataURL (qr_ticketNumber qrData) ;;
  pdfBuffer <- generateTicketPDF env qrCodeDataURL ;;
  pdfUrl_ <- uploadTicketPDF env pdfBuffer (qr_ticketNumber qrData) ;;
  (* Update registration *)
  registration <- Registration_save env
    (set_ticket
       (set_issued (qr_ticketNumber qrData) (JSON_stringify qrData)
          (Some qrCodeUrl_) (Some pdfUrl_) (ticket registration))
       registration) ;;
  (* Send confirmation email *)
  catch
    (sendRegistrationConfirmationEmail env ;;;
     Registration_save env
       (set_notifications
          (set_confirmationSent true (notifications registration))
          registration))
    (fun _ => ret registration).

Record CreateRegistrationData : Type := mkCreateRegistrationData {
  cr_userId : nat;
  cr_eventId : nat;
  cr_ticketTypeId : nat;
  cr_quantity : option Z;
  cr_participant : IParticipant
}.

(** [data.quantity || 1] *)
Definition quantityOrOne (q : option Z) : Z :=
  match q with
  | Some n => if n =? 0 then 1 else n
  | None => 1
  end.

(** The document handed to [Registration.create]. *)
Definition newRegistration (env : Env) (data : CreateRegistrationData)
    (event : IEvent) (ticketType_ : ITicketType) (quantity_ amount_ : Z)
  : IRegistration :=
  let adminFee_ := 0 in
  let totalAmount_ := amount_ + adminFee_ in
  let free := amount_ =? 0 in
  mkRegistration 0%nat "" (cr_userId data) (cr_eventId data)
    (ev_organizerId event)
    (tt_id ticketType_) (tt_name ticketType_) (price ticketType_)
    quantity_ (cr_participant data)
    (mkPayment (if free then "free" else "midtrans")
       (if free then Some "free" else None)
       (if free then pay_paid else pay_pending)
       amount_ adminFee_ totalAmount_ None None None
       ""
       (if free then Some (now env) else None)
       (now env + expiryHours env * 60 * 60 * 1000)
       None None)
    (mkTicket "" "" None None tk_valid None)
    (if free then confirmed else pending_payment)
    None
    (mkNotifications false false false)
    None.

(** What the first half of [createRegistration] holds in its local
    variables when it reaches [eventService.updateTicketAvailability]:
    the event and tier as read at the start, and the created document. *)
Record Admission : Type := mkAdmission {
  ad_event : IEvent;
  ad_ticketType : ITicketType;
  ad_quantity : Z;
  ad_amount : Z;
  ad_registration : IRegistration
}.

(** [createRegistration], from its start to its last check; the event and
    the tier it has read are handed on. *)
Definition checkRegistration (env : Env) (data : CreateRegistrationData)
  : M (IEvent * ITicketType) :=
  (* Validate event exists and is open for registration *)
  found <- Event_findById (cr_eventId data) ;;
  event <- orThrow found "Event tidak ditemukan" ;;
  throwIf (match ev_status event with ev_published => false | _ => true end)
    "Event belum dipublikasikan" ;;;
  throwIf (now env <? registrationOpen event) "Pendaftaran belum dibuka" ;;;
  throwIf (now env >? registrationClose event) "Pendaftaran sudah ditutup" ;;;
  (* Validate ticket type *)
  ticketType_ <- orThrow (findTicketType event (cr_ticketTypeId data))
                   "Tipe tiket tidak ditemukan" ;;
  throwIf (negb (isActive ticketType_)) "Tipe tiket tidak aktif" ;;;
  throwIf (available ticketType_ <=? 0) "Tiket sudah habis" ;;;
  (* Check if user already registered *)
  existingRegistration <-
    findActiveRegistration (cr_userId data) (cr_eventId data) ;;
  throwIf (match existingRegistration with Some _ => true | None => false end)
    "Anda sudah terdaftar untuk event ini" ;;;
  (* Get user details *)
  user <- User_findById (cr_userId data) ;;
  _ <- orThrow user "User tidak ditemukan" ;;
  ret (event, ticketType_).

(** [createRegistration], from its start through [Registration.create]. *)
Definition admitRegistration (env : Env) (data : CreateRegistrationData)
  : M Admission :=
  checked <- checkRegistration env data ;;
  let event := fst checked in
  let ticketType_ := snd checked in
  (* Calculate payment *)
  let quantity_ := quantityOrOne (cr_quantity data) in
  let amount_ := price ticketType_ * quantity_ in
  (* Create registration *)
  registration <- Registration_create env
    (newRegistration env data event ticketType_ quantity_ amount_) ;;
  ret (mkAdmission event ticketType_ quantity_ amount_ registration).

(** [createRegistration], from the ledger write to the end.  The counters
    written are the ones read by the first half. *)
Definition completeRegistration (env : Env) (a : Admission)
  : M (IRegistration * option PaymentIntent) :=
  let adminFee_ := 0 in
  let totalAmount_ := ad_amount a + adminFee_ in
  (* Reserve ticket *)
  updateTicketAvailability (ev_id (ad_event a)) (tt_id (ad_ticketType a))
    (sold (ad_ticketType a))
    (reserved (ad_ticketType a) + ad_quantity a) ;;;
  (* If free event, generate ticket immediately *)
  registration <-
    (if ad_amount a =? 0 then generateTicket env (ad_registration a)
     else ret (ad_registration a)) ;;
  (* Create payment if not free *)
  paymentData <-
    (if ad_amount a >? 0
     then intent <- createPayment env
                      (mkCreatePaymentData (reg_id registration) totalAmount_) ;;
          ret (Some intent)
     else ret None) ;;
  ret (registration, paymentData).

Definition createRegistration (env : Env) (data : CreateRegistrationData)
  : M (IRegistration * option PaymentIntent) :=
  a <- admitRegistration env data ;;
  completeRegistration env a.

End RegistrationService.

(* ================================================================= *)
(** ** [PaymentService.requestRefund] and
       [RegistrationService.cancelRegistration] *)

(** The lookup that precedes every ledger call outside registration
    creation: [Event.findById(registration.eventId)], then
    [event.ticketTypes.find(...)]; the call is skipped when the event or
    the tier is gone. *)
Definition adjustTier (registration : IRegistration)
    (newSold newReserved : ITicketType -> Z) : M unit :=
  found <- Event_findById (eventId registration) ;;
  match found with
  | Some event =>
      match findTicketType event (ticketType_id registration) with
      | Some ticketType_ =>
          updateTicketAvailability (ev_id event) (tt_id ticketType_)
            (newSold ticketType_) (newReserved ticketType_)
      | None => ret tt
      end
  | None => ret tt
  end.

Definition requestRefund (env : Env) (registrationId : nat) (reason_ : string)
  : M unit :=
  found <- Registration_findById registrationId ;;
  registration <- orThrow found "Registrasi tidak ditemukan" ;;
  throwIf (negb (PaymentStatus_eqb (pay_status (payment registration)) pay_paid))
    "Hanya pembayaran yang sudah berhasil yang dapat di-refund" ;;;
  _ <- Registration_save env
         (set_cancellation
            (Some (mkCancellation (now env) None reason_ "pending"))
            (set_payment (set_refundReason (Some reason_) (payment registration))
               registration)) ;;
  ret tt.

Definition cancelRegistration (env : Env) (registrationId userId_ : nat)
    (reason_ : string) : M IRegistration :=
  found <- Registration_findById registrationId ;;
  registration <- orThrow found "Registrasi tidak ditemukan" ;;
  throwIf (negb (Nat.eqb (userId registration) userId_))
    "Akses tidak diizinkan" ;;;
  throwIf (RegistrationStatus_eqb (status registration) cancelled)
    "Registrasi sudah dibatalkan" ;;;
  throwIf (RegistrationStatus_eqb (status registration) attended)
    "Registrasi yang sudah attended tidak dapat dibatalkan" ;;;
  (* Mark as cancelled *)
  let paid := PaymentStatus_eqb (pay_status (payment registration)) pay_paid in
  let pending :=
    PaymentStatus_eqb (pay_status (payment registration)) pay_pending in
  registration <- Registration_save env
    (set_cancellation
       (Some (mkCancellation (now env) (Some (userId registration)) reason_
                (if paid then "pending" else "not_applicable")))
       (set_ticket (set_tk_status tk_cancelled (ticket registration))
          (set_status cancelled registration))) ;;
  (* Release ticket *)
  adjustTier registration
    (fun t => if paid then Z.max 0 (sold t - 1) else sold t)
    (fun t => if pending then Z.max 0 (reserved t - 1) else reserved t) ;;;
  (* Request refund if paid *)
  (if paid then requestRefund env registrationId reason_ else ret tt) ;;;
  ret registration.

(* ================================================================= *)
(** ** [PaymentService.handlePaymentNotification] and its handlers *)

Record PaymentNotification : Type := mkPaymentNotification {
  order_id : string;
  status_code : string;
  gross_amount : string;
  signature_key : string;
  transaction_status : string;
  transaction_id : string;
  payment_type : string;
  fraud_status : option string
}.

Section PaymentService.
Context {P : Primitives}.

Definition verifyNotification (notification : PaymentNotification) : bool :=
  String.eqb
    (sha512_hex (order_id notification ++ status_code notification
                 ++ gross_amount notification ++ serverKey))
    (signature_key notification).

Definition set_urls (qr : string) (pdf : option string) (t : ITicket)
  : ITicket :=
  mkTicket (ticketNumber t) qr (qrCodeUrl t) pdf (tk_status t) (checkIn t).

(** [generateAndSendTicket]: every failure is caught and logged.  The caller
    does not await it; here it runs to completion where it is started.
    The registration comes from [handlePaymentNotification] with [userId]
    populated, which is null when the user is not stored:
    [registration.userId.toString()] then throws before anything is
    rendered. *)
Definition generateAndSendTicket (env : Env) (registration : IRegistration)
  : M unit :=
  catch
    (found <- Event_findById (eventId registration) ;;
     match found with
     | None => ret tt
     | Some event =>
         (* Generate encrypted QR code *)
         user <- User_findById (userId registration) ;;
         _ <- orThrow user "Cannot read properties of null" ;;
         let qrData :=
           mkQRCodeData (ticketNumber (ticket registration))
             (reg_id registration) (ev_id event) (userId registration)
             (now env) in
         qrCodeDataURL <- generateQRCodeDataURL env qrData ;;
         qrUpload <- uploadDataURLToCloudinary env qrCodeDataURL
                       ("qr_" ++ ticketNumber (ticket registration)) ;;
         pdfBuffer <- generateTicketPDF env qrCodeDataURL ;;
         pdfUpload <- uploadToCloudinary env pdfBuffer
                        ("ticket_" ++ ticketNumber (ticket registration)) ;;
         (* Update registration with ticket URLs *)
         _ <- Registration_save env
                (set_ticket (set_urls qrUpload (Some pdfUpload)
                               (ticket registration))
                   registration) ;;
         sendRegistrationConfirmationEmail env
     end)
    (fun _ => ret tt).

Definition handleSuccessfulPayment (env : Env) (registration : IRegistration)
    (transactionId_ : string) : M unit :=
  (* Update payment status *)
  registration <- Registration_save env
    (set_status confirmed
       (set_payment
          (set_transactionId (Some transactionId_)
             (set_paidAt (Some (now env))
                (set_pay_status pay_paid (payment registration))))
          registration)) ;;
  (* Update ticket availability *)
  adjustTier registration
    (fun t => sold t + 1) (fun t => Z.max 0 (reserved t - 1)) ;;;
  (* Generate and send ticket asynchronously *)
  generateAndSendTicket env registration.

Definition handleFailedPayment (env : Env) (registration : IRegistration)
    (reason_ : string) : M unit :=
  registration <- Registration_save env
    (set_status cancelled
       (set_payment
          (set_pay_status
             (if String.eqb reason_ "expire" then pay_expired else pay_failed)
             (payment registration))
          registration)) ;;
  (* Release reserved ticket *)
  adjustTier registration
    (fun t => sold t) (fun t => Z.max 0 (reserved t - 1)).

Definition handleRefund (env : Env) (registration : IRegistration) : M unit :=
  registration <- Registration_save env
    (set_ticket (set_tk_status tk_cancelled (ticket registration))
       (set_status cancelled
          (set_payment
             (set_refundedAt (Some (now env))
                (set_pay_status pay_refunded (payment registration)))
             registration))) ;;
  (* Update ticket count *)
  adjustTier registration
    (fun t => Z.max 0 (sold t - 1)) (fun t => reserved t).

Definition setPaymentPending (env : Env) (registration : IRegistration)
  : M unit :=
  _ <- Registration_save env
         (set_payment (set_pay_status pay_pending (payment registration))
            registration) ;;
  ret tt.

(** [fraud_status === 'accept' || !fraud_status] *)
Definition fraudAccepted (f : option string) : bool :=
  match f with
  | None => true
  | Some v => String.eqb v "accept" || isEmpty v
  end.

Definition isOneOf (v : string) (l : list string) : bool :=
  existsb (String.eqb v) l.

Definition handlePaymentNotification (env : Env)
    (notification : PaymentNotification) : M unit :=
  (* Verify notification authenticity *)
  throwIf (negb (verifyNotification notification))
    "Signature notifikasi tidak valid" ;;;
  (* Find registration by order ID *)
  found <- findByOrderId (order_id notification) ;;
  match found with
  | None => ret tt
  | Some registration =>
      let ts := transaction_status notification in
      if isOneOf ts ["capture"; "settlement"] then
        if fraudAccepted (fraud_status notification) then
          handleSuccessfulPayment env registration
            (transaction_id notification)
        else
          match fraud_status notification with
          | Some "challenge" => setPaymentPending env registration
          | _ => ret tt
          end
      else if String.eqb ts "pending" then
        setPaymentPending env registration
      else if isOneOf ts ["deny"; "cancel"; "expire"] then
        handleFailedPayment env registration ts
      else if isOneOf ts ["refund"; "partial_refund"] then
        handleRefund env registration
      else ret tt
  end.

(** [processRefund] (admin only) *)
Definition processRefund (env : Env) (registrationId : nat) : M unit :=
  found <- Registration_findById registrationId ;;
  registration <- orThrow found "Registrasi tidak ditemukan" ;;
  handleRefund env registration.

End PaymentService.

(* ================================================================= *)
(** ** [RegistrationService.checkInRegistration] and [validateQRCode] *)

Definition checkInRegistration (env : Env) (registrationId checkedBy_ : nat)
    (location_ deviceInfo_ : option string) : M IRegistration :=
  found <- Registration_findById registrationId ;;
  registration <- orThrow found "Registrasi tidak ditemukan" ;;
  throwIf (negb (RegistrationStatus_eqb (status registration) confirmed))
    "Registrasi belum dikonfirmasi" ;;;
  throwIf (TicketStatus_eqb (tk_status (ticket registration)) tk_used)
    "Tiket sudah digunakan" ;;;
  throwIf (TicketStatus_eqb (tk_status (ticket registration)) tk_cancelled)
    "Tiket sudah dibatalkan" ;;;
  (* Mark as checked in *)
  Registration_save env
    (set_ticket
       (set_checkIn
          (Some (mkCheckIn (now env) checkedBy_ location_ deviceInfo_))
          (set_tk_status tk_used (ticket registration)))
       (set_status attended registration)).

Record Validation : Type := mkValidation {
  valid : bool;
  v_registration : option IRegistration;
  v_message : string
}.

(** 30 days *)
Definition maxAge : Z := 30 * 24 * 60 * 60 * 1000.

Definition validateQRCode (env : Env) (qrData : QRCodeData) : M Validation :=
  (* Check if QR code is not too old *)
  let qrAge := now env - qr_timestamp qrData in
  if qrAge >? maxAge then
    ret (mkValidation false None "QR code sudah kedaluwarsa")
  else
    (* Find registration *)
    found <- Registration_findById (qr_registrationId qrData) ;;
    match found with
    | None => ret (mkValidation false None "Registrasi tidak ditemukan")
    | Some registration =>
        (* Validate ticket number *)
        if negb (String.eqb (ticketNumber (ticket registration))
                            (qr_ticketNumber qrData)) then
          ret (mkValidation false None "Nomor tiket tidak valid")
        (* Check ticket status *)
        else if TicketStatus_eqb (tk_status (ticket registration)) tk_used then
          ret (mkValidation false (Some registration)
                 ("Tiket sudah digunakan pada "
                  ++ formatDate env
                       (match checkIn (ticket registration) with
                        | Some c => checkedAt c
                        | None => now env
                        end)))
        else if TicketStatus_eqb (tk_status (ticket registration)) tk_cancelled
        then ret (mkValidation false (Some registration)
                    "Tiket sudah dibatalkan")
        else if negb (RegistrationStatus_eqb (status registration) confirmed)
        then ret (mkValidation false (Some registration)
                    "Registrasi belum dikonfirmasi")
        else ret (mkValidation true (Some registration) "QR code valid")
    end.

(* ================================================================= *)
(** ** [CheckInService.processCheckIn] *)

Record CheckInData : Type := mkCheckInData {
  qrCodeData : string;
  ci_checkedBy : nat;
  ci_location : option string;
  ci_deviceInfo : option string
}.

Record CheckInOutcome : Type := mkCheckInOutcome {
  success : bool;
  o_registration : option IRegistration;
  o_message : string
}.

Section CheckInService.
Context {P : Primitives}.

(** The decoding step: [decryptQRCode], and when it throws,
    [JSON.parse] of the raw string. *)
Definition decodeQRCode (raw : string) : option QRCodeData :=
  match decryptQRCode raw with
  | Ok qrData => Some qrData
  | Err _ => JSON_parse raw
  end.

Definition processCheckIn (env : Env) (data : CheckInData) : M CheckInOutcome :=
  catch
    (match decodeQRCode (qrCodeData data) with
     | None => ret (mkCheckInOutcome false None "QR code tidak valid")
     | Some qrData =>
         (* Validate QR code *)
         validation <- validateQRCode env qrData ;;
         if negb (valid validation) then
           ret (mkCheckInOutcome false (v_registration validation)
                  (v_message validation))
         else
           (* Check in the registration *)
           registration <- checkInRegistration env (qr_registrationId qrData)
                             (ci_checkedBy data) (ci_location data)
                             (ci_deviceInfo data) ;;
           ret (mkCheckInOutcome true (Some registration) "Check-in berhasil")
     end)
    (fun message =>
       ret (mkCheckInOutcome false None
              (if isEmpty message then "Gagal melakukan check-in"
               else message))).

End CheckInService.

(* ================================================================= *)
(** ** [jobs/payment.job.ts]: [expirePaymentsJob] *)

(** [Registration.find({ 'payment.status': 'pending',
                         'payment.expiredAt': { $lte: now } })] *)
Definition isExpiredPending (now_ : Z) (r : IRegistration) : bool :=
  PaymentStatus_eqb (pay_status (payment r)) pay_pending
  && (expiredAt (payment r) <=? now_).

Definition findExpiredPending (now_ : Z) : M (list IRegistration) :=
  fun s => (Ok (filter (isExpiredPending now_) (registrations s)), s).

(** The body of the loop, inside its [try]. *)
Definition expireRegistration (env : Env) (registration : IRegistration)
  : M unit :=
  (* Update payment status to expired *)
  registration <- Registration_save env
    (set_ticket (set_tk_status tk_expired (ticket registration))
       (set_status cancelled
          (set_payment (set_pay_status pay_expired (payment registration))
             registration))) ;;
  (* Release reserved tickets *)
  adjustTier registration
    (fun t => sold t)
    (fun t => Z.max 0 (reserved t - quantity registration)).

(** [for (const registration of expiredRegistrations) { try {...;
    expiredCount++ } catch (error) { log } }] *)
Fixpoint expireAll (env : Env) (l : list IRegistration) (expiredCount : Z)
  : M Z :=
  match l with
  | [] => ret expiredCount
  | registration :: rest =>
      n <- catch (expireRegistration env registration ;;;
                  ret (expiredCount + 1))
                 (fun _ => ret expiredCount) ;;
      expireAll env rest n
  end.

Definition expirePaymentsJob (env : Env) : M Z :=
  catch
    (expiredRegistrations <- findExpiredPending (now env) ;;
     expireAll env expiredRegistrations 0)
    (fun _ => ret 0).

(* ================================================================= *)
(** ** A reference instance of the primitives *)

Module Sample.

Definition dq : string := String (Ascii.ascii_of_nat 34) "".

Fixpoint stripPrefix (p s : string) : option string :=
  match p, s with
  | EmptyString, _ => Some s
  | String a p', String b s' =>
      if Ascii.eqb a b then stripPrefix p' s' else None
  | _, _ => None
  end.

(** Splits at the first occurrence of the character [c]. *)
Fixpoint splitAt (c : Ascii.ascii) (s : string) : option (string * string) :=
  match s with
  | EmptyString => None
  | String x rest =>
      if Ascii.eqb x c then Some (EmptyString, rest)
      else match splitAt c rest with
           | Some (a, b) => Some (String x a, b)
           | None => None
           end
  end.

Definition key (k : string) : string := dq ++ k ++ dq ++ ":".

Definition stringify (d : QRCodeData) : string :=
  "{" ++ key "ticketNumber" ++ dq ++ qr_ticketNumber d ++ dq
  ++ "," ++ key "registrationId" ++ dq
         ++ showZ (Z.of_nat (qr_registrationId d)) ++ dq
  ++ "," ++ key "eventId" ++ dq ++ showZ (Z.of_nat (qr_eventId d)) ++ dq
  ++ "," ++ key "userId" ++ dq ++ showZ (Z.of_nat (qr_userId d)) ++ dq
  ++ "," ++ key "timestamp" ++ showZ (qr_timestamp d) ++ "}".

Definition readZ (s : string) : option Z :=
  option_map Z.of_int (NilZero.int_of_string s).

Definition quoted (k : string) (s : string) : option (string * string) :=
  match stripPrefix (key k ++ dq) s with
  | Some rest => splitAt (Ascii.ascii_of_nat 34) rest
  | None => None
  end.

Definition parse (s : string) : option QRCodeData :=
  match stripPrefix "{" s with
  | None => None
  | Some s1 =>
  match quoted "ticketNumber" s1 with
  | None => None
  | Some (tn, s2) =>
  match option_map (quoted "registrationId") (stripPrefix "," s2) with
  | Some (Some (rid, s3)) =>
  match option_map (quoted "eventId") (stripPrefix "," s3) with
  | Some (Some (eid, s4)) =>
  match option_map (quoted "userId") (stripPrefix "," s4) with
  | Some (Some (uid, s5)) =>
  match stripPrefix ("," ++ key "timestamp") s5 with
  | Some s6 =>
      match splitAt (Ascii.ascii_of_nat 125) s6 with
      | Some (ts, EmptyString) =>
          match readZ rid, readZ eid, readZ uid, readZ ts with
          | Some r, Some e, Some u, Some t =>
              Some (mkQRCodeData tn (Z.to_nat r) (Z.to_nat e) (Z.to_nat u) t)
          | _, _, _, _ => None
          end
      | _ => None
      end
  | None => None
  end
  | _ => None
  end
  | _ => None
  end
  | _ => None
  end
  end
  end.

(** A tagging cipher: it stands in for CryptoJS in the examples. *)
Definition seal (s : string) : string := "U2FsdGVkX1" ++ s.
Definition unseal (s : string) : option string := stripPrefix "U2FsdGVkX1" s.

#[export] Instance primitives : Primitives := {|
  sha512_hex := fun s => "sha512(" ++ s ++ ")";
  serverKey := "SB-Mid-server-key";
  AES_encrypt := seal;
  AES_decrypt := unseal;
  JSON_stringify := stringify;
  JSON_parse := parse
|}.

End Sample.
Import Sample.

(* ================================================================= *)
(** * Notions used in the statements *)

(** ** The documents and stores the operations write *)

(** The event document [updateTicketAvailability] saves, hooks applied. *)
Definition tierWritten (tid : nat) (soldCount reservedCount : Z) (e : IEvent)
  : IEvent :=
  let tiers := update_first (has_tt_id tid)
                 (setCounters soldCount reservedCount) (ticketTypes e) in
  eventPreSave (Some e)
    (mkEvent (ev_id e) (title e) (ev_organizerId e) (ev_status e)
       (registrationOpen e) (registrationClose e) tiers (totalQuota e)
       (sumZ (map sold tiers))
       (sumZ (map (fun t => sold t * price t) tiers))).

Definition writeTier (s : Store) (tid : nat) (soldCount reservedCount : Z)
    (e : IEvent) : Store :=
  set_events
    (update_first (has_ev_id (ev_id e))
       (fun _ => tierWritten tid soldCount reservedCount e) (events s))
    s.

(** The store once the document [doc'] has replaced the stored one. *)
Definition storeReg (s : Store) (doc' : IRegistration) : Store :=
  set_registrations
    (update_first (has_reg_id (reg_id doc')) (fun _ => doc') (registrations s))
    s.

(** The document a successful check-in stores. *)
Definition checkedIn (env : Env) (checkedBy_ : nat)
    (location_ deviceInfo_ : option string) (r : IRegistration)
  : IRegistration :=
  set_ticket
    (set_checkIn (Some (mkCheckIn (now env) checkedBy_ location_ deviceInfo_))
       (set_tk_status tk_used (ticket r)))
    (set_status attended r).

(** The document [createPayment] stores once the provider has answered. *)
Definition withIntent (env : Env) (total : Z) (transaction : string * string)
    (r : IRegistration) : IRegistration :=
  set_payment
    (recordIntent ("NV-ORDER-" ++ showZ (now env) ++ "-" ++ generateToken8 env)
       (fst transaction) (snd transaction) (total + 0) 0 (payment r))
    r.

(** The document the sweep stores for a registration. *)
Definition expired (r : IRegistration) : IRegistration :=
  set_ticket (set_tk_status tk_expired (ticket r))
    (set_status cancelled
       (set_payment (set_pay_status pay_expired (payment r)) r)).



(** ** What a call is given *)

(** What the checks of the first half ask of the store. *)
Record Admissible (env : Env) (data : CreateRegistrationData) (s : Store)
    (e : IEvent) (t : ITicketType) : Prop := {
  adm_event : lookupEvent s (cr_eventId data) = Some e;
  adm_published : ev_status e = ev_published;
  adm_open : registrationOpen e <= now env;
  adm_close : now env <= registrationClose e;
  adm_tier : findTicketType e (cr_ticketTypeId data) = Some t;
  adm_active : isActive t = true;
  adm_no_active :
    find (fun r => Nat.eqb (userId r) (cr_userId data)
                   && Nat.eqb (eventId r) (cr_eventId data)
                   && negb (RegistrationStatus_eqb (status r) cancelled))
      (registrations s) = None;
  adm_user : In (cr_userId data) (users s)
}.

(** The QR renderer, the PDF renderer and Cloudinary all succeed. *)
Definition Renders (env : Env) : Prop :=
  toDataURL_ok env = true
  /\ generateTicketPDF_ok env = true
  /\ forall publicId, cloudinary_upload env publicId <> None.

(** ** Views of the ledger *)

(** [(quota, sold, reserved)] of a tier, [available] left out. *)
Definition ledger (s : Store) (eid tid : nat) : option (Z * Z * Z) :=
  option_map (fun t => (quota t, sold t, reserved t)) (lookupTier s eid tid).

Definition onTier (eid tid : nat) (r : IRegistration) : bool :=
  Nat.eqb (eventId r) eid && Nat.eqb (ticketType_id r) tid.

(** One expired registration's effect on the ledger. *)
Definition releaseOf (eid tid : nat) (r : IRegistration) (c : Z * Z * Z)
  : Z * Z * Z :=
  let '(q, so, re) := c in
  (q, so, if onTier eid tid r then Z.max 0 (re - quantity r) else re).

(** What one tier's [reserved] becomes when the registrations of [l] are
    expired in turn: each one on the tier takes its quantity off, and the
    counter stops at zero. *)
Definition sweepTier (eid tid : nat) (l : list IRegistration) (res : Z) : Z :=
  fold_left
    (fun acc r => if onTier eid tid r then Z.max 0 (acc - quantity r) else acc)
    l res.

(** ** Calls that overlap *)

(** A call runs without interruption from one [await] to the next; calls
    overlap only at these points.  [createRegistration] is followed here
    through its two halves: a call that has been admitted still holds the
    tier counters it read. *)
Inductive Call : Type :=
| Waiting (env : Env) (data : CreateRegistrationData)
| Holding (env : Env) (a : Admission)
| Finished (result : Result (IRegistration * option PaymentIntent)).

Inductive Outcome : Type := Reserved | SoldOut | Other.

Definition outcome (r : Result (IRegistration * option PaymentIntent))
  : Outcome :=
  match r with
  | Ok (registration, _) =>
      match status registration with
      | pending_payment => Reserved
      | _ => Other
      end
  | Err message =>
      if String.eqb message "Tiket sudah habis" then SoldOut else Other
  end.

Definition isReserved (o : Outcome) : bool :=
  match o with Reserved => true | _ => false end.

Definition isSoldOut (o : Outcome) : bool :=
  match o with SoldOut => true | _ => false end.

(** The turn order in which each call takes both its turns in a row. *)
Fixpoint inSequence (first n : nat) : list nat :=
  match n with
  | O => []
  | S m => first :: first :: inSequence (S first) m
  end.

Section Turns.
Context {P : Primitives}.

(** One turn of a call. *)
Definition advance (c : Call) (s : Store) : Call * Store :=
  match c with
  | Waiting env data =>
      match admitRegistration env data s with
      | (Ok a, s') => (Holding env a, s')
      | (Err e, s') => (Finished (Err e), s')
      end
  | Holding env a =>
      let (result, s') := completeRegistration env a s in
      (Finished result, s')
  | Finished _ => (c, s)
  end.

Fixpoint replaceNth {A} (i : nat) (x : A) (l : list A) : list A :=
  match l, i with
  | [], _ => []
  | _ :: rest, O => x :: rest
  | y :: rest, S j => y :: replaceNth j x rest
  end.

(** [turns] names, turn by turn, the call that runs next. *)
Fixpoint schedule (turns : list nat) (calls : list Call) (s : Store)
  : list Call * Store :=
  match turns with
  | [] => (calls, s)
  | i :: rest =>
      match nth_error calls i with
      | Some c =>
          let (c', s') := advance c s in
          schedule rest (replaceNth i c' calls) s'
      | None => schedule rest calls s
      end
  end.

(** The calls of a list, each one run to its end before the next starts. *)
Fixpoint createAll (calls : list (Env * CreateRegistrationData)) (s : Store)
  : list (Result (IRegistration * option PaymentIntent)) * Store :=
  match calls with
  | [] => ([], s)
  | (env, data) :: rest =>
      let (result, s1) := createRegistration env data s in
      let (results, s2) := createAll rest s1 in
      (result :: results, s2)
  end.

End Turns.

(** ** Altered credentials *)

(** [b] is [a] with exactly one character replaced. *)
Fixpoint oneByteFlipped (a b : string) : Prop :=
  match a, b with
  | String x a', String y b' =>
      (x <> y /\ a' = b') \/ (x = y /\ oneByteFlipped a' b')
  | _, _ => False
  end.

(* ================================================================= *)
(** ** A worked scenario

    One event with a paid tier of quota 1 and a free tier of quota 5, three
    users, a stored registration that awaits its payment, and the calls
    that follow: settlement, check-in, cancellation, the sweep. *)

Module Scenario.
Import Sample.

Definition seminar : IEvent :=
  mkEvent 1 "Seminar Nasional" 100 ev_published 0 2000000000000
    [mkTicketType 10 "Regular" 50000 1 0 0 1 true;
     mkTicketType 11 "Gratis" 0 5 0 0 5 true]
    6 0 0.

Definition s0 : Store :=
  mkStore [seminar] [] [7%nat; 8%nat; 9%nat] [] [].

Definition world (now_ : Z) (id10 id12 token : string)
    (transaction : option (string * string)) : Env :=
  mkEnv now_ 2025 id10 id12 token 24 transaction true
    (fun publicId => Some ("https://res.cloudinary.com/nesavent/" ++ publicId))
    true true showZ.

Definition midtrans : option (string * string) :=
  Some ("snap-token-1", "https://app.midtrans.com/snap/v2/vtweb/snap-token-1").

(** Creation at t0, settlement 100 s later, the gate one day later. *)
Definition t0 : Z := 1700000000000.
Definition env_create : Env :=
  world t0 "ABCDEFGHIJ" "ABCDEFGHIJKL" "a1b2c3d4e5f6a7b8" midtrans.
Definition env_settle : Env :=
  world (t0 + 100000) "KLMNOPQRST" "MNOPQRSTUVWX" "0011223344556677" midtrans.
Definition env_again : Env :=
  world (t0 + 160000) "UVWXYZABCD" "YZABCDEFGHIJ" "8899aabbccddeeff" midtrans.
Definition env_gate : Env :=
  world (t0 + 86400000) "EFGHIJKLMN" "KLMNOPQRSTUV" "0123456789abcdef" midtrans.
(** The hourly sweep, two days after creation. *)
Definition env_sweep : Env :=
  world (t0 + 172800000) "OPQRSTUVWX" "WXYZABCDEFGH" "fedcba9876543210"
    midtrans.

Definition alice : IParticipant :=
  mkParticipant "Alice Putri" "alice@example.com" "081234567890".
Definition budi : IParticipant :=
  mkParticipant "Budi Santoso" "budi@example.com" "081298765432".

Definition buy (user tier : nat) (q : option Z) (who : IParticipant)
  : CreateRegistrationData :=
  mkCreateRegistrationData user 1 tier q who.

Definition order1 : string := "NV-ORDER-1700000000000-a1b2c3d4e5f6a7b8".

(** A notification for [order1], signed with the server key. *)
Definition notify (transaction_status_ : string) : PaymentNotification :=
  mkPaymentNotification order1 "200" "50000.00"
    (sha512_hex (order1 ++ "200" ++ "50000.00" ++ serverKey))
    transaction_status_ "tx-1" "bank_transfer" None.

(** The stored registration of Alice for one Regular ticket, not paid yet:
    numbered, with the order id and the tokens of its payment intent, due
    24 hours after [t0]. *)
Definition alice_pending : IRegistration :=
  mkRegistration 1 "NV-2025-ABCDEFGHIJ" 7 1 100 10 "Regular" 50000 1 alice
    (mkPayment "midtrans" None pay_pending 50000 0 50000
       (Some "snap-token-1")
       (Some "https://app.midtrans.com/snap/v2/vtweb/snap-token-1")
       None order1 None (t0 + 86400000) None None)
    (mkTicket "" "" None None tk_valid None)
    pending_payment None (mkNotifications false false false) None.

(** The store that holds it: the Regular tier has its one unit reserved
    and the provider holds the intent. *)
Definition s_pending : Store :=
  mkStore
    [mkEvent 1 "Seminar Nasional" 100 ev_published 0 2000000000000
       [mkTicketType 10 "Regular" 50000 1 0 1 0 true;
        mkTicketType 11 "Gratis" 0 5 0 0 5 true]
       6 0 0]
    [alice_pending] [7%nat; 8%nat; 9%nat] [order1] [].

(** A second stored registration, of Budi, made a day later and due a day
    after Alice's; and a store in which the Regular tier has quota 2 and
    holds both reservations. *)
Definition budi_pending : IRegistration :=
  mkRegistration 2 "NV-2025-BCDEFGHIJK" 8 1 100 10 "Regular" 50000 1 budi
    (mkPayment "midtrans" None pay_pending 50000 0 50000
       (Some "snap-token-2")
       (Some "https://app.midtrans.com/snap/v2/vtweb/snap-token-2")
       None "NV-ORDER-1700086400000-0123456789abcdef" None
       (t0 + 172800000) None None)
    (mkTicket "" "" None None tk_valid None)
    pending_payment None (mkNotifications false false false) None.

Definition s_two : Store :=
  mkStore
    [mkEvent 1 "Seminar Nasional" 100 ev_published 0 2000000000000
       [mkTicketType 10 "Regular" 50000 2 0 2 0 true;
        mkTicketType 11 "Gratis" 0 5 0 0 5 true]
       7 0 0]
    [alice_pending; budi_pending] [7%nat; 8%nat; 9%nat]
    [order1; "NV-ORDER-1700086400000-0123456789abcdef"] [].

(** The provider has reported the settlement once. *)
Definition s_paid : Store :=
  snd (handlePaymentNotification env_settle (notify "settlement") s_pending).

Definition ticket1 : string := "NV-TIX-2025-MNOPQRSTUVWX".

End Scenario.

(** [(quota, sold, reserved, available)] of a tier of the scenario's event. *)
Definition counters (s : Store) (tid : nat) : option (Z * Z * Z * Z) :=
  option_map (fun t => (quota t, sold t, reserved t, available t))
    (lookupTier s 1 tid).

(** [(status, payment.status, ticket.status, ticket.ticketNumber)] *)
Definition lifecycle (s : Store) (id : nat)
  : option (RegistrationStatus * PaymentStatus * TicketStatus * string) :=
  option_map
    (fun r => (status r, pay_status (payment r), tk_status (ticket r),
               ticketNumber (ticket r)))
    (lookupRegistration s id).

(** The invariant of the ledger for one tier: nothing is sold or reserved
    beyond the quota, and the stored [available] is the remainder and is
    not negative. *)
Definition conserved (t : ITicketType) : Prop :=
  sold t + reserved t <= quota t
  /\ available t = quota t - sold t - reserved t
  /\ 0 <= available t.

(* ================================================================= *)
(** ** Two claims in the words of the specification *)

(** The claim in the words of the specification: one run of the sweep takes
    the registration's quantity off its tier's [reserved] counter. *)
Definition sweepTakesQuantityOff (env : Env) (s : Store) (r : IRegistration)
  : Prop :=
  forall t,
    lookupTier s (eventId r) (ticketType_id r) = Some t ->
    option_map reserved
      (lookupTier (snd (expirePaymentsJob env s)) (eventId r)
         (ticketType_id r))
    = Some (reserved t - quantity r).

(** The claim in the words of the specification, for calls that overlap
    according to [turns]: all calls end, exactly [k] of them with a
    [pending_payment] registration and all others with "Tiket sudah
    habis". *)
Definition exactlyKReserve (P : Primitives) (turns : list nat)
    (calls : list (Env * CreateRegistrationData)) (s : Store) (k : nat)
  : Prop :=
  exists results,
    fst (schedule turns (map (fun c => Waiting (fst c) (snd c)) calls) s)
    = map Finished results
    /\ List.length (filter isReserved (map outcome results)) = k
    /\ List.length (filter isSoldOut (map outcome results))
       = (List.length calls - k)%nat.

(** A call that holds no registration and has returned none: it is still
    waiting, or it has ended with an error. *)
Definition fruitless (c : Call) : Prop :=
  match c with
  | Waiting _ _ => True
  | Holding _ _ => False
  | Finished (Ok _) => False
  | Finished (Err _) => True
  end.

(* ================================================================= *)
(** * The rest of the services *)

(** ** [CheckInService.validateRegistration] and [bulkCheckIn] *)

(** The validation of a registration by its id, without a check-in. *)
Definition validateRegistration (registrationId : nat) : M Validation :=
  catch
    (found <- Registration_findById registrationId ;;
     match found with
     | None => ret (mkValidation false None "Registrasi tidak ditemukan")
     | Some registration =>
         if RegistrationStatus_eqb (status registration) cancelled then
           ret (mkValidation false (Some registration)
                  "Registrasi telah dibatalkan")
         else if RegistrationStatus_eqb (status registration) pending_payment
         then ret (mkValidation false (Some registration)
                     "Pembayaran belum selesai")
         else if RegistrationStatus_eqb (status registration) attended then
           ret (mkValidation false (Some registration)
                  "Sudah check-in sebelumnya")
         else if TicketStatus_eqb (tk_status (ticket registration)) tk_cancelled
         then ret (mkValidation false (Some registration)
                     "Tiket sudah dibatalkan")
         else if TicketStatus_eqb (tk_status (ticket registration)) tk_used then
           ret (mkValidation false (Some registration) "Tiket sudah digunakan")
         else ret (mkValidation true (Some registration) "Registrasi valid")
     end)
    (fun _ => ret (mkValidation false None "Gagal memvalidasi registrasi")).

(** One element of [results]. *)
Record BulkEntry : Type := mkBulkEntry {
  be_registrationId : nat;
  be_success : bool;
  be_message : string
}.

(** [{ success: successCount, failed: failedCount, results }] *)
Record BulkCheckIn : Type := mkBulkCheckIn {
  bulk_success : Z;
  bulk_failed : Z;
  bulk_results : list BulkEntry
}.

(** [for (const registrationId of registrationIds) { try { ...;
    results.push(...); successCount++ } catch (error) { results.push(...);
    failedCount++ } }], the three local variables held in [acc]. *)
Fixpoint bulkCheckInLoop (env : Env) (registrationIds : list nat)
    (checkedBy_ : nat) (location_ deviceInfo_ : option string)
    (acc : BulkCheckIn) : M BulkCheckIn :=
  match registrationIds with
  | [] => ret acc
  | registrationId :: rest =>
      acc' <- catch
        (checkInRegistration env registrationId checkedBy_ location_
           deviceInfo_ ;;;
         ret (mkBulkCheckIn (bulk_success acc + 1) (bulk_failed acc)
                (bulk_results acc
                 ++ [mkBulkEntry registrationId true "Check-in berhasil"])))
        (fun message =>
           ret (mkBulkCheckIn (bulk_success acc) (bulk_failed acc + 1)
                  (bulk_results acc
                   ++ [mkBulkEntry registrationId false message]))) ;;
      bulkCheckInLoop env rest checkedBy_ location_ deviceInfo_ acc'
  end.

Definition bulkCheckIn (env : Env) (registrationIds : list nat)
    (checkedBy_ : nat) (location_ deviceInfo_ : option string)
  : M BulkCheckIn :=
  catch
    (bulkCheckInLoop env registrationIds checkedBy_ location_ deviceInfo_
       (mkBulkCheckIn 0 0 []))
    (fun message => throw message).

(** ** [utils/qrcode.ts]: [isQRCodeValid] *)

(** [maxAgeHours] defaults to 24. *)
Definition isQRCodeValid (env : Env) (timestamp : Z) (maxAgeHours : option Z)
  : bool :=
  let hours := match maxAgeHours with Some h => h | None => 24 end in
  let age := now env - timestamp in
  let maxAge_ := hours * 60 * 60 * 1000 in
  age <=? maxAge_.

(* ================================================================= *)
(** ** JavaScript numbers that are not integers *)



(* ================================================================= *)
(** ** [RegistrationService.getRegistrationStatistics] *)





(* ================================================================= *)
(** ** [jobs/reminder.job.ts]: [sendPaymentRemindersJob] *)

(** [emailService.sendEmail]: the error of the provider is thrown again. *)
Definition sendEmail (env : Env) : M unit :=
  if sendEmail_ok env then ret tt
  else throw "Email service tidak dikonfigurasi".

Definition set_reminderSent (v : bool) (n : INotifications) : INotifications :=
  mkNotifications v (confirmationSent n) (thankYouSent n).

(** ['payment.status': 'pending',
     'payment.expiredAt': { $gt: now, $lte: subHours(now, -6) },
     'notifications.reminderSent': false] *)
Definition needsReminder (now_ : Z) (r : IRegistration) : bool :=
  PaymentStatus_eqb (pay_status (payment r)) pay_pending
  && (expiredAt (payment r) >? now_)
  && (expiredAt (payment r) <=? now_ + 6 * 60 * 60 * 1000)
  && negb (reminderSent (notifications r)).

(** The query with [.populate('eventId')]: each document comes with the
    event its [eventId] names, or with none. *)
Definition findNeedingReminder (now_ : Z)
  : M (list (IRegistration * option IEvent)) :=
  fun s =>
    (Ok (map (fun r => (r, lookupEvent s (eventId r)))
           (filter (needsReminder now_) (registrations s))), s).

(** The loop: a registration whose event is gone is skipped; the e-mail and
    the WhatsApp message are each sent inside a [try] of their own. *)
Fixpoint remindAll (env : Env) (l : list (IRegistration * option IEvent))
    (sentCount : Z) : M Z :=
  match l with
  | [] => ret sentCount
  | (registration, event) :: rest =>
      n <- catch
             (match event with
              | None => ret sentCount
              | Some _ =>
                  catch (sendEmail env) (fun _ => ret tt) ;;;
                  (* Mark reminder as sent *)
                  _ <- Registration_save env
                         (set_notifications
                            (set_reminderSent true (notifications registration))
                            registration) ;;
                  ret (sentCount + 1)
              end)
             (fun _ => ret sentCount) ;;
      remindAll env rest n
  end.

Definition sendPaymentRemindersJob (env : Env) : M Z :=
  catch
    (pendingRegistrations <- findNeedingReminder (now env) ;;
     remindAll env pendingRegistrations 0)
    (fun _ => ret 0).

(* ================================================================= *)
(** ** [EventService.processEventCancellation] *)

(** The value of the [status] path of a registration document. *)
Definition statusName (st : RegistrationStatus) : string :=
  match st with
  | pending_payment => "pending_payment"
  | confirmed => "confirmed"
  | cancelled => "cancelled"
  | attended => "attended"
  | no_show => "no_show"
  end.

(** [Registration.find({ eventId, status: { $in: ['confirmed', 'pending'] } })] *)
Definition findConfirmedOrPending (eventId_ : nat) : M (list IRegistration) :=
  fun s =>
    (Ok (filter (fun r => Nat.eqb (eventId r) eventId_
                          && isOneOf (statusName (status r))
                               ["confirmed"; "pending"])
           (registrations s)), s).

(** The body of the loop, inside its [try]: the document is saved first;
    the e-mail, the WhatsApp message and the in-app notification follow and
    write no registration and no event. *)
Definition cancelForEvent (env : Env) (reason_ : string)
    (registration : IRegistration) : M unit :=
  _ <- Registration_save env
         (set_cancellation
            (Some (mkCancellation (now env) None reason_
                     (if PaymentStatus_eqb (pay_status (payment registration))
                           pay_paid
                      then "pending" else "not_applicable")))
            (set_status cancelled registration)) ;;
  sendEmail env.

Fixpoint cancelAllForEvent (env : Env) (reason_ : string)
    (l : list IRegistration) : M unit :=
  match l with
  | [] => ret tt
  | registration :: rest =>
      catch (cancelForEvent env reason_ registration) (fun _ => ret tt) ;;;
      cancelAllForEvent env reason_ rest
  end.

Definition processEventCancellation (env : Env) (eventId_ : nat)
    (reason_ : string) : M unit :=
  catch
    (event <- Event_findById eventId_ ;;
     match event with
     | None => ret tt
     | Some _ =>
         confirmedRegistrations <- findConfirmedOrPending eventId_ ;;
         cancelAllForEvent env reason_ confirmedRegistrations
     end)
    (fun _ => ret tt).

(* ================================================================= *)
(** ** [models/Event.ts]: the slug of the pre-save hook and the virtual
       [isRegistrationOpen] *)

(** [while (await Event.findOne({ slug: uniqueSlug, _id: { $ne: this._id } }))
      { uniqueSlug = `${baseSlug}-${counter}`; counter++ }].
    [taken] holds the slugs of the other events; [fuel] bounds the number
    of rounds. *)
Fixpoint slugLoop (fuel : nat) (taken : list string)
    (baseSlug uniqueSlug : string) (counter : Z) : option string :=
  match fuel with
  | O => None
  | S fuel' =>
      if existsb (String.eqb uniqueSlug) taken
      then slugLoop fuel' taken baseSlug (baseSlug ++ "-" ++ showZ counter)
             (counter + 1)
      else Some uniqueSlug
  end.

(** The slug given to the event [this_id] whose title slugifies to
    [baseSlug], in a collection whose events carry the slugs [slugs]. *)
Definition uniqueSlugOf (slugs : list (nat * string)) (this_id : nat)
    (baseSlug : string) : option string :=
  let taken := map snd (filter (fun p => negb (Nat.eqb (fst p) this_id)) slugs) in
  slugLoop (S (List.length taken)) taken baseSlug baseSlug 1.

Definition isRegistrationOpen (env : Env) (e : IEvent) : bool :=
  (now env >=? registrationOpen e)
  && (now env <=? registrationClose e)
  && (match ev_status e with ev_published => true | _ => false end)
  && (totalSold e <? totalQuota e).

(* ================================================================= *)
(** ** [services/cloudinary.service.ts]: [extractPublicId] *)

(** [s.split(sep)] for a separator of one character. *)
Fixpoint str_split (sep : Ascii.ascii) (s : string) : list string :=
  match s with
  | EmptyString => [EmptyString]
  | String c rest =>
      if Ascii.eqb c sep then EmptyString :: str_split sep rest
      else match str_split sep rest with
           | first :: others => String c first :: others
           | [] => [String c EmptyString]
           end
  end.

Definition extractPublicId (url : string) : string :=
  let parts := str_split (Ascii.ascii_of_nat 47) url in
  let filename := last parts "" in
  let publicId := hd "" (str_split (Ascii.ascii_of_nat 46) filename) in
  publicId.

(* ================================================================= *)
(** ** [utils/crypto.ts]: [generateSecureRandom] *)

Definition chars : string :=
  "ABCDEFGHIJKLMNOPQRSTUVWXYZabcdefghijklmnopqrstuvwxyz0123456789".

(** [chars[number % chars.length]]; the index is always in range. *)
Definition pickChar (number : N) : string :=
  match String.get (N.to_nat (N.modulo number (N.of_nat (String.length chars))))
          chars with
  | Some c => String c ""
  | None => "undefined"
  end.

(** [randomArray] is the array [crypto.getRandomValues] has filled, one
    byte per character asked for. *)
Definition generateSecureRandom (randomArray : list N) : string :=
  fold_left (fun result number => result ++ pickChar number) randomArray "".

(* ================================================================= *)
(** ** Notions used in the statements about the rest of the services *)

(** [e] reports a successful check-in of the registration [id]. *)
Definition succeeded (id : nat) (e : BulkEntry) : bool :=
  be_success e && Nat.eqb (be_registrationId e) id.

(** The registration [id] is stored as [attended]. *)
Definition isAttended (s : Store) (id : nat) : Prop :=
  exists r, lookupRegistration s id = Some r /\ status r = attended.

(** The document [cancelRegistration] saves and returns. *)
Definition withdrawn (env : Env) (why : string) (r : IRegistration)
  : IRegistration :=
  set_cancellation
    (Some (mkCancellation (now env) (Some (userId r)) why
             (if PaymentStatus_eqb (pay_status (payment r)) pay_paid
              then "pending" else "not_applicable")))
    (set_ticket (set_tk_status tk_cancelled (ticket r))
       (set_status cancelled r)).

(** The document [requestRefund] saves. *)
Definition refundRequested (env : Env) (why : string) (r : IRegistration)
  : IRegistration :=
  set_cancellation (Some (mkCancellation (now env) None why "pending"))
    (set_payment (set_refundReason (Some why) (payment r)) r).

(** The four refusals of [cancelRegistration]. *)
Definition cancelRefusals : list string :=
  ["Registrasi tidak ditemukan"; "Akses tidak diizinkan";
   "Registrasi sudah dibatalkan";
   "Registrasi yang sudah attended tidak dapat dibatalkan"].

(** The transaction statuses [handlePaymentNotification] has a case for. *)
Definition knownStatuses : list string :=
  ["capture"; "settlement"; "pending"; "deny"; "cancel"; "expire";
   "refund"; "partial_refund"].

(** The document [handleFailedPayment] saves. *)
Definition failed (reason_ : string) (r : IRegistration) : IRegistration :=
  set_status cancelled
    (set_payment
       (set_pay_status
          (if String.eqb reason_ "expire" then pay_expired else pay_failed)
          (payment r))
       r).

(** The document [handleRefund] saves. *)
Definition refunded (env : Env) (r : IRegistration) : IRegistration :=
  set_ticket (set_tk_status tk_cancelled (ticket r))
    (set_status cancelled
       (set_payment
          (set_refundedAt (Some (now env))
             (set_pay_status pay_refunded (payment r)))
          r)).

(** The document the reminder job saves. *)
Definition reminded (r : IRegistration) : IRegistration :=
  set_notifications (set_reminderSent true (notifications r)) r.

(** The event a registration names is stored. *)
Definition hasEvent (s : Store) (r : IRegistration) : bool :=
  match lookupEvent s (eventId r) with Some _ => true | None => false end.

(** The reminder job selects the registration and does not skip it. *)
Definition reminderDue (env : Env) (s : Store) (r : IRegistration) : bool :=
  needsReminder (now env) r && hasEvent s r.

(** The document [processEventCancellation] saves. *)
Definition cancelledWithEvent (env : Env) (why : string) (r : IRegistration)
  : IRegistration :=
  set_cancellation
    (Some (mkCancellation (now env) None why
             (if PaymentStatus_eqb (pay_status (payment r)) pay_paid
              then "pending" else "not_applicable")))
    (set_status cancelled r).

(** A confirmed registration of the event [eid]. *)
Definition confirmedFor (eid : nat) (r : IRegistration) : bool :=
  Nat.eqb (eventId r) eid && RegistrationStatus_eqb (status r) confirmed.

(** The counters of an event agree with one another: no tier has sold more
    than its quota or reserved a negative number, and the totals are the
    sums over the tiers. *)
Record ConsistentEvent (e : IEvent) : Prop := {
  ce_tiers : forall t, In t (ticketTypes e) ->
               sold t <= quota t /\ 0 <= reserved t
               /\ available t = quota t - sold t - reserved t;
  ce_sold : totalSold e = sumZ (map sold (ticketTypes e));
  ce_quota : totalQuota e = sumZ (map quota (ticketTypes e))
}.

(** The slugs the loop of the pre-save hook tries, in turn: the base slug,
    then the base slug with "-1", "-2", ... *)
Definition slugCandidate (baseSlug : string) (k : Z) : string :=
  if k =? 0 then baseSlug else baseSlug ++ "-" ++ showZ k.

(** The character [c] does not occur in [s]. *)
Fixpoint lacks (c : Ascii.ascii) (s : string) : Prop :=
  match s with
  | EmptyString => True
  | String x rest => x <> c /\ lacks c rest
  end.

Definition slash : Ascii.ascii := Ascii.ascii_of_nat 47.
Definition dot : Ascii.ascii := Ascii.ascii_of_nat 46.

(** The byte values [0 .. 255]. *)
Definition allBytes : list N := map N.of_nat (seq 0 256).

(* ================================================================= *)
(** * Properties *)

(** ** Lists: [find] against [update_first] and [app] *)

Section ListFacts.
Variable A : Type.
Implicit Types (p q : A -> bool) (f : A -> A) (l : list A).

Lemma find_update_first_hit p f l :
  (forall x, p x = true -> p (f x) = true) ->
  find p (update_first p f l) = option_map f (find p l).
Proof.
  intros Hp. induction l as [|x rest IH]; simpl; [reflexivity|].
  destruct (p x) eqn:Hx; simpl.
  - now rewrite (Hp x Hx).
  - now rewrite Hx.
Qed.

Lemma find_update_first_miss p q f l :
  (forall x, p x = true -> q x = false /\ q (f x) = false) ->
  find q (update_first p f l) = find q l.
Proof.
  intros Hpq. induction l as [|x rest IH]; simpl; [reflexivity|].
  destruct (p x) eqn:Hx; simpl.
  - destruct (Hpq x Hx) as [-> ->]. reflexivity.
  - now rewrite IH.
Qed.

Lemma update_first_absent p f l :
  find p l = None -> update_first p f l = l.
Proof.
  induction l as [|x rest IH]; simpl; [reflexivity|].
  destruct (p x); [discriminate|]. intros H. now rewrite IH.
Qed.

Lemma find_absent p l :
  (forall x, In x l -> p x = false) -> find p l = None.
Proof.
  induction l as [|x rest IH]; simpl; [reflexivity|].
  intros H. rewrite (H x (or_introl eq_refl)). apply IH.
  intros y Hy. apply H. now right.
Qed.

Lemma find_app_present p l l' x :
  find p l = Some x -> find p (l ++ l')%list = Some x.
Proof.
  induction l as [|y rest IH]; simpl; [discriminate|].
  destruct (p y); [trivial|]. exact IH.
Qed.

End ListFacts.

(** ** The store monad *)

Lemma bind_Ok A B (m : M A) (k : A -> M B) s a s' :
  m s = (Ok a, s') -> bind m k s = k a s'.
Proof. unfold bind. now intros ->. Qed.

Lemma bind_Err A B (m : M A) (k : A -> M B) s e s' :
  m s = (Err e, s') -> bind m k s = (Err e, s').
Proof. unfold bind. now intros ->. Qed.

Lemma catch_Ok A (m : M A) h s a s' :
  m s = (Ok a, s') -> catch m h s = (Ok a, s').
Proof. unfold catch. now intros ->. Qed.

Lemma catch_Err A (m : M A) h s e s' :
  m s = (Err e, s') -> catch m h s = h e s'.
Proof. unfold catch. now intros ->. Qed.

(** [step H] runs the first call of a sequence with its equation [H]. *)
Ltac step H := rewrite (@bind_Ok _ _ _ _ _ _ _ H).

(** ** Identifiers *)

Lemma has_ev_id_eq id e : has_ev_id id e = true -> ev_id e = id.
Proof. unfold has_ev_id. apply Nat.eqb_eq. Qed.

Lemma has_tt_id_eq id t : has_tt_id id t = true -> tt_id t = id.
Proof. unfold has_tt_id. apply Nat.eqb_eq. Qed.

Lemma has_reg_id_eq id r : has_reg_id id r = true -> reg_id r = id.
Proof. unfold has_reg_id. apply Nat.eqb_eq. Qed.

Lemma lookupEvent_id s id e : lookupEvent s id = Some e -> ev_id e = id.
Proof.
  unfold lookupEvent. intros H. apply find_some in H.
  now apply has_ev_id_eq.
Qed.

Lemma findTicketType_id e id t : findTicketType e id = Some t -> tt_id t = id.
Proof.
  unfold findTicketType. intros H. apply find_some in H.
  now apply has_tt_id_eq.
Qed.

Lemma lookupRegistration_id s id r :
  lookupRegistration s id = Some r -> reg_id r = id.
Proof.
  unfold lookupRegistration. intros H. apply find_some in H.
  now apply has_reg_id_eq.
Qed.

(** ** The ledger write *)

Lemma find_map_preserved A (p : A -> bool) (f : A -> A) (l : list A) :
  (forall x, p (f x) = p x) ->
  find p (map f l) = option_map f (find p l).
Proof.
  intros Hp. induction l as [|x rest IH]; simpl; [reflexivity|].
  rewrite Hp. destruct (p x); [reflexivity|exact IH].
Qed.

Lemma updateTicketAvailability_Ok s eid tid so re e t :
  lookupEvent s eid = Some e ->
  findTicketType e tid = Some t ->
  updateTicketAvailability eid tid so re s = (Ok tt, writeTier s tid so re e).
Proof.
  intros He Ht. pose proof (lookupEvent_id _ _ He) as Hid. subst eid.
  unfold updateTicketAvailability.
  erewrite bind_Ok by (unfold Event_findById; now rewrite He).
  simpl orThrow. erewrite bind_Ok by reflexivity.
  rewrite Ht. erewrite bind_Ok by reflexivity.
  unfold Event_save, writeTier, tierWritten. simpl ev_id.
  now rewrite He.
Qed.

Lemma updateTicketAvailability_no_event s eid tid so re :
  lookupEvent s eid = None ->
  updateTicketAvailability eid tid so re s = (Err "Event tidak ditemukan", s).
Proof.
  intros He. unfold updateTicketAvailability.
  erewrite bind_Ok by (unfold Event_findById; now rewrite He).
  reflexivity.
Qed.

Lemma tierWritten_id tid so re e : ev_id (tierWritten tid so re e) = ev_id e.
Proof.
  unfold tierWritten, eventPreSave. now destruct (negb _).
Qed.

Lemma tierWritten_organizer tid so re e :
  ev_organizerId (tierWritten tid so re e) = ev_organizerId e.
Proof.
  unfold tierWritten, eventPreSave. now destruct (negb _).
Qed.

Lemma recomputeAvailable_setCounters so re t :
  recomputeAvailable (setCounters so re t) = setCounters so re t.
Proof. reflexivity. Qed.

(** The written tier holds the counters handed in and the recomputed
    [available], whether or not the hook ran. *)
Lemma tierWritten_target tid so re e t :
  findTicketType e tid = Some t ->
  findTicketType (tierWritten tid so re e) tid = Some (setCounters so re t).
Proof.
  intros Ht. unfold findTicketType in *.
  assert (Hupd : find (has_tt_id tid)
                   (update_first (has_tt_id tid) (setCounters so re)
                      (ticketTypes e))
                 = Some (setCounters so re t)).
  { rewrite find_update_first_hit by (intros x Hx; exact Hx).
    now rewrite Ht. }
  unfold tierWritten, eventPreSave. destruct (negb _); simpl ticketTypes.
  - rewrite find_map_preserved by reflexivity. now rewrite Hupd.
  - exact Hupd.
Qed.

(** Every other tier keeps all its fields but [available], which the hook
    may recompute. *)
Lemma tierWritten_other tid so re e tid' :
  tid' <> tid ->
  findTicketType (tierWritten tid so re e) tid' = findTicketType e tid'
  \/ findTicketType (tierWritten tid so re e) tid'
     = option_map recomputeAvailable (findTicketType e tid').
Proof.
  intros Hne. unfold findTicketType.
  assert (Hupd : find (has_tt_id tid')
                   (update_first (has_tt_id tid) (setCounters so re)
                      (ticketTypes e))
                 = find (has_tt_id tid') (ticketTypes e)).
  { apply find_update_first_miss. intros x Hx.
    apply has_tt_id_eq in Hx. unfold has_tt_id. simpl. rewrite Hx.
    split; apply Nat.eqb_neq; congruence. }
  unfold tierWritten, eventPreSave. destruct (negb _); simpl ticketTypes.
  - right. rewrite find_map_preserved by reflexivity. now rewrite Hupd.
  - left. exact Hupd.
Qed.

Lemma lookupEvent_writeTier_same s tid so re e :
  lookupEvent s (ev_id e) = Some e ->
  lookupEvent (writeTier s tid so re e) (ev_id e)
  = Some (tierWritten tid so re e).
Proof.
  intros He. unfold lookupEvent, writeTier in *. simpl events.
  rewrite find_update_first_hit.
  - now rewrite He.
  - intros x _. unfold has_ev_id. rewrite tierWritten_id.
    apply Nat.eqb_refl.
Qed.

Lemma lookupEvent_writeTier_other s tid so re e eid' :
  eid' <> ev_id e ->
  lookupEvent (writeTier s tid so re e) eid' = lookupEvent s eid'.
Proof.
  intros Hne. unfold lookupEvent, writeTier. simpl events.
  apply find_update_first_miss. intros x Hx. apply has_ev_id_eq in Hx.
  unfold has_ev_id. rewrite tierWritten_id, Hx.
  split; apply Nat.eqb_neq; congruence.
Qed.

Lemma lookupTier_writeTier_target s tid so re e t :
  lookupEvent s (ev_id e) = Some e ->
  findTicketType e tid = Some t ->
  lookupTier (writeTier s tid so re e) (ev_id e) tid
  = Some (setCounters so re t).
Proof.
  intros He Ht. unfold lookupTier.
  rewrite lookupEvent_writeTier_same by exact He.
  now apply tierWritten_target.
Qed.

(** ** Saving a registration *)

Lemma PaymentStatus_eqb_refl a : PaymentStatus_eqb a a = true.
Proof. now destruct a. Qed.

Lemma PaymentStatus_eqb_eq a b : PaymentStatus_eqb a b = true <-> a = b.
Proof. destruct a, b; simpl; split; congruence. Qed.

Lemma RegistrationStatus_eqb_eq a b :
  RegistrationStatus_eqb a b = true <-> a = b.
Proof. destruct a, b; simpl; split; congruence. Qed.

Lemma TicketStatus_eqb_eq a b : TicketStatus_eqb a b = true <-> a = b.
Proof. destruct a, b; simpl; split; congruence. Qed.

Lemma preSaveTicketNumber_id env m doc :
  reg_id (preSaveTicketNumber env m doc) = reg_id doc.
Proof. unfold preSaveTicketNumber. now destruct (_ && _). Qed.

Lemma preSaveTicketNumber_off env doc :
  preSaveTicketNumber env false doc = doc.
Proof. reflexivity. Qed.

(** A save that leaves [payment.status] as stored runs no hook. *)
Lemma Registration_save_same_payment env doc old s :
  lookupRegistration s (reg_id doc) = Some old ->
  pay_status (payment old) = pay_status (payment doc) ->
  Registration_save env doc s = (Ok doc, storeReg s doc).
Proof.
  intros Hold Hpay. unfold Registration_save. rewrite Hold, Hpay.
  now rewrite PaymentStatus_eqb_refl.
Qed.

(** A save of a stored document, in general. *)
Lemma Registration_save_stored env doc old s :
  lookupRegistration s (reg_id doc) = Some old ->
  Registration_save env doc s
  = (Ok (preSaveTicketNumber env
           (negb (PaymentStatus_eqb (pay_status (payment old))
                                    (pay_status (payment doc)))) doc),
     storeReg s
       (preSaveTicketNumber env
          (negb (PaymentStatus_eqb (pay_status (payment old))
                                   (pay_status (payment doc)))) doc)).
Proof.
  intros Hold. unfold Registration_save, storeReg. rewrite Hold. simpl.
  now rewrite preSaveTicketNumber_id.
Qed.

Lemma lookupRegistration_storeReg_same s doc old :
  lookupRegistration s (reg_id doc) = Some old ->
  lookupRegistration (storeReg s doc) (reg_id doc) = Some doc.
Proof.
  intros Hold. unfold lookupRegistration, storeReg in *. simpl registrations.
  rewrite find_update_first_hit.
  - now rewrite Hold.
  - intros x _. unfold has_reg_id. apply Nat.eqb_refl.
Qed.

Lemma lookupRegistration_storeReg_other s doc id :
  id <> reg_id doc ->
  lookupRegistration (storeReg s doc) id = lookupRegistration s id.
Proof.
  intros Hne. unfold lookupRegistration, storeReg. simpl registrations.
  apply find_update_first_miss. intros x Hx. apply has_reg_id_eq in Hx.
  unfold has_reg_id. rewrite Hx. split; apply Nat.eqb_neq; congruence.
Qed.

(** ** Validation and check-in *)

Lemma validateQRCode_valid env d s r :
  now env - qr_timestamp d <= maxAge ->
  lookupRegistration s (qr_registrationId d) = Some r ->
  ticketNumber (ticket r) = qr_ticketNumber d ->
  tk_status (ticket r) <> tk_used ->
  tk_status (ticket r) <> tk_cancelled ->
  status r = confirmed ->
  validateQRCode env d s = (Ok (mkValidation true (Some r) "QR code valid"), s).
Proof.
  intros Hage Hr Htn Hused Hcan Hst. unfold validateQRCode.
  assert (Hgt : (now env - qr_timestamp d >? maxAge) = false)
    by (rewrite Z.gtb_ltb; apply Z.ltb_ge; exact Hage).
  rewrite Hgt.
  erewrite bind_Ok by (unfold Registration_findById; now rewrite Hr).
  cbv beta iota. rewrite Htn, String.eqb_refl. simpl negb. cbv iota.
  destruct (tk_status (ticket r)); try congruence; simpl;
    now rewrite Hst.
Qed.


Lemma checkInRegistration_Ok env id by_ loc dev s r :
  lookupRegistration s id = Some r ->
  status r = confirmed ->
  tk_status (ticket r) <> tk_used ->
  tk_status (ticket r) <> tk_cancelled ->
  checkInRegistration env id by_ loc dev s
  = (Ok (checkedIn env by_ loc dev r),
     storeReg s (checkedIn env by_ loc dev r)).
Proof.
  intros Hr Hst Hused Hcan. unfold checkInRegistration.
  erewrite bind_Ok by (unfold Registration_findById; now rewrite Hr).
  simpl orThrow. erewrite bind_Ok by reflexivity.
  rewrite Hst. simpl RegistrationStatus_eqb. simpl negb.
  erewrite bind_Ok by reflexivity.
  assert (H1 : TicketStatus_eqb (tk_status (ticket r)) tk_used = false)
    by (destruct (tk_status (ticket r)); simpl; congruence).
  assert (H2 : TicketStatus_eqb (tk_status (ticket r)) tk_cancelled = false)
    by (destruct (tk_status (ticket r)); simpl; congruence).
  rewrite H1. erewrite bind_Ok by reflexivity.
  rewrite H2. erewrite bind_Ok by reflexivity.
  pose proof (lookupRegistration_id _ _ Hr) as Hid.
  apply (Registration_save_same_payment env (checkedIn env by_ loc dev r)
           (old := r)).
  - simpl. now rewrite Hid.
  - reflexivity.
Qed.

(* ================================================================= *)
(** ** Check-in with a payload that was never encrypted *)

(** C10. When [decryptQRCode] rejects the presented string, [processCheckIn]
    parses the string itself as JSON; a plain payload that names a confirmed
    registration and the ticket number stored for it, with a timestamp no
    older than thirty days, passes [validateQRCode] and the registration is
    checked in: the call answers "Check-in berhasil" and the stored
    registration is [attended] with a [used] ticket. *)
Theorem plaintext_payload_checks_in (P : Primitives) (env : Env)
    (data : CheckInData) (d : QRCodeData) (s : Store) (r : IRegistration)
    (message : string) :
  decryptQRCode (qrCodeData data) = Err message ->
  JSON_parse (qrCodeData data) = Some d ->
  now env - qr_timestamp d <= maxAge ->
  lookupRegistration s (qr_registrationId d) = Some r ->
  ticketNumber (ticket r) = qr_ticketNumber d ->
  status r = confirmed ->
  tk_status (ticket r) = tk_valid ->
  exists r' s',
    processCheckIn env data s
    = (Ok (mkCheckInOutcome true (Some r') "Check-in berhasil"), s')
    /\ lookupRegistration s' (qr_registrationId d) = Some r'
    /\ status r' = attended
    /\ tk_status (ticket r') = tk_used
    /\ option_map checkedBy (checkIn (ticket r')) = Some (ci_checkedBy data).
Proof.
  intros Hdec Hparse Hage Hr Htn Hst Htk.
  set (r' := checkedIn env (ci_checkedBy data) (ci_location data)
               (ci_deviceInfo data) r).
  exists r', (storeReg s r').
  assert (Hused : tk_status (ticket r) <> tk_used) by congruence.
  assert (Hcan : tk_status (ticket r) <> tk_cancelled) by congruence.
  split.
  - unfold processCheckIn, decodeQRCode. rewrite Hdec, Hparse.
    apply catch_Ok.
    erewrite bind_Ok
      by (apply validateQRCode_valid with (r := r); assumption).
    cbn [valid negb].
    erewrite bind_Ok by (apply checkInRegistration_Ok; eassumption).
    reflexivity.
  - repeat split.
    pose proof (lookupRegistration_id _ _ Hr) as Hid.
    replace (qr_registrationId d) with (reg_id r') by exact Hid.
    apply lookupRegistration_storeReg_same with (old := r).
    change (reg_id r') with (reg_id r). now rewrite Hid.
Qed.

(** A plain JSON text naming Alice's paid registration is accepted at the
    gate of the worked scenario. *)
Lemma plaintext_payload_checks_in_witness :
  let d := mkQRCodeData Scenario.ticket1 1 1 7 Scenario.t0 in
  let data := mkCheckInData (Sample.stringify d) 100 None None in
  decryptQRCode (P := Sample.primitives) (qrCodeData data)
    = Err "Data QR code tidak valid"
  /\ exists r' s',
       processCheckIn (P := Sample.primitives) Scenario.env_gate data
         Scenario.s_paid
       = (Ok (mkCheckInOutcome true (Some r') "Check-in berhasil"), s')
       /\ lookupRegistration s' (qr_registrationId d) = Some r'
       /\ status r' = attended
       /\ tk_status (ticket r') = tk_used
       /\ option_map checkedBy (checkIn (ticket r')) = Some (ci_checkedBy data).
Proof.
  intros d data. split; [vm_compute; reflexivity|].
  assert (Hr : exists r, lookupRegistration Scenario.s_paid 1 = Some r
                         /\ ticketNumber (ticket r) = Scenario.ticket1
                         /\ status r = confirmed
                         /\ tk_status (ticket r) = tk_valid).
  { vm_compute. eexists. repeat split. }
  destruct Hr as (r & Hr & Htn & Hst & Htk).
  apply (@plaintext_payload_checks_in Sample.primitives Scenario.env_gate
           data d Scenario.s_paid r "Data QR code tidak valid").
  - vm_compute; reflexivity.
  - vm_compute; reflexivity.
  - vm_compute; discriminate.
  - exact Hr.
  - exact Htn.
  - exact Hst.
  - exact Htk.
Defined.

(* ================================================================= *)
(** ** What the handlers do to a tier: concrete runs *)

(** C1. The settlement notification for Alice's order is delivered twice.
    The first delivery confirms the registration, assigns the ticket number
    and converts the reservation (sold 0 -> 1, reserved 1 -> 0).  The second
    delivery is accepted as well: the ticket number and the status stay, but
    [handleSuccessfulPayment] writes the tier again, [sold] becomes 2 against
    a quota of 1 and [available] becomes -1, and the ticket artefacts are
    produced a second time. *)
Theorem settlement_redelivery_converts_again :
  let first := handlePaymentNotification (P := Sample.primitives)
                 Scenario.env_settle
                 (Scenario.notify "settlement") Scenario.s_pending in
  let second := handlePaymentNotification (P := Sample.primitives)
                  Scenario.env_again
                  (Scenario.notify "settlement") (snd first) in
  lifecycle Scenario.s_pending 1
    = Some (pending_payment, pay_pending, tk_valid, "")
  /\ counters Scenario.s_pending 10 = Some (1, 0, 1, 0)
  /\ fst first = Ok tt
  /\ lifecycle (snd first) 1
     = Some (confirmed, pay_paid, tk_valid, Scenario.ticket1)
  /\ counters (snd first) 10 = Some (1, 1, 0, 0)
  /\ fst second = Ok tt
  /\ lifecycle (snd second) 1
     = Some (confirmed, pay_paid, tk_valid, Scenario.ticket1)
  /\ counters (snd second) 10 = Some (1, 2, 0, -1)
  /\ List.length (blobs (snd first)) = 2%nat
  /\ List.length (blobs (snd second)) = 4%nat.
Proof. vm_compute. repeat split. Qed.

(** C2. Alice never pays; the sweep of two days later cancels the
    registration and releases the reservation.  A settlement notification
    for the same order that arrives after the sweep is still handled by
    [handleSuccessfulPayment]: the registration leaves [cancelled] for
    [confirmed], [payment.status] becomes [paid], the pre-save hook assigns a
    ticket number, and the tier's [sold] is incremented. *)
Theorem late_settlement_revives_cancelled :
  let swept := expirePaymentsJob Scenario.env_sweep Scenario.s_pending in
  let env_late := Scenario.world (Scenario.t0 + 180000000) "AAAAAAAAAA"
                    "BBBBBBBBBBBB" "cccccccccccccccc" Scenario.midtrans in
  let late := handlePaymentNotification (P := Sample.primitives) env_late
                (Scenario.notify "settlement") (snd swept) in
  fst swept = Ok 1
  /\ lifecycle (snd swept) 1 = Some (cancelled, pay_expired, tk_expired, "")
  /\ counters (snd swept) 10 = Some (1, 0, 0, 1)
  /\ fst late = Ok tt
  /\ lifecycle (snd late) 1
     = Some (confirmed, pay_paid, tk_expired, "NV-TIX-2025-BBBBBBBBBBBB")
  /\ counters (snd late) 10 = Some (1, 1, 0, 0).
Proof. vm_compute. repeat split. Qed.

(** C4. The ledger operations of one purchase on the Regular tier, whose
    quota is 1 and whose unit Alice has reserved.  The invariant holds
    before the settlement and after it has converted the reservation into
    a sale.  The same settlement delivered again is converted again:
    [sold + reserved] is 2 against the quota of 1 and the stored
    [available] is -1 (it still equals [quota - sold - reserved]). *)
Theorem conversion_exceeds_quota :
  let first := handlePaymentNotification (P := Sample.primitives)
                 Scenario.env_settle
                 (Scenario.notify "settlement") Scenario.s_pending in
  let second := handlePaymentNotification (P := Sample.primitives)
                  Scenario.env_again
                  (Scenario.notify "settlement") (snd first) in
  exists before once twice,
    lookupTier Scenario.s_pending 1 10 = Some before
    /\ conserved before
    /\ lookupTier (snd first) 1 10 = Some once
    /\ conserved once
    /\ lookupTier (snd second) 1 10 = Some twice
    /\ quota twice = 1
    /\ sold twice + reserved twice = 2
    /\ available twice = quota twice - sold twice - reserved twice
    /\ available twice = -1
    /\ ~ conserved twice.
Proof.
  do 3 eexists.
  split; [vm_compute; reflexivity|].
  split; [unfold conserved; simpl; lia|].
  split; [vm_compute; reflexivity|].
  split; [unfold conserved; simpl; lia|].
  split; [vm_compute; reflexivity|].
  repeat split; try reflexivity.
  unfold conserved; simpl; lia.
Qed.

(** C5. Alice and Budi each hold a reservation on the Regular tier
    ([reserved] is 2).  Alice cancels before paying: her unit is released
    once, and [cancelRegistration] leaves [payment.status] at [pending].
    When her payment deadline has passed, the sweep selects her cancelled
    registration by that status and releases its quantity a second time:
    the tier shows nothing reserved and two units available while Budi
    still holds his pending registration. *)
Theorem reservation_released_twice :
  let withdrawn :=
    cancelRegistration Scenario.env_settle 1 7 "berhalangan" Scenario.s_two in
  let env_25h := Scenario.world (Scenario.t0 + 90000000) "AAAAAAAAAA"
                   "BBBBBBBBBBBB" "cccccccccccccccc" Scenario.midtrans in
  let swept := expirePaymentsJob env_25h (snd withdrawn) in
  counters Scenario.s_two 10 = Some (2, 0, 2, 0)
  /\ lifecycle Scenario.s_two 1
     = Some (pending_payment, pay_pending, tk_valid, "")
  /\ lifecycle Scenario.s_two 2
     = Some (pending_payment, pay_pending, tk_valid, "")
  /\ lifecycle (snd withdrawn) 1
     = Some (cancelled, pay_pending, tk_cancelled, "")
  /\ counters (snd withdrawn) 10 = Some (2, 0, 1, 1)
  /\ fst swept = Ok 1
  /\ lifecycle (snd swept) 1 = Some (cancelled, pay_expired, tk_expired, "")
  /\ lifecycle (snd swept) 2
     = Some (pending_payment, pay_pending, tk_valid, "")
  /\ counters (snd swept) 10 = Some (2, 0, 0, 2).
Proof. vm_compute. repeat split. Qed.

(* ================================================================= *)
(** ** Registration creation, step by step *)

Lemma User_findById_present id s :
  In id (users s) -> User_findById id s = (Ok (Some id), s).
Proof.
  intros Hin. unfold User_findById.
  destruct (find (Nat.eqb id) (users s)) as [u|] eqn:Hf.
  - apply find_some in Hf. destruct Hf as [_ Hu].
    apply Nat.eqb_eq in Hu. now subst.
  - exfalso. apply (find_none _ _ Hf) in Hin.
    now rewrite Nat.eqb_refl in Hin.
Qed.

(** [Registration.create] refuses a document that has no registration
    number, and stores nothing. *)
Lemma Registration_create_unnumbered env fields s :
  registrationNumber fields = "" ->
  Registration_create env fields s = (Err validationFailed, s).
Proof.
  intros Hnone. unfold Registration_create, registrationSchemaAccepts.
  now rewrite Hnone.
Qed.

Section Creation.
Context {P : Primitives}.

(** The checks only read. *)
Lemma checkRegistration_reads env data s :
  snd (checkRegistration env data s) = s.
Proof.
  unfold checkRegistration, bind, Event_findById, orThrow, throwIf, ret,
    throw, findActiveRegistration, User_findById.
  destruct (lookupEvent s (cr_eventId data)) as [e|]; [|reflexivity].
  destruct (ev_status e); try reflexivity.
  destruct (now env <? registrationOpen e); [reflexivity|].
  destruct (now env >? registrationClose e); [reflexivity|].
  destruct (findTicketType e (cr_ticketTypeId data)) as [t|]; [|reflexivity].
  destruct (isActive t); [|reflexivity].
  cbn [negb]. cbv beta iota zeta.
  destruct (available t <=? 0); [reflexivity|].
  cbv beta iota zeta.
  match goal with
  | |- context [find ?p (registrations s)] =>
      destruct (find p (registrations s)); [reflexivity|]
  end.
  cbv beta iota zeta.
  destruct (find (Nat.eqb (cr_userId data)) (users s)); reflexivity.
Qed.

Lemma checkRegistration_Ok env data s e t :
  Admissible env data s e t ->
  0 < available t ->
  checkRegistration env data s = (Ok (e, t), s).
Proof.
  intros [He Hpub Hopen Hclose Ht Hact Hnone Huser] Havail.
  unfold checkRegistration.
  erewrite bind_Ok by (unfold Event_findById; now rewrite He).
  simpl orThrow. erewrite bind_Ok by reflexivity.
  rewrite Hpub. erewrite bind_Ok by reflexivity.
  replace (now env <? registrationOpen e) with false
    by (symmetry; apply Z.ltb_ge; exact Hopen).
  erewrite bind_Ok by reflexivity.
  replace (now env >? registrationClose e) with false
    by (symmetry; rewrite Z.gtb_ltb; apply Z.ltb_ge; exact Hclose).
  erewrite bind_Ok by reflexivity.
  rewrite Ht. simpl orThrow. erewrite bind_Ok by reflexivity.
  rewrite Hact. simpl negb. erewrite bind_Ok by reflexivity.
  replace (available t <=? 0) with false
    by (symmetry; apply Z.leb_gt; exact Havail).
  erewrite bind_Ok by reflexivity.
  erewrite bind_Ok by (unfold findActiveRegistration; now rewrite Hnone).
  erewrite bind_Ok by reflexivity.
  erewrite bind_Ok by (apply User_findById_present; exact Huser).
  simpl orThrow. erewrite bind_Ok by reflexivity.
  reflexivity.
Qed.

(** The first half of [createRegistration] never hands anything on: the
    checks refuse the request, or [Registration.create] refuses the
    document, which carries no registration number.  Either way nothing is
    written. *)
Lemma admitRegistration_fails env data s :
  exists message, admitRegistration env data s = (Err message, s).
Proof.
  unfold admitRegistration.
  pose proof (checkRegistration_reads env data s) as Hs.
  destruct (checkRegistration env data s) as [[[e t]|message] s1] eqn:Hc;
    simpl in Hs; subst s1.
  - exists validationFailed. step Hc. cbn [fst snd].
    erewrite bind_Err by (apply Registration_create_unnumbered; reflexivity).
    reflexivity.
  - exists message. now erewrite bind_Err by exact Hc.
Qed.

(** A request that passes the checks ends at [Registration.create]. *)
Lemma admitRegistration_rejected env data s e t :
  Admissible env data s e t ->
  0 < available t ->
  admitRegistration env data s = (Err validationFailed, s).
Proof.
  intros Hadm Havail. unfold admitRegistration.
  step (checkRegistration_Ok Hadm Havail). cbn [fst snd].
  erewrite bind_Err by (apply Registration_create_unnumbered; reflexivity).
  reflexivity.
Qed.


Lemma createRegistration_rejected env data s e t :
  Admissible env data s e t ->
  0 < available t ->
  createRegistration env data s = (Err validationFailed, s).
Proof.
  intros Hadm Havail. unfold createRegistration.
  now rewrite (@bind_Err _ _ _ _ _ _ _
                 (@admitRegistration_rejected env data s e t Hadm Havail)).
Qed.

End Creation.

(** ** Ticket artefacts and the payment intent *)

Lemma cloudinaryUpload_Ok env content publicId failure s :
  cloudinary_upload env publicId <> None ->
  exists url,
    cloudinaryUpload env content publicId failure s
    = (Ok url, set_blobs (blobs s ++ [(publicId, content)]) s).
Proof.
  intros H. unfold cloudinaryUpload.
  destruct (cloudinary_upload env publicId) as [url|]; [|congruence].
  now exists url.
Qed.

Section Artefacts.
Context {P : Primitives}.

(** [generateTicket] for a stored registration that already carries its
    ticket number: the number, the payment and the status are kept, the
    artefacts are uploaded, and the stored document is the returned one. *)
Lemma generateTicket_Ok env r s e old :
  Renders env ->
  lookupEvent s (eventId r) = Some e ->
  lookupRegistration s (reg_id r) = Some old ->
  pay_status (payment old) = pay_status (payment r) ->
  ticketNumber (ticket r) <> "" ->
  exists r' s',
    generateTicket env r s = (Ok r', s')
    /\ reg_id r' = reg_id r
    /\ status r' = status r
    /\ payment r' = payment r
    /\ ticketNumber (ticket r') = ticketNumber (ticket r)
    /\ tk_status (ticket r') = tk_status (ticket r)
    /\ events s' = events s
    /\ users s' = users s
    /\ intents s' = intents s
    /\ lookupRegistration s' (reg_id r) = Some r'
    /\ (forall id, id <> reg_id r ->
          lookupRegistration s' id = lookupRegistration s id).
Proof.
  intros (Hqr & Hpdf & Hup) He Hold Hpay Htn.
  unfold generateTicket.
  erewrite bind_Ok by (unfold Event_findById; now rewrite He).
  simpl orThrow. erewrite bind_Ok by reflexivity.
  assert (Hne : isEmpty (ticketNumber (ticket r)) = false).
  { unfold isEmpty. apply String.eqb_neq. exact Htn. }
  rewrite Hne. cbn [qr_ticketNumber].
  unfold generateQRCodeDataURL. rewrite Hqr.
  erewrite bind_Ok by reflexivity.
  unfold uploadQRCode, uploadDataURLToCloudinary.
  match goal with
  | |- context [cloudinaryUpload env ?c ?i ?f] =>
      destruct (@cloudinaryUpload_Ok env c i f s (Hup i)) as [u1 Hu1]
  end.
  erewrite bind_Ok by exact Hu1.
  unfold generateTicketPDF. rewrite Hpdf. erewrite bind_Ok by reflexivity.
  unfold uploadTicketPDF, uploadToCloudinary.
  match goal with
  | |- context [bind (cloudinaryUpload env ?c ?i ?f) _ ?s1] =>
      destruct (@cloudinaryUpload_Ok env c i f s1 (Hup i)) as [u2 Hu2]
  end.
  erewrite bind_Ok by exact Hu2.
  match goal with
  | |- context [bind (Registration_save env ?doc) _ ?st] =>
      set (r2 := doc); set (s2 := st)
  end.
  assert (Hold2 : lookupRegistration s2 (reg_id r2) = Some old) by exact Hold.
  erewrite bind_Ok
    by (apply Registration_save_same_payment with (old := old);
        [exact Hold2 | exact Hpay]).
  unfold sendRegistrationConfirmationEmail.
  destruct (sendEmail_ok env).
  - set (r3 := set_notifications
                 (set_confirmationSent true (notifications r2)) r2).
    exists r3, (storeReg (storeReg s2 r2) r3).
    split.
    + apply catch_Ok. erewrite bind_Ok by reflexivity.
      apply Registration_save_same_payment with (old := r2).
      * apply (lookupRegistration_storeReg_same s2 r2 Hold2).
      * reflexivity.
    + repeat split.
      * change (reg_id r) with (reg_id r3).
        apply lookupRegistration_storeReg_same with (old := r2).
        apply (lookupRegistration_storeReg_same s2 r2 Hold2).
      * intros id Hid.
        rewrite lookupRegistration_storeReg_other by exact Hid.
        now rewrite lookupRegistration_storeReg_other by exact Hid.
  - exists r2, (storeReg s2 r2). split.
    + erewrite catch_Err by reflexivity. reflexivity.
    + repeat split.
      * apply (lookupRegistration_storeReg_same s2 r2 Hold2).
      * intros id Hid.
        now rewrite lookupRegistration_storeReg_other by exact Hid.
Qed.

End Artefacts.

(** [createPayment] against a provider that rejects the transaction: the
    call throws its one error and writes nothing. *)
Lemma createPayment_rejected env data s :
  createTransaction env = None ->
  createPayment env data s = (Err "Gagal membuat transaksi pembayaran", s).
Proof.
  intros Hnone. unfold createPayment, catch, bind, Registration_findById,
    Event_findById, snap_createTransaction, orThrow, throwIf, throw, ret.
  rewrite Hnone.
  destruct (lookupRegistration s (cp_registrationId data)) as [r|];
    [|reflexivity].
  destruct (negb _); [reflexivity|].
  destruct (lookupEvent s (eventId r)); reflexivity.
Qed.

Lemma createPayment_Ok env id total s r e transaction :
  lookupRegistration s id = Some r ->
  pay_status (payment r) = pay_pending ->
  lookupEvent s (eventId r) = Some e ->
  createTransaction env = Some transaction ->
  createPayment env (mkCreatePaymentData id total) s
  = (Ok (mkPaymentIntent (fst transaction) (snd transaction)
           ("NV-ORDER-" ++ showZ (now env) ++ "-" ++ generateToken8 env)),
     storeReg
       (set_intents
          (intents s
           ++ ["NV-ORDER-" ++ showZ (now env) ++ "-" ++ generateToken8 env])
          s)
       (withIntent env total transaction r)).
Proof.
  intros Hr Hpay He Htr. unfold createPayment. apply catch_Ok.
  erewrite bind_Ok by (unfold Registration_findById; simpl; now rewrite Hr).
  simpl orThrow. erewrite bind_Ok by reflexivity.
  rewrite Hpay. simpl negb. erewrite bind_Ok by reflexivity.
  erewrite bind_Ok by (unfold Event_findById; now rewrite He).
  simpl orThrow. erewrite bind_Ok by reflexivity.
  unfold snap_createTransaction. rewrite Htr.
  erewrite bind_Ok by reflexivity.
  pose proof (lookupRegistration_id _ _ Hr) as Hid.
  erewrite bind_Ok.
  2:{ apply Registration_save_same_payment with (old := r).
      - simpl. rewrite Hid. exact Hr.
      - reflexivity. }
  reflexivity.
Qed.

(* ================================================================= *)
(** ** Free registrations *)

(** C7. A creation request whose amount [price * quantity] is zero and
    that passes every check is prepared as the claim says, [confirmed] and
    [paid], but the document handed to [Registration.create] has neither a
    registration number nor an order id, and the schema requires both: the
    call ends with the validation error and leaves the store as it was.
    No registration is returned or stored, no ticket number is assigned. *)
Theorem free_registration_is_refused (P : Primitives) (env : Env)
    (data : CreateRegistrationData) (s : Store) (e : IEvent)
    (t : ITicketType) :
  Admissible env data s e t ->
  0 < available t ->
  price t * quantityOrOne (cr_quantity data) = 0 ->
  let doc := newRegistration env data e t (quantityOrOne (cr_quantity data))
               (price t * quantityOrOne (cr_quantity data)) in
  status doc = confirmed
  /\ pay_status (payment doc) = pay_paid
  /\ registrationNumber doc = ""
  /\ orderId (payment doc) = ""
  /\ registrationSchemaAccepts doc = false
  /\ exists message, createRegistration env data s = (Err message, s).
Proof.
  intros Hadm Havail Hfree doc. unfold doc, newRegistration.
  rewrite Hfree. repeat split.
  exists validationFailed.
  now apply createRegistration_rejected with (e := e) (t := t).
Qed.

(** Budi's request for a free ticket in the worked scenario. *)
Lemma free_registration_is_refused_witness :
  let data := Scenario.buy 8 11 None Scenario.budi in
  let t := mkTicketType 11 "Gratis" 0 5 0 0 5 true in
  price t * quantityOrOne (cr_quantity data) = 0
  /\ exists message,
       createRegistration (P := Sample.primitives) Scenario.env_create data
         Scenario.s0 = (Err message, Scenario.s0).
Proof.
  intros data t. split; [reflexivity|].
  apply (@free_registration_is_refused Sample.primitives
           Scenario.env_create data Scenario.s0 Scenario.seminar t).
  - constructor; try reflexivity; try (vm_compute; discriminate).
    simpl. auto.
  - reflexivity.
  - reflexivity.
Defined.

(* ================================================================= *)
(** ** A payment intent that cannot be created *)



(* ================================================================= *)
(** ** The expiry sweep *)

Lemma ledger_storeReg s doc eid tid :
  ledger (storeReg s doc) eid tid = ledger s eid tid.
Proof. reflexivity. Qed.

Lemma lookupRegistration_writeTier s tid so re e id :
  lookupRegistration (writeTier s tid so re e) id = lookupRegistration s id.
Proof. reflexivity. Qed.

(** A ledger write moves the counters of its tier and of no other. *)
Lemma ledger_writeTier s tid so re e t eid' tid' :
  lookupEvent s (ev_id e) = Some e ->
  findTicketType e tid = Some t ->
  ledger (writeTier s tid so re e) eid' tid'
  = if Nat.eqb (ev_id e) eid' && Nat.eqb tid tid'
    then Some (quota t, so, re)
    else ledger s eid' tid'.
Proof.
  intros He Ht. unfold ledger, lookupTier.
  destruct (Nat.eqb_spec (ev_id e) eid') as [<-|Hne].
  - rewrite lookupEvent_writeTier_same by exact He. rewrite He.
    destruct (Nat.eqb_spec tid tid') as [<-|Hnt]; simpl.
    + now rewrite (@tierWritten_target tid so re e t Ht).
    + destruct (@tierWritten_other tid so re e tid') as [-> | ->];
        [congruence|reflexivity|].
      now destruct (findTicketType e tid').
  - simpl. rewrite lookupEvent_writeTier_other by congruence. reflexivity.
Qed.

(** The effect of [adjustTier] on every tier's ledger. *)
Lemma adjustTier_ledger r fs fr s :
  exists s',
    adjustTier r fs fr s = (Ok tt, s')
    /\ registrations s' = registrations s
    /\ users s' = users s /\ intents s' = intents s /\ blobs s' = blobs s
    /\ forall eid tid,
         ledger s' eid tid
         = match lookupTier s (eventId r) (ticketType_id r) with
           | Some t =>
               if onTier eid tid r
               then Some (quota t, fs t, fr t)
               else ledger s eid tid
           | None => ledger s eid tid
           end.
Proof.
  unfold adjustTier, lookupTier.
  destruct (lookupEvent s (eventId r)) as [e|] eqn:He.
  - pose proof (lookupEvent_id _ _ He) as Heid.
    destruct (findTicketType e (ticketType_id r)) as [t|] eqn:Ht.
    + pose proof (findTicketType_id _ _ Ht) as Htid.
      exists (writeTier s (ticketType_id r) (fs t) (fr t) e).
      split; [|repeat split].
      * erewrite bind_Ok by (unfold Event_findById; now rewrite He).
        cbv beta iota. rewrite Ht, Heid, Htid.
        apply updateTicketAvailability_Ok with (t := t); assumption.
      * intros eid tid.
        rewrite (@ledger_writeTier s (ticketType_id r) (fs t) (fr t) e t)
          by (try rewrite Heid; assumption).
        unfold onTier. rewrite Heid.
        now rewrite (Nat.eqb_sym (eventId r)), (Nat.eqb_sym (ticketType_id r)).
    + exists s. split; [|repeat split].
      erewrite bind_Ok by (unfold Event_findById; now rewrite He).
      cbv beta iota. now rewrite Ht.
  - exists s. split; [|repeat split].
    erewrite bind_Ok by (unfold Event_findById; now rewrite He).
    reflexivity.
Qed.

Lemma preSaveTicketNumber_unpaid env m doc :
  pay_status (payment doc) <> pay_paid ->
  preSaveTicketNumber env m doc = doc.
Proof.
  intros Hne. unfold preSaveTicketNumber.
  destruct (PaymentStatus_eqb (pay_status (payment doc)) pay_paid) eqn:Heq.
  - apply PaymentStatus_eqb_eq in Heq. contradiction.
  - now rewrite andb_false_r.
Qed.

Lemma expireRegistration_run env r s old :
  lookupRegistration s (reg_id r) = Some old ->
  exists s',
    expireRegistration env r s = (Ok tt, s')
    /\ lookupRegistration s' (reg_id r) = Some (expired r)
    /\ (forall id, id <> reg_id r ->
          lookupRegistration s' id = lookupRegistration s id)
    /\ (forall eid tid,
          ledger s' eid tid = option_map (releaseOf eid tid r) (ledger s eid tid)).
Proof.
  intros Hold.
  assert (Hsave : Registration_save env (expired r) s
                  = (Ok (expired r), storeReg s (expired r))).
  { rewrite (@Registration_save_stored env (expired r) old s Hold).
    now rewrite preSaveTicketNumber_unpaid by discriminate. }
  destruct (adjustTier_ledger (expired r) (fun t => sold t)
              (fun t => Z.max 0 (reserved t - quantity (expired r)))
              (storeReg s (expired r)))
    as (s' & Hrun & Hregs & _ & _ & _ & Hledger).
  exists s'. split; [|split; [|split]].
  - unfold expireRegistration. fold (expired r). step Hsave. exact Hrun.
  - unfold lookupRegistration. rewrite Hregs.
    apply (@lookupRegistration_storeReg_same s (expired r) old Hold).
  - intros id Hid. unfold lookupRegistration. rewrite Hregs.
    apply (@lookupRegistration_storeReg_other s (expired r) id Hid).
  - intros eid tid. rewrite Hledger. clear Hledger Hrun.
    change (lookupTier (storeReg s (expired r)) (eventId (expired r))
              (ticketType_id (expired r)))
      with (lookupTier s (eventId r) (ticketType_id r)).
    change (onTier eid tid (expired r)) with (onTier eid tid r).
    change (quantity (expired r)) with (quantity r).
    rewrite ledger_storeReg.
    destruct (onTier eid tid r) eqn:Hon.
    + unfold onTier in Hon. apply andb_prop in Hon. destruct Hon as [H1 H2].
      apply Nat.eqb_eq in H1, H2. subst eid tid.
      unfold ledger, releaseOf.
      destruct (lookupTier s (eventId r) (ticketType_id r)) as [t|];
        simpl; [|reflexivity].
      unfold onTier. now rewrite Nat.eqb_refl, Nat.eqb_refl.
    + assert (Hid : option_map (releaseOf eid tid r) (ledger s eid tid)
                    = ledger s eid tid).
      { unfold releaseOf. rewrite Hon.
        now destruct (ledger s eid tid) as [[[q so] re]|]. }
      rewrite Hid. now destruct (lookupTier s (eventId r) (ticketType_id r)).
Qed.

Lemma sweepTier_cons eid tid r l res :
  sweepTier eid tid (r :: l) res
  = sweepTier eid tid l
      (if onTier eid tid r then Z.max 0 (res - quantity r) else res).
Proof. reflexivity. Qed.

(** The loop of the sweep over a list of stored registrations with
    distinct ids. *)
Lemma expireAll_run env l :
  forall s n,
    NoDup (map reg_id l) ->
    (forall r, In r l -> lookupRegistration s (reg_id r) <> None) ->
    exists s',
      expireAll env l n s = (Ok (n + Z.of_nat (List.length l)), s')
      /\ (forall r, In r l -> lookupRegistration s' (reg_id r) = Some (expired r))
      /\ (forall id, ~ In id (map reg_id l) ->
            lookupRegistration s' id = lookupRegistration s id)
      /\ (forall eid tid,
            ledger s' eid tid
            = option_map
                (fun c => let '(q, so, re) := c in
                          (q, so, sweepTier eid tid l re))
                (ledger s eid tid)).
Proof.
  induction l as [|r rest IH]; intros s n Hnd Hin.
  - exists s. simpl. rewrite Z.add_0_r. repeat split.
    + intros r [].
    + intros eid tid. now destruct (ledger s eid tid) as [[[q so] re]|].
  - simpl map in Hnd. apply NoDup_cons_iff in Hnd. destruct Hnd as [Hfresh Hnd].
    destruct (lookupRegistration s (reg_id r)) as [old|] eqn:Hold;
      [|exfalso; apply (Hin r (or_introl eq_refl)); exact Hold].
    destruct (expireRegistration_run env r s Hold)
      as (s1 & Hrun & Hself & Hothers & Hledger).
    destruct (IH s1 (n + 1) Hnd) as (s' & Hrest & Hdone & Hkept & Hledger').
    { intros r' Hr'. rewrite Hothers.
      - apply Hin. now right.
      - intros Heq. apply Hfresh. rewrite <- Heq. now apply in_map. }
    exists s'. split; [|split; [|split]].
    + simpl expireAll.
      assert (Hbody : catch (expireRegistration env r ;;; ret (n + 1))
                        (fun _ => ret n) s = (Ok (n + 1), s1)).
      { apply catch_Ok. now step Hrun. }
      step Hbody. rewrite Hrest. f_equal. f_equal.
      simpl List.length. lia.
    + intros r' [<-|Hr'].
      * rewrite Hkept by exact Hfresh. exact Hself.
      * now apply Hdone.
    + intros id Hid. rewrite Hkept.
      * apply Hothers. intros ->. apply Hid. now left.
      * intros Hc. apply Hid. now right.
    + intros eid tid. rewrite Hledger', Hledger.
      destruct (ledger s eid tid) as [[[q so] re]|]; reflexivity.
Qed.

Lemma sweepTier_none eid tid l res :
  (forall r, In r l -> onTier eid tid r = false) ->
  sweepTier eid tid l res = res.
Proof.
  revert res. induction l as [|x rest IH]; intros res Hoff; [reflexivity|].
  rewrite sweepTier_cons, (Hoff x (or_introl eq_refl)).
  apply IH. intros r Hr. apply Hoff. now right.
Qed.

(** When one registration of the list is on the tier, the sweep of the list
    releases that registration's quantity, once. *)
Lemma sweepTier_single eid tid l r res :
  NoDup (map reg_id l) ->
  In r l ->
  onTier eid tid r = true ->
  (forall r2, In r2 l -> onTier eid tid r2 = true -> r2 = r) ->
  sweepTier eid tid l res = Z.max 0 (res - quantity r).
Proof.
  induction l as [|x rest IH]; intros Hnd Hin Hon Honly; [destruct Hin|].
  simpl map in Hnd. apply NoDup_cons_iff in Hnd. destruct Hnd as [Hfresh Hnd].
  rewrite sweepTier_cons.
  destruct (onTier eid tid x) eqn:Hx.
  - assert (x = r) by (apply Honly; [now left|exact Hx]). subst x.
    apply sweepTier_none. intros r2 Hr2.
    destruct (onTier eid tid r2) eqn:H2; [|reflexivity].
    exfalso. apply Hfresh.
    rewrite <- (Honly r2 (or_intror Hr2) H2). now apply in_map.
  - destruct Hin as [->|Hin]; [congruence|].
    apply IH; try assumption.
    intros r2 Hr2. apply Honly. now right.
Qed.

(** A selection of registrations with distinct ids has distinct ids. *)
Lemma selection_distinct (keep : IRegistration -> bool)
    (regs : list IRegistration) :
  NoDup (map reg_id regs) -> NoDup (map reg_id (filter keep regs)).
Proof.
  induction regs as [|x rest IH]; simpl; intros Hnd; [constructor|].
  apply NoDup_cons_iff in Hnd. destruct Hnd as [Hfresh Hnd].
  destruct (keep x); simpl; [|now apply IH].
  constructor; [|now apply IH].
  intros Hin. apply Hfresh. apply in_map_iff in Hin.
  destruct Hin as (y & Hy & Hin). apply filter_In in Hin.
  rewrite <- Hy. apply in_map. tauto.
Qed.

Lemma lookupRegistration_present s r :
  In r (registrations s) -> lookupRegistration s (reg_id r) <> None.
Proof.
  intros Hin Hnone. unfold lookupRegistration in Hnone.
  apply (find_none _ _ Hnone) in Hin. unfold has_reg_id in Hin.
  now rewrite Nat.eqb_refl in Hin.
Qed.

Lemma ledger_tier s s' eid tid t f :
  lookupTier s eid tid = Some t ->
  ledger s' eid tid
  = option_map (fun c => let '(q, so, re) := c in (q, so, f re))
      (ledger s eid tid) ->
  exists t', lookupTier s' eid tid = Some t'
             /\ quota t' = quota t /\ sold t' = sold t
             /\ reserved t' = f (reserved t).
Proof.
  unfold ledger. intros Ht. rewrite Ht. simpl.
  destruct (lookupTier s' eid tid) as [t'|]; simpl; [|discriminate].
  intros Heq. injection Heq as Hq Hs Hr. now exists t'.
Qed.

(** Alice and Budi each hold a reservation on the Regular tier.  Alice
    withdraws before paying, and the sweep of hour 25 expires her
    registration and takes her quantity off [reserved] once more.  When
    Budi's own deadline has passed, [reserved] is already 0: the sweep
    cancels his registration and leaves the counter at 0, not at -1. *)
Lemma sweep_stops_at_zero :
  let withdrawn :=
    cancelRegistration Scenario.env_settle 1 7 "berhalangan"
      Scenario.s_two in
  let env_25h := Scenario.world (Scenario.t0 + 90000000) "AAAAAAAAAA"
                   "BBBBBBBBBBBB" "cccccccccccccccc" Scenario.midtrans in
  let s := snd (expirePaymentsJob env_25h (snd withdrawn)) in
  exists r,
    lookupRegistration s 2 = Some r
    /\ pay_status (payment r) = pay_pending
    /\ expiredAt (payment r) <= now Scenario.env_sweep
    /\ quantity r = 1
    /\ counters s 10 = Some (2, 0, 0, 2)
    /\ ~ sweepTakesQuantityOff Scenario.env_sweep s r.
Proof.
  intros withdrawn env_25h s.
  assert (Hr : exists r, lookupRegistration s 2 = Some r)
    by (vm_compute; eexists; reflexivity).
  destruct Hr as [r Hr]. exists r.
  assert (Hfacts : pay_status (payment r) = pay_pending
                   /\ expiredAt (payment r) = Scenario.t0 + 172800000
                   /\ quantity r = 1
                   /\ eventId r = 1%nat /\ ticketType_id r = 10%nat).
  { vm_compute in Hr. injection Hr as <-. repeat split. }
  destruct Hfacts as (Hpay & Hexp & Hq & Hev & Htt).
  repeat split; try assumption.
  - rewrite Hexp. vm_compute. discriminate.
  - intros Hclaim. unfold sweepTakesQuantityOff in Hclaim.
    rewrite Hev, Htt, Hq in Hclaim.
    specialize (Hclaim (mkTicketType 10 "Regular" 50000 2 0 0 2 true)
                  eq_refl).
    vm_compute in Hclaim. discriminate.
Qed.

(** C8, as the code has it.  In a store whose registrations have distinct
    ids, one run of the sweep answers with the number of registrations it
    selected ([payment.status = pending], [expiredAt <= now]) and leaves
    each of them stored with [payment.status = expired],
    [status = cancelled] and [ticket.status = expired].  Every tier keeps
    its [quota] and [sold]; its [reserved] is lowered by the quantity of
    each selected registration of the tier in turn and never below zero.
    For a registration that is the only selected one of its tier this is
    [max 0 (reserved - quantity)], which is [reserved - quantity] whenever
    the counter still covers the quantity. *)
Theorem sweep_cancels_and_releases (env : Env) (s : Store) :
  NoDup (map reg_id (registrations s)) ->
  let selected := filter (isExpiredPending (now env)) (registrations s) in
  exists s',
    expirePaymentsJob env s = (Ok (Z.of_nat (List.length selected)), s')
    /\ (forall r,
          In r (registrations s) ->
          pay_status (payment r) = pay_pending ->
          expiredAt (payment r) <= now env ->
          exists r',
            lookupRegistration s' (reg_id r) = Some r'
            /\ pay_status (payment r') = pay_expired
            /\ status r' = cancelled
            /\ tk_status (ticket r') = tk_expired
            /\ quantity r' = quantity r)
    /\ (forall eid tid t,
          lookupTier s eid tid = Some t ->
          exists t',
            lookupTier s' eid tid = Some t'
            /\ quota t' = quota t
            /\ sold t' = sold t
            /\ reserved t' = sweepTier eid tid selected (reserved t))
    /\ (forall r t,
          In r selected ->
          lookupTier s (eventId r) (ticketType_id r) = Some t ->
          (forall r2, In r2 selected ->
                      onTier (eventId r) (ticketType_id r) r2 = true ->
                      r2 = r) ->
          exists t',
            lookupTier s' (eventId r) (ticketType_id r) = Some t'
            /\ sold t' = sold t
            /\ reserved t' = Z.max 0 (reserved t - quantity r)
            /\ (quantity r <= reserved t ->
                reserved t' = reserved t - quantity r)).
Proof.
  intros Hnd selected.
  assert (Hnd' : NoDup (map reg_id selected))
    by (apply selection_distinct; exact Hnd).
  destruct (@expireAll_run env selected s 0 Hnd')
    as (s' & Hrun & Hdone & _ & Hledger).
  { intros r Hr. apply lookupRegistration_present.
    apply filter_In in Hr. tauto. }
  assert (Htiers : forall eid tid t,
            lookupTier s eid tid = Some t ->
            exists t',
              lookupTier s' eid tid = Some t'
              /\ quota t' = quota t /\ sold t' = sold t
              /\ reserved t' = sweepTier eid tid selected (reserved t)).
  { intros eid tid t Ht.
    apply (@ledger_tier s s' eid tid t (sweepTier eid tid selected) Ht).
    apply Hledger. }
  exists s'. split; [|split; [|split]].
  - unfold expirePaymentsJob. apply catch_Ok.
    erewrite bind_Ok by reflexivity. exact Hrun.
  - intros r Hin Hpay Hexp. exists (expired r). split; [|now repeat split].
    apply Hdone. apply filter_In. split; [exact Hin|].
    unfold isExpiredPending. rewrite Hpay. simpl.
    apply Z.leb_le. exact Hexp.
  - exact Htiers.
  - intros r t Hin Ht Honly.
    destruct (Htiers _ _ _ Ht) as (t' & Ht' & _ & Hsold & Hres).
    exists t'. repeat split; try assumption.
    + rewrite Hres. apply sweepTier_single; try assumption.
      unfold onTier. now rewrite !Nat.eqb_refl.
    + intros Hcover. rewrite Hres.
      rewrite (@sweepTier_single _ _ selected r (reserved t));
        try assumption; [lia|].
      unfold onTier. now rewrite !Nat.eqb_refl.
Qed.

(** The sweep of the worked scenario, two days after Alice's unpaid
    purchase. *)
Lemma sweep_cancels_and_releases_witness :
  NoDup (map reg_id (registrations Scenario.s_pending))
  /\ exists s',
       expirePaymentsJob Scenario.env_sweep Scenario.s_pending = (Ok 1, s')
       /\ lifecycle s' 1 = Some (cancelled, pay_expired, tk_expired, "")
       /\ counters s' 10 = Some (1, 0, 0, 1).
Proof.
  assert (Hnd : NoDup (map reg_id (registrations Scenario.s_pending))).
  { vm_compute. constructor; [intros []|constructor]. }
  split; [exact Hnd|].
  destruct (@sweep_cancels_and_releases Scenario.env_sweep Scenario.s_pending
              Hnd)
    as (s' & Hrun & _ & _ & _).
  exists s'. split; [exact Hrun|].
  assert (Hs' : s' = snd (expirePaymentsJob Scenario.env_sweep
                            Scenario.s_pending))
    by now rewrite Hrun.
  rewrite Hs'. vm_compute. split; reflexivity.
Defined.

(* ================================================================= *)
(** ** Issuing a credential on settlement *)



Section Issuance.
Context {P : Primitives}.


End Issuance.

Section Settlement.
Context {P : Primitives}.


End Settlement.

(* ================================================================= *)
(** ** The credential from issue to check-in *)



(* ================================================================= *)
(** ** Reservations that overlap and reservations in sequence *)

Section Overlap.
Context {P : Primitives}.

(** Two turns in a row are one whole call. *)
Lemma advance_twice env data s :
  (let (c, s1) := advance (Waiting env data) s in advance c s1)
  = (Finished (fst (createRegistration env data s)),
     snd (createRegistration env data s)).
Proof.
  unfold createRegistration, bind. simpl advance.
  destruct (admitRegistration env data s) as [[a|e] s1]; simpl.
  - now destruct (completeRegistration env a s1).
  - reflexivity.
Qed.

End Overlap.

Lemma Forall_replaceNth A (Q : A -> Prop) (i : nat) (x : A) (l : list A) :
  Forall Q l -> Q x -> Forall Q (replaceNth i x l).
Proof.
  intros Hl Hx. revert i. induction Hl as [|y rest Hy Hrest IH]; intros i.
  - destruct i; constructor.
  - destruct i; simpl; constructor; auto.
Qed.

Section Fruitless.
Context {P : Primitives}.

(** A turn of a call that holds nothing writes nothing and leaves the call
    holding nothing. *)
Lemma advance_fruitless c s :
  fruitless c -> snd (advance c s) = s /\ fruitless (fst (advance c s)).
Proof.
  destruct c as [env data|env a|[ok|message]]; simpl; try contradiction.
  - intros _. destruct (admitRegistration_fails env data s) as [m Hrun].
    rewrite Hrun. simpl. auto.
  - auto.
Qed.

(** X28. Whatever the order in which calls of [createRegistration] take
    their turns, they write nothing, and none of them ever holds or returns
    a registration: each call is refused by a check or by
    [Registration.create]. *)
Theorem schedule_fruitless (turns : list nat) :
  forall (calls : list Call) (s : Store),
    Forall fruitless calls ->
    snd (schedule turns calls s) = s
    /\ Forall fruitless (fst (schedule turns calls s)).
Proof.
  induction turns as [|i rest IH]; intros calls s Hcalls; simpl.
  - auto.
  - destruct (nth_error calls i) as [c|] eqn:Hc; [|now apply IH].
    assert (Hfc : fruitless c).
    { rewrite Forall_forall in Hcalls. apply Hcalls.
      now apply nth_error_In with (n := i). }
    destruct (@advance_fruitless c s Hfc) as [Hs Hf].
    destruct (advance c s) as [c' s']. simpl in Hs, Hf. subst s'.
    apply IH. now apply Forall_replaceNth.
Qed.

End Fruitless.

(** Alice's and Budi's calls, overlapping. *)
Lemma schedule_fruitless_witness :
  let P := Sample.primitives in
  let waiting :=
    [Waiting Scenario.env_create (Scenario.buy 7 10 None Scenario.alice);
     Waiting Scenario.env_create (Scenario.buy 8 11 None Scenario.budi)] in
  Forall fruitless waiting
  /\ snd (schedule [0; 1; 0; 1]%nat waiting Scenario.s0) = Scenario.s0
  /\ Forall fruitless (fst (schedule [0; 1; 0; 1]%nat waiting Scenario.s0)).
Proof.
  intros P waiting.
  assert (Hw : Forall fruitless waiting) by (repeat constructor).
  split; [exact Hw|].
  exact (@schedule_fruitless P [0; 1; 0; 1]%nat waiting Scenario.s0 Hw).
Defined.

(** C6. Alice and Budi each ask for one unit of the Regular tier, of which
    one unit is available.  Whether their calls overlap (both pass the
    checks before either goes on) or run one after the other, neither call
    creates a registration and neither is told that the tickets are gone:
    both end with the error of [Registration.create] and the store is what
    it was.  The count of the claim, one [pending_payment] registration and
    one "Tiket sudah habis", is met under neither order. *)
Theorem last_unit_is_reserved_by_nobody :
  let P := Sample.primitives in
  let calls :=
    [(Scenario.env_create, Scenario.buy 7 10 None Scenario.alice);
     (Scenario.world (Scenario.t0 + 5) "BCDEFGHIJK" "BCDEFGHIJKLM"
        "b1b2c3d4e5f6a7b8" Scenario.midtrans,
      Scenario.buy 8 10 None Scenario.budi)] in
  let waiting := map (fun c => Waiting (fst c) (snd c)) calls in
  option_map available (lookupTier Scenario.s0 1 10) = Some 1
  /\ (exists m1 m2,
        schedule [0; 1; 0; 1]%nat waiting Scenario.s0
        = ([Finished (Err m1); Finished (Err m2)], Scenario.s0)
        /\ schedule [0; 0; 1; 1]%nat waiting Scenario.s0
           = ([Finished (Err m1); Finished (Err m2)], Scenario.s0)
        /\ createAll calls Scenario.s0 = ([Err m1; Err m2], Scenario.s0)
        /\ m1 <> "Tiket sudah habis"
        /\ m2 <> "Tiket sudah habis")
  /\ ~ exactlyKReserve P [0; 1; 0; 1]%nat calls Scenario.s0 1
  /\ ~ exactlyKReserve P [0; 0; 1; 1]%nat calls Scenario.s0 1.
Proof.
  intros P calls waiting.
  split; [reflexivity|]. split; [|split].
  - exists validationFailed, validationFailed.
    repeat split; try (vm_compute; reflexivity); discriminate.
  - intros (results & Hfinal & Hk & _).
    destruct results as [|a [|b [|c rest]]];
      try (vm_compute in Hfinal; discriminate).
    vm_compute in Hfinal. injection Hfinal as <- <-.
    vm_compute in Hk. discriminate.
  - intros (results & Hfinal & Hk & _).
    destruct results as [|a [|b [|c rest]]];
      try (vm_compute in Hfinal; discriminate).
    vm_compute in Hfinal. injection Hfinal as <- <-.
    vm_compute in Hk. discriminate.
Qed.

Lemma lookupEvent_events s s' id :
  events s' = events s -> lookupEvent s' id = lookupEvent s id.
Proof. unfold lookupEvent. now intros ->. Qed.

(* ================================================================= *)
(** ** The settlement handler, whatever the registration's state *)

Section Unguarded.
Context {P : Primitives}.

(** However far [generateAndSendTicket] gets, it ends without an error,
    touches no event, and leaves the registration's status, payment and
    ticket number as they are. *)
Lemma generateAndSendTicket_quiet env r s :
  lookupRegistration s (reg_id r) = Some r ->
  exists r' s',
    generateAndSendTicket env r s = (Ok tt, s')
    /\ events s' = events s
    /\ lookupRegistration s' (reg_id r) = Some r'
    /\ status r' = status r
    /\ payment r' = payment r
    /\ ticketNumber (ticket r') = ticketNumber (ticket r).
Proof.
  intros Hr. unfold generateAndSendTicket, catch, bind, Event_findById,
    User_findById, orThrow, generateQRCodeDataURL, uploadDataURLToCloudinary,
    uploadToCloudinary, cloudinaryUpload, generateTicketPDF,
    sendRegistrationConfirmationEmail, throw, ret.
  destruct (lookupEvent s (eventId r)) as [e|]; [|now exists r, s].
  destruct (find (Nat.eqb (userId r)) (users s)); [|now exists r, s].
  destruct (toDataURL_ok env); [|now exists r, s].
  destruct (cloudinary_upload env ("qr_" ++ ticketNumber (ticket r)))
    as [u1|]; [|now exists r, s].
  destruct (generateTicketPDF_ok env);
    [|exists r; eexists; split; [reflexivity|now repeat split]].
  destruct (cloudinary_upload env ("ticket_" ++ ticketNumber (ticket r)))
    as [u2|]; [|exists r; eexists; split; [reflexivity|now repeat split]].
  set (r2 := set_ticket (set_urls u1 (Some u2) (ticket r)) r).
  match goal with
  | |- context [Registration_save env r2 ?st] =>
      set (s2 := st);
      assert (Hsave : Registration_save env r2 s2 = (Ok r2, storeReg s2 r2))
        by (apply (@Registration_save_same_payment env r2 r s2);
            [exact Hr|reflexivity])
  end.
  rewrite Hsave.
  assert (Hlook : lookupRegistration (storeReg s2 r2) (reg_id r) = Some r2)
    by (apply (@lookupRegistration_storeReg_same s2 r2 r); exact Hr).
  exists r2, (storeReg s2 r2).
  destruct (sendEmail_ok env); repeat split; assumption.
Qed.

(** [handleSuccessfulPayment] reads no state before it writes: a signed
    settlement for a stored registration, be it pending, confirmed or
    cancelled, leaves the registration confirmed and paid and writes
    [sold + 1] and [max 0 (reserved - 1)] to its tier. *)
Lemma settlement_is_not_guarded env n s r t :
  verifyNotification n = true ->
  isOneOf (transaction_status n) ["capture"; "settlement"] = true ->
  fraudAccepted (fraud_status n) = true ->
  find (fun x => String.eqb (orderId (payment x)) (order_id n))
    (registrations s) = Some r ->
  lookupRegistration s (reg_id r) = Some r ->
  lookupTier s (eventId r) (ticketType_id r) = Some t ->
  exists r' s',
    handlePaymentNotification env n s = (Ok tt, s')
    /\ lookupRegistration s' (reg_id r) = Some r'
    /\ status r' = confirmed
    /\ pay_status (payment r') = pay_paid
    /\ ledger s' (eventId r) (ticketType_id r)
       = Some (quota t, sold t + 1, Z.max 0 (reserved t - 1)).
Proof.
  intros Hsig Hts Hfraud Hfind Hstored Ht.
  set (doc := set_status confirmed
                (set_payment
                   (set_transactionId (Some (transaction_id n))
                      (set_paidAt (Some (now env))
                         (set_pay_status pay_paid (payment r))))
                   r)).
  set (m := negb (PaymentStatus_eqb (pay_status (payment r))
                                    (pay_status (payment doc)))).
  set (r1 := preSaveTicketNumber env m doc).
  assert (Hsave : Registration_save env doc s = (Ok r1, storeReg s r1))
    by apply (@Registration_save_stored env doc r s Hstored).
  assert (Hr1 : reg_id r1 = reg_id r /\ eventId r1 = eventId r
                /\ ticketType_id r1 = ticketType_id r
                /\ status r1 = confirmed
                /\ pay_status (payment r1) = pay_paid).
  { unfold r1, preSaveTicketNumber. destruct (_ && _); now repeat split. }
  destruct Hr1 as (Hid & Hev & Htt & Hst & Hpay).
  destruct (adjustTier_ledger r1 (fun t => sold t + 1)
              (fun t => Z.max 0 (reserved t - 1)) (storeReg s r1))
    as (s2 & Hadj & Hregs & _ & _ & _ & Hledger).
  assert (Hstored2 : lookupRegistration s2 (reg_id r1) = Some r1).
  { unfold lookupRegistration. rewrite Hregs.
    apply (@lookupRegistration_storeReg_same s r1 r). now rewrite Hid. }
  destruct (@generateAndSendTicket_quiet env r1 s2 Hstored2)
    as (r' & s' & Hgen & Hevents & Hlook & Hst' & Hpay' & _).
  exists r', s'. split; [|repeat split].
  - unfold handlePaymentNotification. rewrite Hsig. simpl negb.
    erewrite bind_Ok by reflexivity.
    erewrite bind_Ok by (unfold findByOrderId; now rewrite Hfind).
    cbv beta iota zeta. rewrite Hts, Hfraud.
    unfold handleSuccessfulPayment. fold doc.
    step Hsave. step Hadj. exact Hgen.
  - now rewrite <- Hid.
  - now rewrite Hst'.
  - now rewrite Hpay'.
  - assert (Heq : ledger s' (eventId r) (ticketType_id r)
                  = ledger s2 (eventId r) (ticketType_id r)).
    { unfold ledger, lookupTier.
      now rewrite (@lookupEvent_events s2 s' (eventId r) Hevents). }
    rewrite Heq, Hledger, Hev, Htt.
    change (lookupTier (storeReg s r1) (eventId r) (ticketType_id r))
      with (lookupTier s (eventId r) (ticketType_id r)).
    rewrite Ht. unfold onTier. rewrite Hev, Htt.
    now rewrite !Nat.eqb_refl.
Qed.

End Unguarded.

(* ================================================================= *)
(** ** Calls in sequence, as a schedule *)

Lemma replaceNth_middle A (l1 l2 : list A) (x y : A) :
  replaceNth (List.length l1) x (l1 ++ y :: l2) = (l1 ++ x :: l2)%list.
Proof. induction l1 as [|z rest IH]; simpl; [reflexivity|now rewrite IH]. Qed.

Lemma nth_error_middle A (l1 l2 : list A) (y : A) :
  nth_error (l1 ++ y :: l2) (List.length l1) = Some y.
Proof. induction l1 as [|z rest IH]; simpl; [reflexivity|exact IH]. Qed.

Section InSequence.
Context {P : Primitives}.

(** Two turns in a row of the call at one position. *)
Lemma schedule_two_turns (pre post : list Call) env data turns s :
  schedule (List.length pre :: List.length pre :: turns)
    (pre ++ Waiting env data :: post) s
  = schedule turns
      (pre ++ Finished (fst (createRegistration env data s)) :: post)
      (snd (createRegistration env data s)).
Proof.
  pose proof (advance_twice env data s) as Htwice.
  change (schedule (List.length pre :: List.length pre :: turns)
            (pre ++ Waiting env data :: post) s)
    with (match nth_error (pre ++ Waiting env data :: post) (List.length pre)
          with
          | Some c =>
              let (c', s') := advance c s in
              schedule (List.length pre :: turns)
                (replaceNth (List.length pre) c'
                   (pre ++ Waiting env data :: post)) s'
          | None =>
              schedule (List.length pre :: turns)
                (pre ++ Waiting env data :: post) s
          end).
  rewrite nth_error_middle.
  destruct (advance (Waiting env data) s) as [c1 s1].
  rewrite replaceNth_middle.
  change (schedule (List.length pre :: turns) (pre ++ c1 :: post) s1)
    with (match nth_error (pre ++ c1 :: post) (List.length pre) with
          | Some c =>
              let (c', s') := advance c s1 in
              schedule turns
                (replaceNth (List.length pre) c' (pre ++ c1 :: post)) s'
          | None => schedule turns (pre ++ c1 :: post) s1
          end).
  rewrite nth_error_middle.
  destruct (advance c1 s1) as [c2 s2].
  rewrite replaceNth_middle.
  now injection Htwice as -> ->.
Qed.

(** The schedule in which every call takes its two turns in a row is the
    run of the calls one after the other. *)
Lemma schedule_inSequence (calls : list (Env * CreateRegistrationData)) :
  forall (finished : list (Result (IRegistration * option PaymentIntent)))
         (s : Store),
    schedule (inSequence (List.length finished) (List.length calls))
      (map Finished finished ++ map (fun c => Waiting (fst c) (snd c)) calls)
      s
    = (map Finished (finished ++ fst (createAll calls s)),
       snd (createAll calls s)).
Proof.
  induction calls as [|[env data] rest IH]; intros finished s.
  - simpl. now rewrite !app_nil_r.
  - simpl List.length. simpl inSequence. simpl map.
    rewrite <- (length_map Finished finished) at 1 2.
    rewrite schedule_two_turns.
    set (result := fst (createRegistration env data s)).
    replace (S (List.length finished))
      with (List.length (finished ++ [result]))
      by (rewrite length_app; simpl; lia).
    replace (map Finished finished
             ++ Finished result
                :: map (fun c => Waiting (fst c) (snd c)) rest)%list
      with (map Finished (finished ++ [result])
            ++ map (fun c => Waiting (fst c) (snd c)) rest)%list
      by (rewrite map_app, <- app_assoc; reflexivity).
    rewrite IH. simpl createAll. unfold result.
    destruct (createRegistration env data s) as [res s1'].
    simpl fst. simpl snd.
    destruct (createAll rest s1') as [results s2']. simpl fst. simpl snd.
    now rewrite <- app_assoc.
Qed.

End InSequence.

(* ================================================================= *)
(** ** The transitions that do respect the state *)

(** After every successful ledger write the stored [available] of the
    written tier is [quota - sold - reserved]. *)
Lemma updateTicketAvailability_recomputes s eid tid so re e t :
  lookupEvent s eid = Some e ->
  findTicketType e tid = Some t ->
  exists t',
    lookupTier (snd (updateTicketAvailability eid tid so re s)) eid tid
    = Some t'
    /\ quota t' = quota t /\ sold t' = so /\ reserved t' = re
    /\ available t' = quota t' - sold t' - reserved t'.
Proof.
  intros He Ht. pose proof (lookupEvent_id _ _ He) as Hid. subst eid.
  rewrite (@updateTicketAvailability_Ok s (ev_id e) tid so re e t He Ht).
  exists (setCounters so re t). split; [|now repeat split].
  now apply lookupTier_writeTier_target.
Qed.

Lemma cancelRegistration_rejects_cancelled env id u why s r :
  lookupRegistration s id = Some r ->
  userId r = u ->
  status r = cancelled ->
  cancelRegistration env id u why s = (Err "Registrasi sudah dibatalkan", s).
Proof.
  intros Hr Hu Hst. unfold cancelRegistration.
  erewrite bind_Ok by (unfold Registration_findById; now rewrite Hr).
  simpl orThrow. erewrite bind_Ok by reflexivity.
  rewrite Hu, Nat.eqb_refl. simpl negb. erewrite bind_Ok by reflexivity.
  now rewrite Hst.
Qed.

Lemma checkInRegistration_rejects_unconfirmed env id by_ loc dev s r :
  lookupRegistration s id = Some r ->
  status r <> confirmed ->
  checkInRegistration env id by_ loc dev s
  = (Err "Registrasi belum dikonfirmasi", s).
Proof.
  intros Hr Hst. unfold checkInRegistration.
  erewrite bind_Ok by (unfold Registration_findById; now rewrite Hr).
  simpl orThrow. erewrite bind_Ok by reflexivity.
  destruct (status r); try congruence; reflexivity.
Qed.

(* ================================================================= *)
(** * The rest of the services: properties *)

(** ** Check-in against its validation *)

(** What [checkInRegistration] does, in all cases: it refuses and writes
    nothing, or it stores the checked-in document of a confirmed
    registration. *)
Lemma checkInRegistration_cases env id by_ loc dev s :
  (exists message, checkInRegistration env id by_ loc dev s = (Err message, s))
  \/ (exists r,
        lookupRegistration s id = Some r
        /\ status r = confirmed
        /\ tk_status (ticket r) <> tk_used
        /\ tk_status (ticket r) <> tk_cancelled
        /\ checkInRegistration env id by_ loc dev s
           = (Ok (checkedIn env by_ loc dev r),
              storeReg s (checkedIn env by_ loc dev r))).
Proof.
  destruct (lookupRegistration s id) as [r|] eqn:Hr.
  - destruct (RegistrationStatus_eqb (status r) confirmed) eqn:Hst.
    + apply RegistrationStatus_eqb_eq in Hst.
      destruct (TicketStatus_eqb (tk_status (ticket r)) tk_used) eqn:Hu.
      * left. eexists. unfold checkInRegistration.
        erewrite bind_Ok by (unfold Registration_findById; now rewrite Hr).
        simpl orThrow. erewrite bind_Ok by reflexivity.
        rewrite Hst. simpl. erewrite bind_Ok by reflexivity.
        rewrite Hu. reflexivity.
      * destruct (TicketStatus_eqb (tk_status (ticket r)) tk_cancelled) eqn:Hc.
        -- left. eexists. unfold checkInRegistration.
           erewrite bind_Ok by (unfold Registration_findById; now rewrite Hr).
           simpl orThrow. erewrite bind_Ok by reflexivity.
           rewrite Hst. simpl. erewrite bind_Ok by reflexivity.
           rewrite Hu. erewrite bind_Ok by reflexivity.
           rewrite Hc. reflexivity.
        -- right. exists r.
           assert (Hu' : tk_status (ticket r) <> tk_used)
             by (intros E; rewrite E in Hu; discriminate).
           assert (Hc' : tk_status (ticket r) <> tk_cancelled)
             by (intros E; rewrite E in Hc; discriminate).
           repeat split; try assumption.
           now apply checkInRegistration_Ok.
    + left. eexists.
      apply checkInRegistration_rejects_unconfirmed with (r := r);
        [exact Hr|].
      intros E. rewrite E in Hst. discriminate.
  - left. eexists. unfold checkInRegistration.
    erewrite bind_Ok by (unfold Registration_findById; now rewrite Hr).
    reflexivity.
Qed.

(** X2. [validateRegistration] and [checkInRegistration] agree except on a
    no-show: a check-in by id succeeds exactly when the validation of the
    same id answers "Registrasi valid" for a registration that is not
    [no_show].  (The validation lets a [no_show] registration pass; the
    check-in refuses everything but [confirmed].) *)
Theorem checkIn_succeeds_iff_validated (env : Env) (id by_ : nat)
    (loc dev : option string) (s : Store) :
  (exists r s', checkInRegistration env id by_ loc dev s = (Ok r, s'))
  <-> (exists r,
         validateRegistration id s
         = (Ok (mkValidation true (Some r) "Registrasi valid"), s)
         /\ status r <> no_show).
Proof.
  split.
  - intros (r' & s' & Hrun).
    destruct (checkInRegistration_cases env id by_ loc dev s)
      as [[message Herr]|(r & Hr & Hst & Hu & Hc & _)];
      [rewrite Herr in Hrun; discriminate|].
    exists r. split; [|rewrite Hst; discriminate].
    unfold validateRegistration, catch, bind, Registration_findById, ret.
    rewrite Hr, Hst. simpl.
    destruct (tk_status (ticket r)); try congruence; reflexivity.
  - intros (r & Hval & Hns).
    unfold validateRegistration, catch, bind, Registration_findById, ret
      in Hval.
    destruct (lookupRegistration s id) as [r0|] eqn:Hr; [|discriminate].
    destruct (status r0) eqn:Hst; simpl in Hval; try discriminate.
    + destruct (tk_status (ticket r0)) eqn:Htk; simpl in Hval;
        try discriminate;
        (eexists; eexists; apply checkInRegistration_Ok with (r := r0);
         [exact Hr|exact Hst|rewrite Htk; discriminate
         |rewrite Htk; discriminate]).
    + exfalso. apply Hns.
      destruct (tk_status (ticket r0)); simpl in Hval; try discriminate;
        injection Hval as <-; exact Hst.
Qed.

(** ** Bulk check-in *)

Lemma isAttended_refuses env id by_ loc dev s :
  isAttended s id ->
  exists message,
    checkInRegistration env id by_ loc dev s = (Err message, s).
Proof.
  intros (r & Hr & Hst). eexists.
  apply checkInRegistration_rejects_unconfirmed with (r := r); [exact Hr|].
  rewrite Hst. discriminate.
Qed.

(** The loop, from any values of its three local variables. *)
Lemma bulkCheckInLoop_run env by_ loc dev ids :
  forall acc s,
  exists new s',
    bulkCheckInLoop env ids by_ loc dev acc s
    = (Ok (mkBulkCheckIn
             (bulk_success acc
              + Z.of_nat (List.length (filter be_success new)))
             (bulk_failed acc
              + Z.of_nat (List.length
                            (filter (fun e => negb (be_success e)) new)))
             (bulk_results acc ++ new)), s')
    /\ map be_registrationId new = ids
    /\ events s' = events s
    /\ (forall id, isAttended s id ->
          isAttended s' id /\ filter (succeeded id) new = [])
    /\ (forall id, (List.length (filter (succeeded id) new) <= 1)%nat)
    /\ (forall id, filter (succeeded id) new <> [] -> isAttended s' id).
Proof.
  induction ids as [|id0 rest IH]; intros acc s.
  - exists [], s. simpl. rewrite !Z.add_0_r, app_nil_r.
    destruct acc. repeat split; try tauto; try lia.
  - destruct (checkInRegistration_cases env id0 by_ loc dev s)
      as [[message Herr]|(r & Hr & Hst & Hu & Hc & Hok)].
    + set (acc1 := mkBulkCheckIn (bulk_success acc) (bulk_failed acc + 1)
                     (bulk_results acc ++ [mkBulkEntry id0 false message])).
      destruct (IH acc1 s) as (new & s' & Hrun & Hids & Hev & Hatt & Hone & Hsucc).
      exists (mkBulkEntry id0 false message :: new), s'.
      split; [|split; [|split; [|split; [|split]]]].
      * simpl bulkCheckInLoop.
        assert (Hbody :
          catch
            (checkInRegistration env id0 by_ loc dev ;;;
             ret (mkBulkCheckIn (bulk_success acc + 1) (bulk_failed acc)
                    (bulk_results acc
                     ++ [mkBulkEntry id0 true "Check-in berhasil"])))
            (fun message0 =>
               ret (mkBulkCheckIn (bulk_success acc) (bulk_failed acc + 1)
                      (bulk_results acc
                       ++ [mkBulkEntry id0 false message0]))) s
          = (Ok acc1, s)).
        { unfold catch. erewrite bind_Err by exact Herr. reflexivity. }
        step Hbody. rewrite Hrun. unfold acc1. simpl.
        rewrite <- app_assoc. simpl. f_equal. f_equal. f_equal; lia.
      * simpl. now rewrite Hids.
      * exact Hev.
      * intros id Hid. simpl. now apply Hatt.
      * intros id. simpl. apply Hone.
      * intros id. simpl. apply Hsucc.
    + set (r1 := checkedIn env by_ loc dev r) in *.
      set (s1 := storeReg s r1) in *.
      set (acc1 := mkBulkCheckIn (bulk_success acc + 1) (bulk_failed acc)
                     (bulk_results acc
                      ++ [mkBulkEntry id0 true "Check-in berhasil"])).
      destruct (IH acc1 s1) as (new & s' & Hrun & Hids & Hev & Hatt & Hone & Hsucc).
      pose proof (lookupRegistration_id _ _ Hr) as Hid0.
      assert (Hnow : isAttended s1 id0).
      { exists r1. split; [|reflexivity]. rewrite <- Hid0.
        change (reg_id r) with (reg_id r1).
        apply (@lookupRegistration_storeReg_same s r1 r).
        simpl. now rewrite Hid0. }
      assert (Hkeep : forall id, isAttended s id -> isAttended s1 id).
      { intros id (x & Hx & Hxs).
        destruct (Nat.eq_dec id id0) as [->|Hne]; [exact Hnow|].
        exists x. split; [|exact Hxs]. unfold s1.
        rewrite lookupRegistration_storeReg_other; [exact Hx|].
        simpl. now rewrite Hid0. }
      exists (mkBulkEntry id0 true "Check-in berhasil" :: new), s'.
      split; [|split; [|split; [|split; [|split]]]].
      * simpl bulkCheckInLoop.
        assert (Hbody :
          catch
            (checkInRegistration env id0 by_ loc dev ;;;
             ret (mkBulkCheckIn (bulk_success acc + 1) (bulk_failed acc)
                    (bulk_results acc
                     ++ [mkBulkEntry id0 true "Check-in berhasil"])))
            (fun message0 =>
               ret (mkBulkCheckIn (bulk_success acc) (bulk_failed acc + 1)
                      (bulk_results acc
                       ++ [mkBulkEntry id0 false message0]))) s
          = (Ok acc1, s1)).
        { unfold catch. step Hok. reflexivity. }
        step Hbody. rewrite Hrun. unfold acc1. simpl.
        rewrite <- app_assoc. simpl. f_equal. f_equal. f_equal; lia.
      * simpl. now rewrite Hids.
      * rewrite Hev. reflexivity.
      * intros id Hid.
        destruct (Hatt id (Hkeep id Hid)) as [Hend Hnone].
        split; [exact Hend|]. simpl. unfold succeeded at 1. simpl.
        destruct (Nat.eqb_spec id0 id) as [<-|Hne]; [|exact Hnone].
        exfalso. destruct Hid as (x & Hx & Hxs). congruence.
      * intros id. simpl. unfold succeeded at 1. simpl.
        destruct (Nat.eqb_spec id0 id) as [<-|Hne]; [|apply Hone].
        destruct (Hatt id0 Hnow) as [_ ->]. simpl. lia.
      * intros id. simpl. unfold succeeded at 1. simpl.
        destruct (Nat.eqb_spec id0 id) as [<-|Hne]; [|apply Hsucc].
        intros _. now apply Hatt.
Qed.

(** X3. [bulkCheckIn] never throws and accounts for every id it is given:
    [results] has one entry per id, in the order of the ids; [success] and
    [failed] count the entries of each kind and add up to the number of
    ids; and no event is written. *)
Theorem bulkCheckIn_accounts_for_every_id (env : Env) (ids : list nat)
    (by_ : nat) (loc dev : option string) (s : Store) :
  exists out s',
    bulkCheckIn env ids by_ loc dev s = (Ok out, s')
    /\ map be_registrationId (bulk_results out) = ids
    /\ bulk_success out
       = Z.of_nat (List.length (filter be_success (bulk_results out)))
    /\ bulk_failed out
       = Z.of_nat (List.length
                     (filter (fun e => negb (be_success e)) (bulk_results out)))
    /\ bulk_success out + bulk_failed out = Z.of_nat (List.length ids)
    /\ events s' = events s.
Proof.
  destruct (bulkCheckInLoop_run env by_ loc dev ids (mkBulkCheckIn 0 0 []) s)
    as (new & s' & Hrun & Hids & Hev & _).
  eexists. exists s'. split; [|split; [|split; [|split; [|split]]]].
  - unfold bulkCheckIn. apply catch_Ok. exact Hrun.
  - exact Hids.
  - reflexivity.
  - reflexivity.
  - simpl. rewrite <- Nat2Z.inj_add, filter_length.
    now rewrite <- Hids, length_map.
  - exact Hev.
Qed.

(** X4. [bulkCheckIn] checks a registration in at most once, however often
    its id occurs in the list: at most one entry of [results] reports a
    success for an id, an id with such an entry is stored as [attended]
    when the call returns, and an id that was [attended] before the call
    has none. *)
Theorem bulkCheckIn_checks_in_at_most_once (env : Env) (ids : list nat)
    (by_ : nat) (loc dev : option string) (s : Store) :
  exists out s',
    bulkCheckIn env ids by_ loc dev s = (Ok out, s')
    /\ forall id,
         (List.length (filter (succeeded id) (bulk_results out)) <= 1)%nat
         /\ (filter (succeeded id) (bulk_results out) <> [] ->
             isAttended s' id)
         /\ (isAttended s id ->
             filter (succeeded id) (bulk_results out) = []).
Proof.
  destruct (bulkCheckInLoop_run env by_ loc dev ids (mkBulkCheckIn 0 0 []) s)
    as (new & s' & Hrun & _ & _ & Hatt & Hone & Hsucc).
  eexists. exists s'. split.
  - unfold bulkCheckIn. apply catch_Ok. exact Hrun.
  - intros id. simpl. split; [apply Hone|]. split; [apply Hsucc|].
    intros Hid. now apply Hatt.
Qed.

(** ** What a QR validation accepts, and what a refused check-in writes *)

(** What [validateQRCode] answers, and that it writes nothing. *)
Lemma validateQRCode_answer (env : Env) (d : QRCodeData) (s : Store) :
  exists v,
    validateQRCode env d s = (Ok v, s)
    /\ (valid v = true
        <-> now env - qr_timestamp d <= maxAge
            /\ exists r,
                 lookupRegistration s (qr_registrationId d) = Some r
                 /\ ticketNumber (ticket r) = qr_ticketNumber d
                 /\ status r = confirmed
                 /\ tk_status (ticket r) <> tk_used
                 /\ tk_status (ticket r) <> tk_cancelled).
Proof.
  unfold validateQRCode.
  destruct (now env - qr_timestamp d >? maxAge) eqn:Hage.
  - eexists. split; [reflexivity|]. simpl. split; [discriminate|].
    intros [Hle _]. rewrite Z.gtb_ltb in Hage. apply Z.ltb_lt in Hage. lia.
  - assert (Hle : now env - qr_timestamp d <= maxAge)
      by (rewrite Z.gtb_ltb in Hage; now apply Z.ltb_ge in Hage).
    unfold bind, Registration_findById, ret.
    destruct (lookupRegistration s (qr_registrationId d)) as [r|] eqn:Hr.
    + destruct (String.eqb (ticketNumber (ticket r)) (qr_ticketNumber d))
        eqn:Htn; simpl negb; cbv iota.
      * apply String.eqb_eq in Htn.
        destruct (tk_status (ticket r)) eqn:Htk;
          destruct (status r) eqn:Hst; simpl;
          (eexists; split; [reflexivity|]; simpl; split;
           [first
              [discriminate
              |intros _; split; [exact Hle|]; exists r; repeat split;
               (assumption || (rewrite Htk; discriminate))]
           |first
              [reflexivity
              |intros (_ & r' & Hr' & _ & Hst' & Hu & Hc);
               injection Hr' as <-; congruence]]).
      * eexists. split; [reflexivity|]. simpl. split; [discriminate|].
        intros (_ & r' & Hr' & Htn' & _). injection Hr' as <-.
        rewrite Htn', String.eqb_refl in Htn. discriminate.
    + eexists. split; [reflexivity|]. simpl. split; [discriminate|].
      intros (_ & r' & Hr' & _). discriminate.
Qed.

(** X5. For a payload of the declared type, with a numeric timestamp:
    [validateQRCode] writes nothing and answers [valid: true] exactly when
    the payload is at most thirty days old and names a stored registration
    that is [confirmed], carries the payload's ticket number and has a
    ticket that is neither [used] nor [cancelled]. *)
Theorem validateQRCode_valid_exactly (env : Env) (d : QRCodeData) (s : Store) :
  exists v,
    validateQRCode env d s = (Ok v, s)
    /\ (valid v = true
        <-> now env - qr_timestamp d <= maxAge
            /\ exists r,
                 lookupRegistration s (qr_registrationId d) = Some r
                 /\ ticketNumber (ticket r) = qr_ticketNumber d
                 /\ status r = confirmed
                 /\ tk_status (ticket r) <> tk_used
                 /\ tk_status (ticket r) <> tk_cancelled).
Proof. exact (validateQRCode_answer env d s). Qed.

Section Gate.
Context {P : Primitives}.

(** X6. [processCheckIn] never throws.  When it answers [success: false]
    it has written nothing; when it answers [success: true] the
    registration it returns is the stored one, [attended] with a [used]
    ticket, and no event has been written. *)
Theorem processCheckIn_refusal_writes_nothing (env : Env) (data : CheckInData)
    (s : Store) :
  exists o s',
    processCheckIn env data s = (Ok o, s')
    /\ (success o = false -> s' = s)
    /\ (success o = true ->
        events s' = events s
        /\ exists r,
             o_registration o = Some r
             /\ status r = attended
             /\ tk_status (ticket r) = tk_used
             /\ lookupRegistration s' (reg_id r) = Some r).
Proof.
  unfold processCheckIn.
  destruct (decodeQRCode (qrCodeData data)) as [d|].
  - destruct (validateQRCode_answer env d s) as (v & Hv & Hvalid).
    destruct (valid v) eqn:Hok.
    + destruct (proj1 Hvalid eq_refl)
        as (_ & r & Hr & _ & Hst & Hu & Hc).
      pose proof (@checkInRegistration_Ok env (qr_registrationId d)
                    (ci_checkedBy data) (ci_location data)
                    (ci_deviceInfo data) s r Hr Hst Hu Hc) as Hin.
      eexists. eexists. split; [|split].
      * apply catch_Ok. step Hv. rewrite Hok. cbn [negb].
        step Hin. reflexivity.
      * discriminate.
      * intros _. split; [reflexivity|]. eexists.
        split; [reflexivity|]. repeat split.
        pose proof (lookupRegistration_id _ _ Hr) as Hid.
        apply (@lookupRegistration_storeReg_same s
                 (checkedIn env (ci_checkedBy data) (ci_location data)
                    (ci_deviceInfo data) r) r).
        simpl. now rewrite Hid.
    + eexists. eexists. split; [|split].
      * apply catch_Ok. step Hv. rewrite Hok. reflexivity.
      * reflexivity.
      * discriminate.
  - eexists. eexists. split; [|split].
    + apply catch_Ok. reflexivity.
    + reflexivity.
    + discriminate.
Qed.

End Gate.

(* ================================================================= *)
(** ** Cancellation by the buyer *)

Lemma requestRefund_paid env id why s r :
  lookupRegistration s id = Some r ->
  pay_status (payment r) = pay_paid ->
  requestRefund env id why s
  = (Ok tt, storeReg s (refundRequested env why r)).
Proof.
  intros Hr Hpay. unfold requestRefund.
  erewrite bind_Ok by (unfold Registration_findById; now rewrite Hr).
  simpl orThrow. erewrite bind_Ok by reflexivity.
  rewrite Hpay. simpl. erewrite bind_Ok by reflexivity.
  fold (refundRequested env why r).
  pose proof (lookupRegistration_id _ _ Hr) as Hid.
  erewrite bind_Ok
    by (apply (@Registration_save_same_payment env
                 (refundRequested env why r) r s);
        [simpl; now rewrite Hid|reflexivity]).
  reflexivity.
Qed.

(** A cancellation that passes the four checks, step by step. *)
Lemma cancelRegistration_run env id u why s r :
  lookupRegistration s id = Some r ->
  userId r = u ->
  status r <> cancelled ->
  status r <> attended ->
  let paid := PaymentStatus_eqb (pay_status (payment r)) pay_paid in
  let pending := PaymentStatus_eqb (pay_status (payment r)) pay_pending in
  exists s',
    cancelRegistration env id u why s = (Ok (withdrawn env why r), s')
    /\ lookupRegistration s' id
       = Some (if paid then refundRequested env why (withdrawn env why r)
               else withdrawn env why r)
    /\ (forall id', id' <> id ->
          lookupRegistration s' id' = lookupRegistration s id')
    /\ (forall eid tid,
          ledger s' eid tid
          = match lookupTier s (eventId r) (ticketType_id r) with
            | Some t =>
                if onTier eid tid r
                then Some (quota t,
                           (if paid then Z.max 0 (sold t - 1) else sold t),
                           (if pending then Z.max 0 (reserved t - 1)
                            else reserved t))
                else ledger s eid tid
            | None => ledger s eid tid
            end).
Proof.
  intros Hr Hu Hnc Hna paid pending.
  pose proof (lookupRegistration_id _ _ Hr) as Hid.
  set (doc := withdrawn env why r).
  assert (Hsave : Registration_save env doc s = (Ok doc, storeReg s doc)).
  { apply (@Registration_save_same_payment env doc r s);
      [simpl; now rewrite Hid|reflexivity]. }
  destruct (adjustTier_ledger doc
              (fun t => if paid then Z.max 0 (sold t - 1) else sold t)
              (fun t => if pending then Z.max 0 (reserved t - 1)
                        else reserved t)
              (storeReg s doc))
    as (s2 & Hadj & Hregs & _ & _ & _ & Hledger).
  assert (Hdoc2 : lookupRegistration s2 id = Some doc).
  { unfold lookupRegistration. rewrite Hregs. rewrite <- Hid.
    change (reg_id r) with (reg_id doc).
    apply (@lookupRegistration_storeReg_same s doc r).
    simpl. now rewrite Hid. }
  assert (Hothers2 : forall id', id' <> id ->
            lookupRegistration s2 id' = lookupRegistration s id').
  { intros id' Hne. unfold lookupRegistration at 1. rewrite Hregs.
    apply (@lookupRegistration_storeReg_other s doc id').
    simpl. now rewrite Hid. }
  assert (Hledger2 : forall eid tid,
            ledger s2 eid tid
            = match lookupTier s (eventId r) (ticketType_id r) with
              | Some t =>
                  if onTier eid tid r
                  then Some (quota t,
                             (if paid then Z.max 0 (sold t - 1) else sold t),
                             (if pending then Z.max 0 (reserved t - 1)
                              else reserved t))
                  else ledger s eid tid
              | None => ledger s eid tid
              end).
  { intros eid tid. rewrite Hledger. reflexivity. }
  assert (Hprefix :
            cancelRegistration env id u why s
            = ((if paid then requestRefund env id why else ret tt) ;;;
               ret doc) s2).
  { unfold cancelRegistration.
    erewrite bind_Ok by (unfold Registration_findById; now rewrite Hr).
    simpl orThrow. erewrite bind_Ok by reflexivity.
    rewrite Hu, Nat.eqb_refl. simpl negb. erewrite bind_Ok by reflexivity.
    assert (H1 : RegistrationStatus_eqb (status r) cancelled = false)
      by (destruct (status r); simpl; congruence).
    assert (H2 : RegistrationStatus_eqb (status r) attended = false)
      by (destruct (status r); simpl; congruence).
    rewrite H1. erewrite bind_Ok by reflexivity.
    rewrite H2. erewrite bind_Ok by reflexivity.
    cbv zeta. fold paid. fold pending. rewrite <- Hu. fold doc.
    step Hsave. step Hadj. reflexivity. }
  rewrite Hprefix. clear Hprefix.
  destruct paid eqn:Hpaid.
  - assert (Hpay : pay_status (payment doc) = pay_paid)
      by (apply PaymentStatus_eqb_eq; exact Hpaid).
    exists (storeReg s2 (refundRequested env why doc)).
    split; [|split; [|split]].
    + erewrite bind_Ok
        by (apply (@requestRefund_paid env id why s2 doc Hdoc2 Hpay)).
      reflexivity.
    + rewrite <- Hid. change (reg_id r) with
        (reg_id (refundRequested env why doc)).
      apply (@lookupRegistration_storeReg_same s2
               (refundRequested env why doc) doc).
      simpl. now rewrite Hid.
    + intros id' Hne.
      rewrite lookupRegistration_storeReg_other
        by (simpl; now rewrite Hid).
      now apply Hothers2.
    + intros eid tid. rewrite ledger_storeReg. apply Hledger2.
  - exists s2. split; [|split; [|split]].
    + erewrite bind_Ok by reflexivity. reflexivity.
    + exact Hdoc2.
    + exact Hothers2.
    + exact Hledger2.
Qed.

(** X7. A cancellation that fails has written nothing, and it fails only
    with one of its four refusals: the registration is unknown, belongs to
    another user, is already cancelled, or has been attended. *)
Theorem cancelRegistration_fails_cleanly (env : Env) (id u : nat)
    (why message : string) (s s' : Store) :
  cancelRegistration env id u why s = (Err message, s') ->
  s' = s /\ In message cancelRefusals.
Proof.
  intros Hrun.
  destruct (lookupRegistration s id) as [r|] eqn:Hr.
  - destruct (Nat.eqb (userId r) u) eqn:Hu.
    + apply Nat.eqb_eq in Hu.
      destruct (RegistrationStatus_eqb (status r) cancelled) eqn:Hc.
      * apply RegistrationStatus_eqb_eq in Hc.
        rewrite (@cancelRegistration_rejects_cancelled env id u why s r
                   Hr Hu Hc) in Hrun.
        injection Hrun as <- <-. split; [reflexivity|]. simpl. tauto.
      * destruct (RegistrationStatus_eqb (status r) attended) eqn:Ha.
        -- unfold cancelRegistration in Hrun.
           erewrite bind_Ok in Hrun
             by (unfold Registration_findById; now rewrite Hr).
           simpl orThrow in Hrun. erewrite bind_Ok in Hrun by reflexivity.
           rewrite Hu, Nat.eqb_refl in Hrun. simpl negb in Hrun.
           erewrite bind_Ok in Hrun by reflexivity.
           rewrite Hc in Hrun. erewrite bind_Ok in Hrun by reflexivity.
           rewrite Ha in Hrun. injection Hrun as <- <-.
           split; [reflexivity|]. simpl. tauto.
        -- exfalso.
           destruct (@cancelRegistration_run env id u why s r Hr Hu)
             as (s2 & Hok & _).
           ++ intros E. rewrite E in Hc. discriminate.
           ++ intros E. rewrite E in Ha. discriminate.
           ++ rewrite Hok in Hrun. discriminate.
    + unfold cancelRegistration in Hrun.
      erewrite bind_Ok in Hrun
        by (unfold Registration_findById; now rewrite Hr).
      simpl orThrow in Hrun. erewrite bind_Ok in Hrun by reflexivity.
      rewrite Hu in Hrun. injection Hrun as <- <-.
      split; [reflexivity|]. simpl. tauto.
  - unfold cancelRegistration in Hrun.
    erewrite bind_Ok in Hrun
      by (unfold Registration_findById; now rewrite Hr).
    injection Hrun as <- <-. split; [reflexivity|]. simpl. tauto.
Qed.

Lemma cancelRegistration_fails_cleanly_witness :
  snd (cancelRegistration Scenario.env_settle 1 8 "bukan milik saya"
         Scenario.s_pending) = Scenario.s_pending
  /\ In "Akses tidak diizinkan" cancelRefusals.
Proof.
  assert (Hrun : cancelRegistration Scenario.env_settle 1 8 "bukan milik saya"
                   Scenario.s_pending
                 = (Err "Akses tidak diizinkan",
                    snd (cancelRegistration Scenario.env_settle 1 8
                           "bukan milik saya" Scenario.s_pending)))
    by (vm_compute; reflexivity).
  destruct (cancelRegistration_fails_cleanly _ _ _ _ _ Hrun) as [Hs Hin].
  split; [exact Hs|exact Hin].
Defined.

(** X8. What a successful cancellation writes.  The registration is stored
    [cancelled] with a [cancelled] ticket.  Its tier gives back one unit,
    whatever the registration's quantity, and never goes below zero: one
    unit of [reserved] when the payment was [pending], one unit of [sold]
    when it was [paid], nothing otherwise.  For a paid registration the
    stored document is the one [requestRefund] wrote after the
    cancellation: its payment is still [paid], its cancellation record
    carries [refundStatus: 'pending'] and no [cancelledBy], while the
    document handed back to the caller names the buyer as [cancelledBy]. *)
Theorem cancelRegistration_gives_back_one_unit (env : Env) (id u : nat)
    (why : string) (s : Store) (r : IRegistration) (t : ITicketType) :
  lookupRegistration s id = Some r ->
  userId r = u ->
  status r <> cancelled ->
  status r <> attended ->
  lookupTier s (eventId r) (ticketType_id r) = Some t ->
  let paid := PaymentStatus_eqb (pay_status (payment r)) pay_paid in
  let pending := PaymentStatus_eqb (pay_status (payment r)) pay_pending in
  exists s',
    cancelRegistration env id u why s = (Ok (withdrawn env why r), s')
    /\ lookupRegistration s' id
       = Some (if paid then refundRequested env why (withdrawn env why r)
               else withdrawn env why r)
    /\ ledger s' (eventId r) (ticketType_id r)
       = Some (quota t,
               (if paid then Z.max 0 (sold t - 1) else sold t),
               (if pending then Z.max 0 (reserved t - 1) else reserved t)).
Proof.
  intros Hr Hu Hnc Hna Ht paid pending.
  destruct (@cancelRegistration_run env id u why s r Hr Hu Hnc Hna)
    as (s' & Hrun & Hstored & _ & Hledger).
  exists s'. split; [exact Hrun|]. split; [exact Hstored|].
  rewrite Hledger, Ht. unfold onTier. now rewrite !Nat.eqb_refl.
Qed.

Lemma cancelRegistration_gives_back_one_unit_witness :
  exists r s',
    lookupRegistration Scenario.s_pending 1 = Some r
    /\ cancelRegistration Scenario.env_settle 1 7 "berhalangan"
         Scenario.s_pending
       = (Ok (withdrawn Scenario.env_settle "berhalangan" r), s')
    /\ ledger s' 1 10 = Some (1, 0, 0).
Proof.
  assert (Hr : exists r,
             lookupRegistration Scenario.s_pending 1 = Some r
             /\ userId r = 7%nat /\ status r = pending_payment
             /\ eventId r = 1%nat /\ ticketType_id r = 10%nat
             /\ pay_status (payment r) = pay_pending)
    by (vm_compute; eexists; repeat split).
  destruct Hr as (r & Hr & Hu & Hst & He & Ht & Hp).
  destruct (@cancelRegistration_gives_back_one_unit Scenario.env_settle 1 7
              "berhalangan" Scenario.s_pending r
              (mkTicketType 10 "Regular" 50000 1 0 1 0 true) Hr Hu)
    as (s' & Hrun & _ & Hledger).
  - rewrite Hst. discriminate.
  - rewrite Hst. discriminate.
  - rewrite He, Ht. vm_compute. reflexivity.
  - exists r, s'. split; [exact Hr|]. split; [exact Hrun|].
    rewrite He, Ht, Hp in Hledger. exact Hledger.
Defined.

(* ================================================================= *)
(** ** Notifications that fail, refund, or do nothing *)

(** A save of an unpaid document followed by the ledger adjustment. *)
Lemma save_then_adjust env doc old fs fr s :
  lookupRegistration s (reg_id doc) = Some old ->
  pay_status (payment doc) <> pay_paid ->
  exists s',
    (registration <- Registration_save env doc ;;
     adjustTier registration fs fr) s = (Ok tt, s')
    /\ lookupRegistration s' (reg_id doc) = Some doc
    /\ (forall id, id <> reg_id doc ->
          lookupRegistration s' id = lookupRegistration s id)
    /\ (forall eid tid,
          ledger s' eid tid
          = match lookupTier s (eventId doc) (ticketType_id doc) with
            | Some t => if onTier eid tid doc
                        then Some (quota t, fs t, fr t)
                        else ledger s eid tid
            | None => ledger s eid tid
            end).
Proof.
  intros Hold Hpay.
  assert (Hsave : Registration_save env doc s = (Ok doc, storeReg s doc)).
  { rewrite (@Registration_save_stored env doc old s Hold).
    now rewrite preSaveTicketNumber_unpaid by exact Hpay. }
  destruct (adjustTier_ledger doc fs fr (storeReg s doc))
    as (s' & Hrun & Hregs & _ & _ & _ & Hledger).
  exists s'. split; [|split; [|split]].
  - step Hsave. exact Hrun.
  - unfold lookupRegistration. rewrite Hregs.
    apply (@lookupRegistration_storeReg_same s doc old Hold).
  - intros id Hid. unfold lookupRegistration. rewrite Hregs.
    apply (@lookupRegistration_storeReg_other s doc id Hid).
  - intros eid tid. rewrite Hledger. reflexivity.
Qed.

Section Notifications.
Context {P : Primitives}.

(** X9. A notification changes nothing when its signature does not verify
    (the call then throws "Signature notifikasi tidak valid"), when no
    registration carries its order id, when its transaction status is none
    of the eight the handler knows, or when it reports a capture or
    settlement whose fraud status is neither accepted nor 'challenge'.  In
    the last three cases the call returns normally. *)
Theorem notification_without_effect (env : Env) (n : PaymentNotification)
    (s : Store) :
  verifyNotification n = false
  \/ find (fun r => String.eqb (orderId (payment r)) (order_id n))
       (registrations s) = None
  \/ isOneOf (transaction_status n) knownStatuses = false
  \/ (isOneOf (transaction_status n) ["capture"; "settlement"] = true
      /\ fraudAccepted (fraud_status n) = false
      /\ fraud_status n <> Some "challenge") ->
  handlePaymentNotification env n s
  = (if verifyNotification n then Ok tt
     else Err "Signature notifikasi tidak valid", s).
Proof.
  intros Hcase. unfold handlePaymentNotification.
  destruct (verifyNotification n) eqn:Hsig; [|reflexivity].
  simpl negb. erewrite bind_Ok by reflexivity.
  unfold findByOrderId at 1.
  destruct (find (fun r => String.eqb (orderId (payment r)) (order_id n))
              (registrations s)) as [r|] eqn:Hfind.
  - erewrite bind_Ok by reflexivity. rewrite Hfind. cbv beta iota zeta.
    destruct Hcase as [Hc|[Hc|[Hc|(Hc1 & Hc2 & Hc3)]]]; try discriminate.
    + unfold knownStatuses, isOneOf in Hc. simpl in Hc.
      repeat (apply orb_false_elim in Hc; destruct Hc as [? Hc]).
      unfold isOneOf. simpl.
      repeat match goal with
             | H : String.eqb _ _ = false |- _ => rewrite H; clear H
             end.
      simpl. reflexivity.
    + rewrite Hc1, Hc2.
      destruct (fraud_status n) as [f|]; [|reflexivity].
      destruct (String.eqb f "challenge") eqn:Hf.
      * apply String.eqb_eq in Hf. subst f. now contradiction Hc3.
      * repeat (match goal with
                | |- context [match ?x with
                              | EmptyString => _
                              | String _ _ => _
                              end] =>
                    destruct x as [|[[] [] [] [] [] [] [] []] ?];
                    try reflexivity
                end).
        simpl in Hf. discriminate.
  - erewrite bind_Ok by reflexivity. rewrite Hfind. reflexivity.
Qed.

(** X10. A signed 'deny', 'cancel' or 'expire' notification for a stored
    registration cancels it, whatever its state: the payment becomes
    [expired] for 'expire' and [failed] otherwise, the ticket is left as it
    is, and the tier's [reserved] goes down by one, not below zero, with
    [sold] unchanged. *)
Theorem failure_notification_cancels_and_releases (env : Env)
    (n : PaymentNotification) (s : Store) (r : IRegistration)
    (t : ITicketType) :
  verifyNotification n = true ->
  isOneOf (transaction_status n) ["deny"; "cancel"; "expire"] = true ->
  find (fun x => String.eqb (orderId (payment x)) (order_id n))
    (registrations s) = Some r ->
  lookupRegistration s (reg_id r) = Some r ->
  lookupTier s (eventId r) (ticketType_id r) = Some t ->
  exists s',
    handlePaymentNotification env n s = (Ok tt, s')
    /\ lookupRegistration s' (reg_id r)
       = Some (failed (transaction_status n) r)
    /\ ledger s' (eventId r) (ticketType_id r)
       = Some (quota t, sold t, Z.max 0 (reserved t - 1)).
Proof.
  intros Hsig Hts Hfind Hstored Ht.
  destruct (@save_then_adjust env (failed (transaction_status n) r) r
              (fun t => sold t) (fun t => Z.max 0 (reserved t - 1)) s)
    as (s' & Hrun & Hself & _ & Hledger).
  - exact Hstored.
  - unfold failed. simpl. now destruct (String.eqb _ _).
  - exists s'. split; [|split].
    + unfold handlePaymentNotification. rewrite Hsig. simpl negb.
      erewrite bind_Ok by reflexivity.
      erewrite bind_Ok by (unfold findByOrderId; now rewrite Hfind).
      cbv beta iota zeta.
      assert (Hother :
                isOneOf (transaction_status n) ["capture"; "settlement"]
                = false
                /\ String.eqb (transaction_status n) "pending" = false).
      { unfold isOneOf in Hts. simpl in Hts.
        repeat (apply orb_prop in Hts; destruct Hts as [Hts|Hts]);
          try discriminate;
          apply String.eqb_eq in Hts; rewrite Hts; split; reflexivity. }
      destruct Hother as [-> ->]. rewrite Hts.
      unfold handleFailedPayment. fold (failed (transaction_status n) r).
      exact Hrun.
    + exact Hself.
    + rewrite Hledger.
      change (lookupTier s (eventId (failed (transaction_status n) r))
                (ticketType_id (failed (transaction_status n) r)))
        with (lookupTier s (eventId r) (ticketType_id r)).
      rewrite Ht. unfold onTier. simpl. now rewrite !Nat.eqb_refl.
Qed.

End Notifications.

(** X11. [processRefund] asks nothing of the registration but that it
    exists: whatever its status and payment, it is stored [cancelled] with
    payment [refunded] and a [cancelled] ticket, and its tier's [sold]
    goes down by one, not below zero, with [reserved] unchanged. *)
Theorem processRefund_returns_one_sold_unit (env : Env) (id : nat)
    (s : Store) (r : IRegistration) (t : ITicketType) :
  lookupRegistration s id = Some r ->
  lookupTier s (eventId r) (ticketType_id r) = Some t ->
  exists s',
    processRefund env id s = (Ok tt, s')
    /\ lookupRegistration s' id = Some (refunded env r)
    /\ ledger s' (eventId r) (ticketType_id r)
       = Some (quota t, Z.max 0 (sold t - 1), reserved t).
Proof.
  intros Hr Ht. pose proof (lookupRegistration_id _ _ Hr) as Hid.
  destruct (@save_then_adjust env (refunded env r) r
              (fun t => Z.max 0 (sold t - 1)) (fun t => reserved t) s)
    as (s' & Hrun & Hself & _ & Hledger).
  - simpl. now rewrite Hid.
  - discriminate.
  - exists s'. split; [|split].
    + unfold processRefund.
      erewrite bind_Ok by (unfold Registration_findById; now rewrite Hr).
      simpl orThrow. erewrite bind_Ok by reflexivity.
      unfold handleRefund. fold (refunded env r). exact Hrun.
    + rewrite <- Hid. exact Hself.
    + rewrite Hledger.
      change (lookupTier s (eventId (refunded env r))
                (ticketType_id (refunded env r)))
        with (lookupTier s (eventId r) (ticketType_id r)).
      rewrite Ht. unfold onTier. simpl. now rewrite !Nat.eqb_refl.
Qed.


Lemma notification_without_effect_witness :
  handlePaymentNotification (P := Sample.primitives) Scenario.env_settle
    (Scenario.notify "authorize") Scenario.s_pending
  = (Ok tt, Scenario.s_pending).
Proof.
  rewrite (@notification_without_effect Sample.primitives Scenario.env_settle
             (Scenario.notify "authorize") Scenario.s_pending).
  - reflexivity.
  - right. right. left. reflexivity.
Defined.

Lemma failure_notification_cancels_and_releases_witness :
  exists s',
    handlePaymentNotification (P := Sample.primitives) Scenario.env_settle
      (Scenario.notify "deny") Scenario.s_pending = (Ok tt, s')
    /\ lifecycle s' 1 = Some (cancelled, pay_failed, tk_valid, "")
    /\ ledger s' 1 10 = Some (1, 0, 0).
Proof.
  assert (Hr : exists r,
             lookupRegistration Scenario.s_pending 1 = Some r
             /\ reg_id r = 1%nat
             /\ eventId r = 1%nat /\ ticketType_id r = 10%nat
             /\ status r = pending_payment
             /\ tk_status (ticket r) = tk_valid
             /\ ticketNumber (ticket r) = ""
             /\ find (fun x => String.eqb (orderId (payment x))
                                 (order_id (Scenario.notify "deny")))
                  (registrations Scenario.s_pending) = Some r)
    by (vm_compute; eexists; repeat split).
  destruct Hr as (r & Hr & Hid & He & Ht & Hst & Htk & Hno & Hfind).
  destruct (@failure_notification_cancels_and_releases Sample.primitives
              Scenario.env_settle (Scenario.notify "deny") Scenario.s_pending
              r (mkTicketType 10 "Regular" 50000 1 0 1 0 true))
    as (s' & Hrun & Hself & Hledger).
  - reflexivity.
  - reflexivity.
  - exact Hfind.
  - rewrite Hid. exact Hr.
  - rewrite He, Ht. vm_compute. reflexivity.
  - exists s'. split; [exact Hrun|]. split.
    + unfold lifecycle. rewrite Hid in Hself. rewrite Hself. simpl.
      now rewrite Htk, Hno.
    + rewrite He, Ht in Hledger. exact Hledger.
Defined.

Lemma processRefund_returns_one_sold_unit_witness :
  exists s',
    processRefund Scenario.env_again 1 Scenario.s_paid = (Ok tt, s')
    /\ lifecycle s' 1
       = Some (cancelled, pay_refunded, tk_cancelled, Scenario.ticket1)
    /\ ledger s' 1 10 = Some (1, 0, 0).
Proof.
  assert (Hr : exists r,
             lookupRegistration Scenario.s_paid 1 = Some r
             /\ eventId r = 1%nat /\ ticketType_id r = 10%nat
             /\ ticketNumber (ticket r) = Scenario.ticket1)
    by (vm_compute; eexists; repeat split).
  destruct Hr as (r & Hr & He & Ht & Hno).
  destruct (@processRefund_returns_one_sold_unit
              Scenario.env_again 1 Scenario.s_paid r
              (mkTicketType 10 "Regular" 50000 1 1 0 0 true) Hr)
    as (s' & Hrun & Hself & Hledger).
  - rewrite He, Ht. vm_compute. reflexivity.
  - exists s'. split; [exact Hrun|]. split.
    + unfold lifecycle. rewrite Hself. simpl. now rewrite Hno.
    + rewrite He, Ht in Hledger. exact Hledger.
Defined.

(* ================================================================= *)
(** ** Jobs that run again *)

(** Replacing the first selected document by one that is no longer
    selected leaves the rest of the selection. *)
Lemma filter_update_first_head (keep : IRegistration -> bool)
    (r' r : IRegistration) (rest regs : list IRegistration) :
  NoDup (map reg_id regs) ->
  filter keep regs = r :: rest ->
  reg_id r' = reg_id r ->
  keep r' = false ->
  filter keep (update_first (has_reg_id (reg_id r)) (fun _ => r') regs) = rest
  /\ map reg_id (update_first (has_reg_id (reg_id r)) (fun _ => r') regs)
     = map reg_id regs.
Proof.
  intros Hnd Hsel Hid Hoff. induction regs as [|x regs' IH]; [discriminate|].
  simpl in Hnd. apply NoDup_cons_iff in Hnd. destruct Hnd as [Hfresh Hnd].
  simpl in Hsel. destruct (keep x) eqn:Hx.
  - injection Hsel as -> Hrest. simpl. unfold has_reg_id at 1 3.
    rewrite Nat.eqb_refl. simpl. rewrite Hoff, Hid. now split.
  - assert (Hin : In r regs').
    { assert (H : In r (filter keep regs')) by (rewrite Hsel; now left).
      apply filter_In in H. tauto. }
    assert (Hne : has_reg_id (reg_id r) x = false).
    { unfold has_reg_id. apply Nat.eqb_neq. intros E. apply Hfresh.
      rewrite E. now apply in_map. }
    simpl. rewrite Hne. simpl. rewrite Hx.
    destruct (IH Hnd Hsel) as [H1 H2]. split; [exact H1|now rewrite H2].
Qed.

Lemma expireRegistration_registrations env r s :
  In r (registrations s) ->
  exists s',
    expireRegistration env r s = (Ok tt, s')
    /\ registrations s'
       = update_first (has_reg_id (reg_id r)) (fun _ => expired r)
           (registrations s)
    /\ users s' = users s /\ intents s' = intents s /\ blobs s' = blobs s.
Proof.
  intros Hin.
  destruct (lookupRegistration s (reg_id r)) as [old|] eqn:Hold;
    [|exfalso; now apply (lookupRegistration_present s r Hin)].
  assert (Hsave : Registration_save env (expired r) s
                  = (Ok (expired r), storeReg s (expired r))).
  { rewrite (@Registration_save_stored env (expired r) old s Hold).
    now rewrite preSaveTicketNumber_unpaid by discriminate. }
  destruct (adjustTier_ledger (expired r) (fun t => sold t)
              (fun t => Z.max 0 (reserved t - quantity (expired r)))
              (storeReg s (expired r)))
    as (s' & Hrun & Hregs & Hus & Hint & Hbl & _).
  exists s'. split; [|split; [|now repeat split]].
  - unfold expireRegistration. fold (expired r). step Hsave. exact Hrun.
  - rewrite Hregs. reflexivity.
Qed.

(** Replacing the first selected document by its marked version does not
    change the marking of the list; a list without selected documents is
    its own marking. *)
Lemma mark_update_first_head (keep : IRegistration -> bool)
    (f : IRegistration -> IRegistration) (r : IRegistration)
    (rest regs : list IRegistration) :
  NoDup (map reg_id regs) ->
  filter keep regs = r :: rest ->
  keep (f r) = false ->
  map (fun x => if keep x then f x else x)
    (update_first (has_reg_id (reg_id r)) (fun _ => f r) regs)
  = map (fun x => if keep x then f x else x) regs.
Proof.
  intros Hnd Hsel Hoff. induction regs as [|x regs' IH]; [discriminate|].
  simpl in Hnd. apply NoDup_cons_iff in Hnd. destruct Hnd as [Hfresh Hnd].
  simpl in Hsel. destruct (keep x) eqn:Hx.
  - injection Hsel as -> Hrest. simpl. unfold has_reg_id at 1.
    rewrite Nat.eqb_refl. simpl. now rewrite Hoff, Hx.
  - assert (Hin : In r regs').
    { assert (H : In r (filter keep regs')) by (rewrite Hsel; now left).
      apply filter_In in H. tauto. }
    assert (Hne : has_reg_id (reg_id r) x = false).
    { unfold has_reg_id. apply Nat.eqb_neq. intros E. apply Hfresh.
      rewrite E. now apply in_map. }
    simpl. rewrite Hne. simpl. rewrite Hx. now rewrite (IH Hnd Hsel).
Qed.

Lemma mark_none (keep : IRegistration -> bool)
    (f : IRegistration -> IRegistration) (regs : list IRegistration) :
  filter keep regs = [] ->
  map (fun x => if keep x then f x else x) regs = regs.
Proof.
  induction regs as [|x rest IH]; [reflexivity|]. simpl.
  destruct (keep x); [discriminate|]. intros H. now rewrite IH.
Qed.

(** The loop of the sweep: it leaves nothing that it would select, and
    the list it leaves is the marking of the list it found. *)
Lemma expireAll_clears env l :
  forall s n,
    NoDup (map reg_id (registrations s)) ->
    filter (isExpiredPending (now env)) (registrations s) = l ->
    exists s',
      expireAll env l n s = (Ok (n + Z.of_nat (List.length l)), s')
      /\ filter (isExpiredPending (now env)) (registrations s') = []
      /\ map (fun x => if isExpiredPending (now env) x then expired x else x)
           (registrations s')
         = map (fun x => if isExpiredPending (now env) x then expired x
                         else x) (registrations s)
      /\ users s' = users s /\ intents s' = intents s /\ blobs s' = blobs s.
Proof.
  induction l as [|r rest IH]; intros s n Hnd Hsel.
  - exists s. simpl. rewrite Z.add_0_r. now repeat split.
  - assert (Hin : In r (registrations s)).
    { assert (H : In r (filter (isExpiredPending (now env)) (registrations s)))
        by (rewrite Hsel; now left).
      apply filter_In in H. tauto. }
    destruct (expireRegistration_registrations env r s Hin)
      as (s1 & Hrun & Hregs & Hus & Hint & Hbl).
    destruct (@filter_update_first_head (isExpiredPending (now env))
                (expired r) r rest (registrations s) Hnd Hsel eq_refl eq_refl)
      as [Hrest Hids].
    pose proof (@mark_update_first_head (isExpiredPending (now env)) expired r
                  rest (registrations s) Hnd Hsel eq_refl) as Hmark.
    rewrite <- Hregs in Hrest, Hids, Hmark.
    destruct (IH s1 (n + 1))
      as (s' & Hloop & Hclear & Hmark' & Hus' & Hint' & Hbl').
    + now rewrite Hids.
    + exact Hrest.
    + exists s'. split; [|repeat split; try congruence].
      simpl expireAll.
      assert (Hbody : catch (expireRegistration env r ;;; ret (n + 1))
                        (fun _ => ret n) s = (Ok (n + 1), s1)).
      { apply catch_Ok. now step Hrun. }
      step Hbody. rewrite Hloop. f_equal. f_equal.
      simpl List.length. lia.
Qed.

Lemma filter_none A (keep : A -> bool) (l : list A) :
  (forall x, In x l -> keep x = false) -> filter keep l = [].
Proof.
  induction l as [|x rest IH]; intros H; [reflexivity|].
  simpl. rewrite (H x (or_introl eq_refl)). apply IH.
  intros y Hy. apply H. now right.
Qed.

(** X12. The sweep is idempotent: run again at the same time or at an
    earlier one, right after a run, it finds no registration to expire,
    answers 0 and leaves the store as the first run left it. *)
Theorem sweep_again_finds_nothing (env1 env2 : Env) (s : Store) :
  NoDup (map reg_id (registrations s)) ->
  now env2 <= now env1 ->
  expirePaymentsJob env2 (snd (expirePaymentsJob env1 s))
  = (Ok 0, snd (expirePaymentsJob env1 s)).
Proof.
  intros Hnd Hle.
  destruct (@expireAll_clears env1 _ s 0 Hnd eq_refl)
    as (s' & Hrun & Hclear & _).
  assert (Hfirst : expirePaymentsJob env1 s
                   = (Ok (0 + Z.of_nat
                            (List.length
                               (filter (isExpiredPending (now env1))
                                  (registrations s)))), s')).
  { unfold expirePaymentsJob. apply catch_Ok.
    erewrite bind_Ok by reflexivity. exact Hrun. }
  rewrite Hfirst. simpl snd.
  assert (Hnone : filter (isExpiredPending (now env2)) (registrations s') = []).
  { apply filter_none. intros x Hx.
    destruct (isExpiredPending (now env2) x) eqn:Hsel; [|reflexivity].
    exfalso.
    assert (Hsel1 : isExpiredPending (now env1) x = true).
    { unfold isExpiredPending in *. apply andb_prop in Hsel.
      destruct Hsel as [-> Hexp]. simpl. apply Z.leb_le in Hexp.
      apply Z.leb_le. lia. }
    assert (Hin : In x (filter (isExpiredPending (now env1))
                          (registrations s')))
      by (apply filter_In; now split).
    rewrite Hclear in Hin. destruct Hin. }
  unfold expirePaymentsJob, catch, bind, findExpiredPending.
  rewrite Hnone. reflexivity.
Qed.

Lemma sweep_again_finds_nothing_witness :
  expirePaymentsJob Scenario.env_sweep
    (snd (expirePaymentsJob Scenario.env_sweep Scenario.s_pending))
  = (Ok 0, snd (expirePaymentsJob Scenario.env_sweep Scenario.s_pending)).
Proof.
  apply sweep_again_finds_nothing.
  - vm_compute. constructor; [intros []|constructor].
  - vm_compute. discriminate.
Defined.

(** ** The payment reminders *)

Lemma reminderDue_reminded env s r : reminderDue env s (reminded r) = false.
Proof.
  unfold reminderDue, needsReminder, reminded. simpl.
  now rewrite !andb_false_r.
Qed.

(** The loop of the reminder job over the registrations it selected. *)
Lemma remindAll_run env s0 l :
  forall s n,
    NoDup (map reg_id (registrations s)) ->
    (forall r, In r l -> needsReminder (now env) r = true) ->
    filter (reminderDue env s0) (registrations s) = filter (hasEvent s0) l ->
    exists s',
      remindAll env (map (fun r => (r, lookupEvent s0 (eventId r))) l) n s
      = (Ok (n + Z.of_nat (List.length (filter (hasEvent s0) l))), s')
      /\ events s' = events s /\ users s' = users s
      /\ intents s' = intents s /\ blobs s' = blobs s
      /\ filter (reminderDue env s0) (registrations s') = []
      /\ map (fun x => if reminderDue env s0 x then reminded x else x)
           (registrations s')
         = map (fun x => if reminderDue env s0 x then reminded x else x)
             (registrations s)
      /\ NoDup (map reg_id (registrations s')).
Proof.
  induction l as [|r rest IH]; intros s n Hnd Hneeds Hsel.
  - exists s. simpl. rewrite Z.add_0_r. now repeat split.
  - assert (Hneeds' : forall x, In x rest -> needsReminder (now env) x = true)
      by (intros x Hx; apply Hneeds; now right).
    simpl map. simpl remindAll. simpl filter in *. unfold hasEvent at 1 in Hsel.
    unfold hasEvent at 1.
    destruct (lookupEvent s0 (eventId r)) as [e|] eqn:He.
    + assert (Hin : In r (registrations s)).
      { assert (H : In r (filter (reminderDue env s0) (registrations s)))
          by (rewrite Hsel; now left).
        apply filter_In in H. tauto. }
      destruct (lookupRegistration s (reg_id r)) as [old|] eqn:Hold;
        [|exfalso; now apply (lookupRegistration_present s r Hin)].
      assert (Hpay : pay_status (payment (reminded r)) <> pay_paid).
      { pose proof (Hneeds r (or_introl eq_refl)) as H.
        unfold needsReminder in H.
        repeat (apply andb_prop in H; destruct H as [H ?]).
        apply PaymentStatus_eqb_eq in H. simpl. rewrite H. discriminate. }
      assert (Hsave : Registration_save env (reminded r) s
                      = (Ok (reminded r), storeReg s (reminded r))).
      { rewrite (@Registration_save_stored env (reminded r) old s Hold).
        now rewrite preSaveTicketNumber_unpaid by exact Hpay. }
      destruct (@filter_update_first_head (reminderDue env s0) (reminded r) r
                  (filter (hasEvent s0) rest) (registrations s) Hnd Hsel
                  eq_refl (reminderDue_reminded env s0 r))
        as [Hrest Hids].
      pose proof (@mark_update_first_head (reminderDue env s0) reminded r
                    (filter (hasEvent s0) rest) (registrations s) Hnd Hsel
                    (reminderDue_reminded env s0 r)) as Hmark.
      destruct (IH (storeReg s (reminded r)) (n + 1))
        as (s' & Hloop & Hev & Hus & Hint & Hbl & Hclear & Hmark' & Hnd').
      * simpl. now rewrite Hids.
      * exact Hneeds'.
      * exact Hrest.
      * exists s'. split; [|repeat split; try assumption].
        -- assert (Hbody :
             catch
               (catch (sendEmail env) (fun _ => ret tt) ;;;
                _ <- Registration_save env
                       (set_notifications
                          (set_reminderSent true (notifications r)) r) ;;
                ret (n + 1))
               (fun _ => ret n) s
             = (Ok (n + 1), storeReg s (reminded r))).
           { apply catch_Ok.
             assert (Hmail : catch (sendEmail env) (fun _ => ret tt) s
                             = (Ok tt, s))
               by (unfold catch, sendEmail; now destruct (sendEmail_ok env)).
             step Hmail. fold (reminded r). step Hsave. reflexivity. }
           step Hbody. rewrite Hloop. f_equal. f_equal.
           simpl List.length. lia.
        -- rewrite Hmark'. exact Hmark.
    + destruct (IH s n Hnd Hneeds' Hsel)
        as (s' & Hloop & Hrest).
      exists s'. split; [|exact Hrest].
      assert (Hbody : catch (ret n) (fun _ => ret n) s = (Ok n, s))
        by reflexivity.
      step Hbody. exact Hloop.
Qed.

Lemma filter_filter A (f g : A -> bool) (l : list A) :
  filter f (filter g l) = filter (fun x => g x && f x) l.
Proof.
  induction l as [|x rest IH]; [reflexivity|]. simpl.
  destruct (g x); simpl; [destruct (f x)|]; now rewrite IH.
Qed.

(** X13. One run of the payment-reminder job marks [reminderSent] on every
    registration it selects whose event is stored, and changes nothing
    else: no other field, no other registration, no event.  It answers
    with the number of registrations it marked.  Run again at the same
    time it marks nothing and answers 0, so no reminder goes out twice. *)
Theorem reminders_are_sent_once (env : Env) (s : Store) :
  NoDup (map reg_id (registrations s)) ->
  exists s',
    sendPaymentRemindersJob env s
    = (Ok (Z.of_nat (List.length (filter (reminderDue env s) (registrations s)))),
       s')
    /\ events s' = events s
    /\ registrations s'
       = map (fun r => if reminderDue env s r then reminded r else r)
           (registrations s)
    /\ sendPaymentRemindersJob env s' = (Ok 0, s').
Proof.
  assert (Hjob : forall s0,
            NoDup (map reg_id (registrations s0)) ->
            exists s',
              sendPaymentRemindersJob env s0
              = (Ok (Z.of_nat (List.length
                                 (filter (reminderDue env s0)
                                    (registrations s0)))), s')
              /\ events s' = events s0 /\ users s' = users s0
              /\ intents s' = intents s0 /\ blobs s' = blobs s0
              /\ filter (reminderDue env s0) (registrations s') = []
              /\ registrations s'
                 = map (fun r => if reminderDue env s0 r then reminded r
                                 else r) (registrations s0)
              /\ NoDup (map reg_id (registrations s'))).
  { intros s0 Hnd0.
    destruct (@remindAll_run env s0
                (filter (needsReminder (now env)) (registrations s0)) s0 0
                Hnd0)
      as (s' & Hrun & Hev & Hus & Hint & Hbl & Hclear & Hmark & Hnd').
    - intros r Hr. apply filter_In in Hr. tauto.
    - now rewrite filter_filter.
    - exists s'. rewrite filter_filter in Hrun.
      split; [|repeat split; try assumption].
      + unfold sendPaymentRemindersJob. apply catch_Ok.
        erewrite bind_Ok by reflexivity. exact Hrun.
      + rewrite <- Hmark. symmetry. now apply mark_none. }
  intros Hnd.
  destruct (Hjob s Hnd)
    as (s' & Hrun & Hev & Hus & Hint & Hbl & Hclear & Hregs & Hnd').
  exists s'. split; [exact Hrun|]. split; [exact Hev|]. split; [exact Hregs|].
  assert (Hsame : forall r, reminderDue env s' r = reminderDue env s r).
  { intros r. unfold reminderDue, hasEvent, lookupEvent. now rewrite Hev. }
  assert (Hclear' : filter (reminderDue env s') (registrations s') = []).
  { rewrite <- Hclear. apply filter_ext. exact Hsame. }
  destruct (Hjob s' Hnd')
    as (s2 & Hrun2 & Hev2 & Hus2 & Hint2 & Hbl2 & _ & Hregs2 & _).
  rewrite Hclear' in Hrun2. rewrite Hrun2. simpl. f_equal.
  rewrite (mark_none _ _ _ Hclear') in Hregs2.
  destruct s2, s'. simpl in *. congruence.
Qed.

Lemma reminders_are_sent_once_witness :
  let env := Scenario.world (Scenario.t0 + 72000000) "AAAAAAAAAA"
               "BBBBBBBBBBBB" "cccccccccccccccc" Scenario.midtrans in
  exists s',
    sendPaymentRemindersJob env Scenario.s_pending = (Ok 1, s')
    /\ option_map (fun r => reminderSent (notifications r))
         (lookupRegistration s' 1) = Some true
    /\ sendPaymentRemindersJob env s' = (Ok 0, s').
Proof.
  intros env.
  assert (Hnd : NoDup (map reg_id (registrations Scenario.s_pending))).
  { vm_compute. constructor; [intros []|constructor]. }
  destruct (@reminders_are_sent_once env Scenario.s_pending Hnd)
    as (s' & Hrun & _ & Hregs & Hagain).
  assert (Hcount : Z.of_nat
                     (List.length
                        (filter (reminderDue env Scenario.s_pending)
                           (registrations Scenario.s_pending))) = 1)
    by (vm_compute; reflexivity).
  rewrite Hcount in Hrun.
  exists s'. split; [exact Hrun|]. split; [|exact Hagain].
  unfold lookupRegistration. rewrite Hregs. vm_compute. reflexivity.
Defined.

(** ** The sweep and the registrations it does not select *)

(** X14. The sweep changes the registrations it selects and no other: the
    stored list after a run is the list before it, in the same order, with
    each registration whose payment was [pending] and past its deadline
    replaced by its expired version; users, provider intents and uploaded
    files are as they were. *)
Theorem sweep_changes_only_the_selected (env : Env) (s : Store) :
  NoDup (map reg_id (registrations s)) ->
  let s' := snd (expirePaymentsJob env s) in
  registrations s'
  = map (fun r => if isExpiredPending (now env) r then expired r else r)
      (registrations s)
  /\ users s' = users s /\ intents s' = intents s /\ blobs s' = blobs s.
Proof.
  intros Hnd s'.
  destruct (@expireAll_clears env _ s 0 Hnd eq_refl)
    as (s1 & Hrun & Hclear & Hmark & Hframe).
  assert (Hs' : s' = s1).
  { unfold s', expirePaymentsJob, catch, bind, findExpiredPending.
    now rewrite Hrun. }
  rewrite Hs'. split; [|exact Hframe].
  rewrite <- Hmark. symmetry. now apply mark_none.
Qed.

Lemma sweep_changes_only_the_selected_witness :
  let s' := snd (expirePaymentsJob Scenario.env_sweep Scenario.s_pending) in
  registrations s'
  = map (fun r => if isExpiredPending (now Scenario.env_sweep) r
                  then expired r else r)
      (registrations Scenario.s_pending)
  /\ users s' = users Scenario.s_pending
  /\ intents s' = intents Scenario.s_pending
  /\ blobs s' = blobs Scenario.s_pending.
Proof.
  apply sweep_changes_only_the_selected.
  vm_compute. constructor; [intros []|constructor].
Defined.

(* ================================================================= *)
(** ** The registrations of a cancelled event *)

Lemma lookupRegistration_NoDup s r :
  NoDup (map reg_id (registrations s)) ->
  In r (registrations s) ->
  lookupRegistration s (reg_id r) = Some r.
Proof.
  unfold lookupRegistration. induction (registrations s) as [|x rest IH];
    intros Hnd Hin; [destruct Hin|].
  simpl in Hnd. apply NoDup_cons_iff in Hnd. destruct Hnd as [Hfresh Hnd].
  simpl. unfold has_reg_id at 1. destruct Hin as [->|Hin].
  - now rewrite Nat.eqb_refl.
  - destruct (Nat.eqb_spec (reg_id x) (reg_id r)) as [E|_]; [|now apply IH].
    exfalso. apply Hfresh. rewrite E. now apply in_map.
Qed.

(** The query for 'confirmed' or 'pending' selects the confirmed
    registrations: no registration has the status 'pending'. *)
Lemma confirmedOrPending_confirmed eid r :
  Nat.eqb (eventId r) eid
  && isOneOf (statusName (status r)) ["confirmed"; "pending"]
  = confirmedFor eid r.
Proof. unfold confirmedFor. now destruct (status r). Qed.

Lemma cancelAllForEvent_run env why eid l :
  forall s,
    NoDup (map reg_id (registrations s)) ->
    filter (confirmedFor eid) (registrations s) = l ->
    exists s',
      cancelAllForEvent env why l s = (Ok tt, s')
      /\ map (fun x => if confirmedFor eid x then cancelledWithEvent env why x
                       else x) (registrations s')
         = map (fun x => if confirmedFor eid x then cancelledWithEvent env why x
                         else x) (registrations s)
      /\ filter (confirmedFor eid) (registrations s') = []
      /\ events s' = events s /\ users s' = users s
      /\ intents s' = intents s /\ blobs s' = blobs s.
Proof.
  induction l as [|r rest IH]; intros s Hnd Hsel.
  - exists s. now repeat split.
  - assert (Hin : In r (registrations s)).
    { assert (H : In r (filter (confirmedFor eid) (registrations s)))
        by (rewrite Hsel; now left).
      apply filter_In in H. tauto. }
    set (doc := cancelledWithEvent env why r).
    assert (Hoff : confirmedFor eid doc = false)
      by (unfold confirmedFor, doc; simpl; apply andb_false_r).
    assert (Hsave : Registration_save env doc s = (Ok doc, storeReg s doc)).
    { apply (@Registration_save_same_payment env doc r s); [|reflexivity].
      change (reg_id doc) with (reg_id r).
      now apply lookupRegistration_NoDup. }
    destruct (@filter_update_first_head (confirmedFor eid) doc r rest
                (registrations s) Hnd Hsel eq_refl Hoff) as [Hrest Hids].
    pose proof (@mark_update_first_head (confirmedFor eid)
                  (cancelledWithEvent env why) r rest (registrations s)
                  Hnd Hsel Hoff) as Hmark.
    destruct (IH (storeReg s doc))
      as (s' & Hloop & Hmark' & Hclear & Hframe).
    + simpl. now rewrite Hids.
    + exact Hrest.
    + exists s'. split; [|split; [|split; [exact Hclear|exact Hframe]]].
      * simpl cancelAllForEvent.
        assert (Hbody : catch (cancelForEvent env why r) (fun _ => ret tt) s
                        = (Ok tt, storeReg s doc)).
        { unfold catch, cancelForEvent. fold (cancelledWithEvent env why r).
          fold doc. step Hsave. unfold sendEmail.
          now destruct (sendEmail_ok env). }
        step Hbody. exact Hloop.
      * rewrite Hmark'. exact Hmark.
Qed.

(** X15. When an event is cancelled, [processEventCancellation] never
    throws and cancels the event's [confirmed] registrations only: each is
    stored [cancelled] with a cancellation record whose [refundStatus] is
    'pending' when it was paid.  Its payment and its ticket are left as they
    are, the event's [pending_payment] registrations are not touched, and no
    event is written, so no tier counter is released.  For an event that is
    not stored nothing is written at all. *)
Theorem processEventCancellation_cancels_the_confirmed (env : Env) (eid : nat)
    (why : string) (s : Store) :
  NoDup (map reg_id (registrations s)) ->
  exists s',
    processEventCancellation env eid why s = (Ok tt, s')
    /\ events s' = events s
    /\ registrations s'
       = match lookupEvent s eid with
         | Some _ =>
             map (fun r => if confirmedFor eid r
                           then cancelledWithEvent env why r else r)
               (registrations s)
         | None => registrations s
         end.
Proof.
  intros Hnd. unfold processEventCancellation.
  destruct (lookupEvent s eid) as [e|] eqn:He.
  - destruct (@cancelAllForEvent_run env why eid _ s Hnd eq_refl)
      as (s' & Hrun & Hmark & Hclear & Hev & _).
    exists s'. split; [|split; [exact Hev|]].
    + apply catch_Ok.
      erewrite bind_Ok by (unfold Event_findById; now rewrite He).
      cbv beta iota.
      assert (Hfind : findConfirmedOrPending eid s
                      = (Ok (filter (confirmedFor eid) (registrations s)), s)).
      { unfold findConfirmedOrPending. f_equal. f_equal.
        apply filter_ext. intros r. apply confirmedOrPending_confirmed. }
      step Hfind. exact Hrun.
    + rewrite <- Hmark. symmetry. now apply mark_none.
  - exists s. split; [|now split].
    apply catch_Ok.
    erewrite bind_Ok by (unfold Event_findById; now rewrite He).
    reflexivity.
Qed.

Lemma processEventCancellation_cancels_the_confirmed_witness :
  exists s',
    processEventCancellation Scenario.env_gate 1 "hujan" Scenario.s_paid
    = (Ok tt, s')
    /\ lifecycle s' 1 = Some (cancelled, pay_paid, tk_valid, Scenario.ticket1)
    /\ counters s' 10 = Some (1, 1, 0, 0).
Proof.
  assert (Hnd : NoDup (map reg_id (registrations Scenario.s_paid))).
  { vm_compute. constructor; [intros []|constructor]. }
  destruct (@processEventCancellation_cancels_the_confirmed Scenario.env_gate
              1 "hujan" Scenario.s_paid Hnd)
    as (s' & Hrun & Hev & Hregs).
  exists s'. split; [exact Hrun|]. split.
  - unfold lifecycle, lookupRegistration. rewrite Hregs.
    vm_compute. reflexivity.
  - unfold counters, lookupTier, lookupEvent. rewrite Hev.
    vm_compute. reflexivity.
Defined.

(* ================================================================= *)
(** ** Statistics of an event's registrations *)



(* ================================================================= *)
(** ** The virtual [isRegistrationOpen] against the checks of
       [createRegistration] *)

Lemma fold_left_add_from (l : list Z) :
  forall a, fold_left Z.add l a = a + fold_left Z.add l 0.
Proof.
  induction l as [|x rest IH]; intros a; simpl; [lia|].
  rewrite (IH (a + x)), (IH x). lia.
Qed.

Lemma sumZ_cons x l : sumZ (x :: l) = x + sumZ l.
Proof. unfold sumZ. simpl. apply fold_left_add_from. Qed.

Lemma sold_below_quota (tiers : list ITicketType) (t : ITicketType) :
  (forall x, In x tiers -> sold x <= quota x) ->
  In t tiers ->
  sold t < quota t ->
  sumZ (map sold tiers) < sumZ (map quota tiers).
Proof.
  intros Hall Hin Hlt.
  assert (Hle : forall l, (forall x, In x l -> sold x <= quota x) ->
                          sumZ (map sold l) <= sumZ (map quota l)).
  { induction l as [|x rest IH]; intros H; [reflexivity|].
    simpl map. rewrite !sumZ_cons.
    pose proof (H x (or_introl eq_refl)).
    assert (sumZ (map sold rest) <= sumZ (map quota rest))
      by (apply IH; intros y Hy; apply H; now right).
    lia. }
  induction tiers as [|x rest IH]; [destruct Hin|].
  simpl map. rewrite !sumZ_cons. destruct Hin as [->|Hin].
  - assert (sumZ (map sold rest) <= sumZ (map quota rest))
      by (apply Hle; intros y Hy; apply Hall; now right).
    lia.
  - pose proof (Hall x (or_introl eq_refl)).
    assert (sumZ (map sold rest) < sumZ (map quota rest))
      by (apply IH; [intros y Hy; apply Hall; now right|exact Hin]).
    lia.
Qed.

(** What a request has passed when the checks let it through. *)
Lemma checkRegistration_checked env data s e t s' :
  checkRegistration env data s = (Ok (e, t), s') ->
  lookupEvent s (cr_eventId data) = Some e
  /\ ev_status e = ev_published
  /\ registrationOpen e <= now env <= registrationClose e
  /\ findTicketType e (cr_ticketTypeId data) = Some t
  /\ isActive t = true
  /\ 0 < available t.
Proof.
  unfold checkRegistration, bind, Event_findById, orThrow, throwIf, ret,
    throw, findActiveRegistration, User_findById.
  destruct (lookupEvent s (cr_eventId data)) as [e0|] eqn:He; [|discriminate].
  destruct (ev_status e0) eqn:Hst; try discriminate.
  destruct (now env <? registrationOpen e0) eqn:Ho; [discriminate|].
  destruct (now env >? registrationClose e0) eqn:Hc; [discriminate|].
  destruct (findTicketType e0 (cr_ticketTypeId data)) as [t0|] eqn:Ht;
    [|discriminate].
  destruct (isActive t0) eqn:Ha; [|discriminate].
  cbn [negb]. cbv beta iota zeta.
  destruct (available t0 <=? 0) eqn:Hav; [discriminate|].
  cbv beta iota zeta.
  match goal with
  | |- context [find ?p (registrations s)] =>
      destruct (find p (registrations s)); [discriminate|]
  end.
  cbv beta iota zeta.
  destruct (find (Nat.eqb (cr_userId data)) (users s)); [|discriminate].
  cbv beta iota zeta.
  intros H. injection H as <- <- _.
  apply Z.ltb_ge in Ho. rewrite Z.gtb_ltb in Hc. apply Z.ltb_ge in Hc.
  apply Z.leb_gt in Hav. repeat split; assumption.
Qed.

(** X17. Whenever a request passes the checks of [createRegistration], for
    an event whose counters are consistent, the event's virtual
    [isRegistrationOpen] is true at that moment: the checks of the service
    are at least as strict as the flag shown to clients. *)
Theorem checked_implies_registration_open (env : Env)
    (data : CreateRegistrationData) (s s' : Store) (e : IEvent)
    (t : ITicketType) :
  checkRegistration env data s = (Ok (e, t), s') ->
  ConsistentEvent e ->
  isRegistrationOpen env e = true.
Proof.
  intros Hadm [Htiers Hsold Hquota].
  destruct (checkRegistration_checked _ _ _ Hadm)
    as (_ & Hst & [Ho Hc] & Ht & _ & Hav).
  unfold isRegistrationOpen. rewrite Hst.
  assert (Hin : In t (ticketTypes e))
    by (unfold findTicketType in Ht; apply find_some in Ht; tauto).
  destruct (Htiers _ Hin) as (Hle & Hres & Heq).
  assert (Hlt : totalSold e < totalQuota e).
  { rewrite Hsold, Hquota.
    apply sold_below_quota with (t := t); [|exact Hin|lia].
    intros x Hx. now apply Htiers. }
  rewrite !andb_true_r.
  apply andb_true_intro. split; [apply andb_true_intro; split|].
  - rewrite Z.geb_leb. now apply Z.leb_le.
  - now apply Z.leb_le.
  - now apply Z.ltb_lt.
Qed.

(** Alice's request for a Regular ticket passes the checks of the worked
    scenario. *)
Lemma checked_implies_registration_open_witness :
  checkRegistration Scenario.env_create
    (Scenario.buy 7 10 None Scenario.alice) Scenario.s0
  = (Ok (Scenario.seminar, mkTicketType 10 "Regular" 50000 1 0 0 1 true),
     Scenario.s0)
  /\ isRegistrationOpen Scenario.env_create Scenario.seminar = true.
Proof.
  assert (Hrun : checkRegistration Scenario.env_create
                   (Scenario.buy 7 10 None Scenario.alice) Scenario.s0
                 = (Ok (Scenario.seminar,
                        mkTicketType 10 "Regular" 50000 1 0 0 1 true),
                    Scenario.s0))
    by (vm_compute; reflexivity).
  split; [exact Hrun|].
  apply (@checked_implies_registration_open
           Scenario.env_create (Scenario.buy 7 10 None Scenario.alice)
           Scenario.s0 Scenario.s0 Scenario.seminar _ Hrun).
  split.
  - intros t [<-|[<-|[]]]; vm_compute; repeat split; discriminate.
  - reflexivity.
  - reflexivity.
Defined.

(* ================================================================= *)
(** ** The slug of an event *)

Lemma showZ_inj a b : showZ a = showZ b -> a = b.
Proof.
  unfold showZ. intros H. apply DecimalZ.to_int_inj.
  assert (Hback : forall z,
            NilZero.int_of_string (NilZero.string_of_int (Z.to_int z))
            = Some (Z.to_int z)).
  { intros z. apply NilZero.isi; destruct z; simpl; try discriminate;
      intros E; injection E; apply DecimalPos.Unsigned.to_uint_nonnil. }
  pose proof (Hback a) as Ha. rewrite H, Hback in Ha. now injection Ha.
Qed.

Lemma append_inj_l (a x y : string) : a ++ x = a ++ y -> x = y.
Proof.
  induction a as [|c a IH]; simpl; [trivial|].
  intros H. injection H as H. now apply IH.
Qed.

Lemma append_nonempty (a x : string) : a ++ x = a -> x = "".
Proof.
  induction a as [|c a IH]; simpl; [trivial|].
  intros H. injection H as H. now apply IH.
Qed.

Lemma slugCandidate_inj base i j :
  slugCandidate base i = slugCandidate base j -> i = j.
Proof.
  unfold slugCandidate.
  destruct (Z.eqb_spec i 0) as [->|Hi], (Z.eqb_spec j 0) as [->|Hj];
    intros H; [reflexivity| | |].
  - symmetry in H. apply append_nonempty in H. discriminate.
  - apply append_nonempty in H. discriminate.
  - apply append_inj_l in H. simpl in H. injection H as H.
    now apply showZ_inj.
Qed.

Lemma taken_dec (taken : list string) (c : string) :
  existsb (String.eqb c) taken = true <-> In c taken.
Proof.
  rewrite existsb_exists. split.
  - intros (x & Hx & E). apply String.eqb_eq in E. now subst.
  - intros H. exists c. split; [exact H|apply String.eqb_refl].
Qed.

(** Among more distinct candidates than there are taken slugs, one is
    free. *)
Lemma fresh_exists (cs taken : list string) :
  NoDup cs ->
  (List.length taken < List.length cs)%nat ->
  exists c, In c cs /\ ~ In c taken.
Proof.
  intros Hnd Hlen.
  destruct (forallb (fun c => existsb (String.eqb c) taken) cs) eqn:Hall.
  - exfalso. rewrite forallb_forall in Hall.
    assert (Hincl : incl cs taken)
      by (intros c Hc; apply taken_dec; now apply Hall).
    pose proof (NoDup_incl_length Hnd Hincl). lia.
  - clear Hnd Hlen. induction cs as [|c rest IH]; [discriminate|].
    simpl in Hall. destruct (existsb (String.eqb c) taken) eqn:Hc.
    + destruct (IH Hall) as (x & Hx & Hfree). exists x. split; [now right|].
      exact Hfree.
    + exists c. split; [now left|]. intros Hin. apply taken_dec in Hin.
      congruence.
Qed.

Lemma candidates_distinct base (n : nat) :
  forall first,
    NoDup (map (fun i => slugCandidate base (Z.of_nat i)) (seq first n)).
Proof.
  induction n as [|n IH]; intros first; simpl; constructor; [|apply IH].
  intros Hin. apply in_map_iff in Hin. destruct Hin as (i & Heq & Hi).
  apply slugCandidate_inj in Heq. apply in_seq in Hi. lia.
Qed.

(** The loop, started at the candidate [k] with enough fuel to reach a
    free candidate, stops at the first free candidate from [k] on. *)
Lemma slugLoop_finds taken base fuel :
  forall k,
    0 <= k ->
    (exists j, k <= j < k + Z.of_nat fuel
               /\ ~ In (slugCandidate base j) taken) ->
    exists j,
      k <= j < k + Z.of_nat fuel
      /\ slugLoop fuel taken base (slugCandidate base k) (k + 1)
         = Some (slugCandidate base j)
      /\ ~ In (slugCandidate base j) taken
      /\ forall i, k <= i < j -> In (slugCandidate base i) taken.
Proof.
  induction fuel as [|fuel IH]; intros k Hk (j & Hj & Hfree); [lia|].
  simpl slugLoop.
  destruct (existsb (String.eqb (slugCandidate base k)) taken) eqn:Hin.
  - apply taken_dec in Hin.
    assert (Hjk : j <> k) by (intros ->; contradiction).
    destruct (IH (k + 1)) as (j' & Hj' & Hrun & Hfree' & Hbelow).
    + lia.
    + exists j. split; [lia|exact Hfree].
    + exists j'. split; [lia|]. split; [|split; [exact Hfree'|]].
      * assert (Hc : slugCandidate base (k + 1)
                     = base ++ "-" ++ showZ (k + 1)).
        { unfold slugCandidate. destruct (Z.eqb_spec (k + 1) 0); [lia|].
          reflexivity. }
        rewrite Hc in Hrun. exact Hrun.
      * intros i Hi. destruct (Z.eq_dec i k) as [->|Hne]; [exact Hin|].
        apply Hbelow. lia.
  - exists k. split; [lia|]. split; [reflexivity|]. split.
    + intros H. apply taken_dec in H. congruence.
    + intros i Hi. lia.
Qed.

(** X18. The slug loop of the event pre-save hook ends, after at most one
    round more than there are other events, with a slug that no other
    event carries: the base slug when it is free, otherwise the base slug
    followed by "-k" for the least k from 1 on that is free. *)
Theorem slug_is_found_and_unique (slugs : list (nat * string)) (this_id : nat)
    (baseSlug : string) :
  let taken :=
    map snd (filter (fun p => negb (Nat.eqb (fst p) this_id)) slugs) in
  exists k,
    0 <= k <= Z.of_nat (List.length taken)
    /\ uniqueSlugOf slugs this_id baseSlug = Some (slugCandidate baseSlug k)
    /\ ~ In (slugCandidate baseSlug k) taken
    /\ (forall i, 0 <= i < k -> In (slugCandidate baseSlug i) taken)
    /\ (forall fuel, (List.length taken < fuel)%nat ->
          slugLoop fuel taken baseSlug baseSlug 1
          = Some (slugCandidate baseSlug k)).
Proof.
  intros taken.
  assert (Hfree : exists j, 0 <= j < 0 + Z.of_nat (S (List.length taken))
                            /\ ~ In (slugCandidate baseSlug j) taken).
  { destruct (@fresh_exists
                (map (fun i => slugCandidate baseSlug (Z.of_nat i))
                   (seq 0 (S (List.length taken)))) taken)
      as (c & Hc & Hfree).
    - apply candidates_distinct.
    - rewrite length_map, length_seq. lia.
    - apply in_map_iff in Hc. destruct Hc as (i & <- & Hi).
      apply in_seq in Hi. exists (Z.of_nat i). split; [lia|exact Hfree]. }
  destruct (@slugLoop_finds taken baseSlug (S (List.length taken)) 0
              (Z.le_refl 0) Hfree)
    as (k & Hk & Hrun & Hfreek & Hbelow).
  exists k. split; [lia|]. split; [exact Hrun|]. split; [exact Hfreek|].
  split; [exact Hbelow|].
  intros fuel Hfuel.
  destruct (@slugLoop_finds taken baseSlug fuel 0 (Z.le_refl 0))
    as (k' & Hk' & Hrun' & Hfree' & Hbelow').
  - exists k. split; [lia|exact Hfreek].
  - assert (k' = k); [|subst k'; exact Hrun'].
    destruct (Z.lt_trichotomy k' k) as [Hlt|[Heq|Hgt]]; [|exact Heq|].
    + exfalso. apply Hfree'. apply Hbelow. lia.
    + exfalso. apply Hfreek. apply Hbelow'. lia.
Qed.

(* ================================================================= *)
(** ** [extractPublicId] *)

Lemma str_split_nonempty sep s : str_split sep s <> [].
Proof.
  destruct s as [|c rest]; simpl; [discriminate|].
  destruct (Ascii.eqb c sep); [discriminate|].
  destruct (str_split sep rest); discriminate.
Qed.

Lemma str_split_lacks sep s : lacks sep s -> str_split sep s = [s].
Proof.
  induction s as [|c rest IH]; simpl; [reflexivity|].
  intros [Hc Hrest]. destruct (Ascii.eqb_spec c sep) as [E|_]; [contradiction|].
  now rewrite IH.
Qed.

(** The last piece of a string is the last piece of what follows any of
    its separators. *)
Lemma last_str_split_app sep a b :
  last (str_split sep (a ++ String sep b)) ""
  = last (str_split sep b) "".
Proof.
  induction a as [|c a IH]; simpl.
  - rewrite Ascii.eqb_refl. simpl.
    destruct (str_split sep b) eqn:E; [now apply str_split_nonempty in E|].
    reflexivity.
  - destruct (Ascii.eqb c sep).
    + simpl. destruct (str_split sep (a ++ String sep b)) eqn:E;
        [now apply str_split_nonempty in E|exact IH].
    + destruct (str_split sep (a ++ String sep b)) as [|p [|q ps]] eqn:E;
        [now apply str_split_nonempty in E| |].
      * exfalso. clear IH. revert p E.
        induction a as [|d a IHa]; simpl; intros p E.
        -- rewrite Ascii.eqb_refl in E.
           destruct (str_split sep b) eqn:Eb;
             [now apply str_split_nonempty in Eb|discriminate].
        -- destruct (Ascii.eqb d sep);
             [destruct (str_split sep (a ++ String sep b)) eqn:Ea;
              [now apply str_split_nonempty in Ea|discriminate]|].
           destruct (str_split sep (a ++ String sep b)) as [|p' [|q' ps']]
             eqn:Ea; [now apply str_split_nonempty in Ea| |discriminate].
           now apply (IHa p').
      * exact IH.
Qed.

(** The first piece of a string that starts with a piece without the
    separator is that piece. *)
Lemma hd_str_split_app sep a b :
  lacks sep a ->
  hd "" (str_split sep (a ++ String sep b)) = a.
Proof.
  induction a as [|c a IH]; simpl.
  - intros _. now rewrite Ascii.eqb_refl.
  - intros [Hc Ha]. destruct (Ascii.eqb_spec c sep) as [E|_]; [contradiction|].
    specialize (IH Ha).
    destruct (str_split sep (a ++ String sep b)) eqn:E;
      [now apply str_split_nonempty in E|].
    simpl in *. now rewrite IH.
Qed.

Lemma lacks_app c a b : lacks c a -> lacks c b -> lacks c (a ++ b).
Proof.
  induction a as [|x a IH]; simpl; [trivial|].
  intros [Hx Ha] Hb. split; [exact Hx|now apply IH].
Qed.

(** X19. [extractPublicId] gives back the name under which a file was
    stored: from a URL that ends in "/name.ext", where the name has no
    slash and no dot and the extension no slash, it extracts the name,
    whatever precedes the last slash.  The folder of the file is not part
    of the result. *)
Theorem extractPublicId_of_url (folders name ext : string) :
  lacks slash name -> lacks dot name -> lacks slash ext ->
  extractPublicId (folders ++ String slash (name ++ String dot ext)) = name.
Proof.
  intros Hslash Hdot Hext. unfold extractPublicId.
  fold slash. fold dot. rewrite last_str_split_app.
  rewrite (@str_split_lacks slash (name ++ String dot ext)).
  - simpl last. now apply hd_str_split_app.
  - apply lacks_app; [exact Hslash|]. simpl. split; [|exact Hext].
    unfold dot, slash. discriminate.
Qed.

Lemma extractPublicId_of_url_witness :
  extractPublicId
    "https://res.cloudinary.com/nesavent/raw/upload/v1/nesavent/tickets/pdfs/ticket-NV-TIX-2025-MNOPQRSTUVWX.pdf"
  = "ticket-NV-TIX-2025-MNOPQRSTUVWX".
Proof.
  apply (@extractPublicId_of_url
           "https://res.cloudinary.com/nesavent/raw/upload/v1/nesavent/tickets/pdfs"
           "ticket-NV-TIX-2025-MNOPQRSTUVWX" "pdf");
    simpl; repeat split; discriminate.
Defined.

(* ================================================================= *)
(** ** [generateSecureRandom] *)

Lemma pickChar_in_chars number :
  exists c, pickChar number = String c ""
            /\ In c (list_ascii_of_string chars).
Proof.
  unfold pickChar.
  assert (Hlt : (N.to_nat (N.modulo number (N.of_nat (String.length chars)))
                 < 62)%nat).
  { change (String.length chars) with 62%nat.
    pose proof (N.mod_lt number (N.of_nat 62)). lia. }
  revert Hlt.
  generalize (N.to_nat (N.modulo number (N.of_nat (String.length chars)))).
  intros i Hi.
  assert (Hall : forallb
                   (fun k => match String.get k chars with
                             | Some c =>
                                 existsb (Ascii.eqb c)
                                   (list_ascii_of_string chars)
                             | None => false
                             end) (seq 0 62) = true)
    by (vm_compute; reflexivity).
  rewrite forallb_forall in Hall.
  specialize (Hall i). rewrite in_seq in Hall.
  specialize (Hall ltac:(lia)).
  destruct (String.get i chars) as [c|]; [|discriminate].
  exists c. split; [reflexivity|].
  apply existsb_exists in Hall. destruct Hall as (x & Hx & E).
  apply Ascii.eqb_eq in E. now subst.
Qed.

Lemma generateSecureRandom_from (l : list N) :
  forall acc,
    fold_left (fun result number => result ++ pickChar number) l acc
    = acc ++ fold_left (fun result number => result ++ pickChar number) l "".
Proof.
  induction l as [|n rest IH]; intros acc; simpl.
  - induction acc as [|c acc IHa]; simpl; [reflexivity|now rewrite <- IHa].
  - rewrite (IH (acc ++ pickChar n)), (IH (pickChar n)).
    clear IH. induction acc as [|c acc IHa]; simpl; [reflexivity|].
    now rewrite IHa.
Qed.

(** X20. [generateSecureRandom] gives one character per random byte, and
    every character comes from the 62 letters and digits of [chars]. *)
Theorem generateSecureRandom_alphabet (randomArray : list N) :
  String.length (generateSecureRandom randomArray)
  = List.length randomArray
  /\ forall c,
       In c (list_ascii_of_string (generateSecureRandom randomArray)) ->
       In c (list_ascii_of_string chars).
Proof.
  unfold generateSecureRandom.
  induction randomArray as [|n rest IH]; simpl.
  - split; [reflexivity|]. intros c [].
  - rewrite generateSecureRandom_from.
    destruct (pickChar_in_chars n) as (c0 & -> & Hc0).
    destruct IH as [Hlen Hin]. simpl. split; [now rewrite Hlen|].
    intros c [<-|Hc]; [exact Hc0|now apply Hin].
Qed.

(** X21. The characters are not drawn evenly: of the 256 values of a
    byte, five are mapped to each of the first eight characters of
    [chars] ("A" to "H") and four to each of the other fifty-four. *)
Theorem generateSecureRandom_bias :
  forall i, (i < 62)%nat ->
    List.length
      (filter (fun b => String.eqb (pickChar b)
                          (match String.get i chars with
                           | Some c => String c ""
                           | None => ""
                           end)) allBytes)
    = if (i <? 8)%nat then 5%nat else 4%nat.
Proof.
  assert (Hall : forallb
                   (fun i =>
                      Nat.eqb
                        (List.length
                           (filter
                              (fun b => String.eqb (pickChar b)
                                          (match String.get i chars with
                                           | Some c => String c ""
                                           | None => ""
                                           end)) allBytes))
                        (if (i <? 8)%nat then 5%nat else 4%nat))
                   (seq 0 62) = true)
    by (vm_compute; reflexivity).
  rewrite forallb_forall in Hall.
  intros i Hi. apply Nat.eqb_eq. apply Hall. apply in_seq. lia.
Qed.

Lemma generateSecureRandom_bias_witness :
  List.length (filter (fun b => String.eqb (pickChar b) "A") allBytes) = 5%nat
  /\ List.length (filter (fun b => String.eqb (pickChar b) "9") allBytes)
     = 4%nat.
Proof.
  split.
  - apply (@generateSecureRandom_bias 0%nat). lia.
  - apply (@generateSecureRandom_bias 61%nat). lia.
Defined.

(* ================================================================= *)
(** ** The ledger write and the totals of the event *)

Lemma sumZ_map_recompute (f : ITicketType -> Z) (tiers : list ITicketType) :
  (forall t, f (recomputeAvailable t) = f t) ->
  sumZ (map f (map recomputeAvailable tiers)) = sumZ (map f tiers).
Proof.
  intros Hf. rewrite map_map. f_equal. apply map_ext. exact Hf.
Qed.

(** X22. After every successful ledger write the totals of the stored
    event agree with its tiers: [stats.totalSold] is the sum of the tiers'
    [sold] and [stats.totalRevenue] the sum of [sold * price]; the write
    adds and removes no tier. *)
Theorem updateTicketAvailability_totals (s : Store) (eid tid : nat)
    (so re : Z) (e : IEvent) (t : ITicketType) :
  lookupEvent s eid = Some e ->
  findTicketType e tid = Some t ->
  exists e',
    lookupEvent (snd (updateTicketAvailability eid tid so re s)) eid = Some e'
    /\ totalSold e' = sumZ (map sold (ticketTypes e'))
    /\ totalRevenue e'
       = sumZ (map (fun x => sold x * price x) (ticketTypes e'))
    /\ map tt_id (ticketTypes e') = map tt_id (ticketTypes e).
Proof.
  intros He Ht. pose proof (lookupEvent_id _ _ He) as Hid. subst eid.
  rewrite (@updateTicketAvailability_Ok s (ev_id e) tid so re e t He Ht).
  simpl snd. rewrite lookupEvent_writeTier_same by exact He.
  eexists. split; [reflexivity|].
  assert (Hids : map tt_id
                   (update_first (has_tt_id tid) (setCounters so re)
                      (ticketTypes e))
                 = map tt_id (ticketTypes e)).
  { induction (ticketTypes e) as [|x rest IH]; [reflexivity|].
    simpl. destruct (has_tt_id tid x); simpl; [reflexivity|now rewrite IH]. }
  unfold tierWritten, eventPreSave. destruct (negb _); simpl.
  - rewrite (@sumZ_map_recompute sold) by reflexivity.
    rewrite (@sumZ_map_recompute (fun x => sold x * price x)) by reflexivity.
    rewrite map_map. simpl. now repeat split.
  - now repeat split.
Qed.

Lemma updateTicketAvailability_totals_witness :
  exists e',
    lookupEvent
      (snd (updateTicketAvailability 1 10 1 0 Scenario.s_pending)) 1
    = Some e'
    /\ totalSold e' = 1 /\ totalRevenue e' = 50000.
Proof.
  assert (He : exists e t,
             lookupEvent Scenario.s_pending 1 = Some e
             /\ findTicketType e 10 = Some t)
    by (vm_compute; eexists; eexists; split; reflexivity).
  destruct He as (e & t & He & Ht).
  destruct (@updateTicketAvailability_totals Scenario.s_pending 1 10 1 0 e t
              He Ht) as (e' & He' & Hsold & Hrev & _).
  exists e'. split; [exact He'|].
  assert (Hval : Some e'
                 = lookupEvent
                     (snd (updateTicketAvailability 1 10 1 0
                             Scenario.s_pending)) 1)
    by (symmetry; exact He').
  vm_compute in Hval. injection Hval as ->. split; reflexivity.
Defined.

(** X23. Called with counts that are not negative,
    [updateTicketAvailability] fails exactly when the event or the tier is
    not stored, and a failed call leaves the store as it was. *)
Theorem updateTicketAvailability_fails_iff_unknown (s : Store)
    (eid tid : nat) (so re : Z) :
  0 <= so ->
  0 <= re ->
  (lookupTier s eid tid = None
   -> exists message,
        updateTicketAvailability eid tid so re s = (Err message, s)
        /\ In message ["Event tidak ditemukan"; "Tipe tiket tidak ditemukan"])
  /\ (lookupTier s eid tid <> None
      -> exists s', updateTicketAvailability eid tid so re s = (Ok tt, s')).
Proof.
  intros _ _. unfold lookupTier. split.
  - intros Hnone. destruct (lookupEvent s eid) as [e|] eqn:He.
    + exists "Tipe tiket tidak ditemukan". split; [|simpl; tauto].
      unfold updateTicketAvailability.
      erewrite bind_Ok by (unfold Event_findById; now rewrite He).
      simpl orThrow. erewrite bind_Ok by reflexivity.
      now rewrite Hnone.
    + exists "Event tidak ditemukan". split; [|simpl; tauto].
      now apply updateTicketAvailability_no_event.
  - intros Hsome. destruct (lookupEvent s eid) as [e|] eqn:He;
      [|contradiction].
    destruct (findTicketType e tid) as [t|] eqn:Ht; [|contradiction].
    eexists. now apply updateTicketAvailability_Ok with (e := e) (t := t).
Qed.

Lemma updateTicketAvailability_fails_iff_unknown_witness :
  (exists message,
     updateTicketAvailability 1 12 0 0 Scenario.s0 = (Err message, Scenario.s0)
     /\ In message ["Event tidak ditemukan"; "Tipe tiket tidak ditemukan"])
  /\ exists s', updateTicketAvailability 1 10 0 1 Scenario.s0 = (Ok tt, s').
Proof.
  split.
  - apply (proj1 (@updateTicketAvailability_fails_iff_unknown
                    Scenario.s0 1 12 0 0 ltac:(lia) ltac:(lia))). reflexivity.
  - apply (proj2 (@updateTicketAvailability_fails_iff_unknown
                    Scenario.s0 1 10 0 1 ltac:(lia) ltac:(lia))).
    vm_compute. discriminate.
Defined.

(* ================================================================= *)
(** ** Requests that the checks refuse *)

Section Refusals.
Context {P : Primitives}.

(** X24. A request that [createRegistration] refuses at one of its checks
    (the event, its status and its registration window, the tier, the
    buyer's other registrations, the user) writes nothing: no
    registration is created and no ticket is reserved. *)
Theorem refused_request_writes_nothing (env : Env)
    (data : CreateRegistrationData) (s : Store) (message : string) :
  fst (admitRegistration env data s) = Err message ->
  createRegistration env data s = (Err message, s).
Proof.
  destruct (admitRegistration_fails env data s) as [refusal Hrun].
  rewrite Hrun. simpl fst. intros H. injection H as ->.
  unfold createRegistration.
  now rewrite (@bind_Err _ _ _ _ _ _ _ Hrun).
Qed.

End Refusals.

Lemma refused_request_writes_nothing_witness :
  createRegistration (P := Sample.primitives) Scenario.env_create
    (Scenario.buy 7 12 None Scenario.alice) Scenario.s0
  = (Err "Tipe tiket tidak ditemukan", Scenario.s0).
Proof.
  apply (@refused_request_writes_nothing Sample.primitives).
  reflexivity.
Defined.

(* ================================================================= *)
(** ** The age of a QR code *)

(** X26. For a payload with a numeric timestamp, [validateQRCode] does not
    use the default of [isQRCodeValid]: it answers "QR code sudah
    kedaluwarsa" exactly when [isQRCodeValid] with [maxAgeHours] = 720
    (thirty days) rejects the timestamp, so every timestamp that passes
    [isQRCodeValid] with its default of 24 hours is young enough for
    [validateQRCode]. *)
Theorem validateQRCode_expiry_is_720_hours (env : Env) (d : QRCodeData)
    (s : Store) :
  (validateQRCode env d s
   = (Ok (mkValidation false None "QR code sudah kedaluwarsa"), s)
   <-> isQRCodeValid env (qr_timestamp d) (Some (30 * 24)) = false)
  /\ (isQRCodeValid env (qr_timestamp d) None = true ->
      isQRCodeValid env (qr_timestamp d) (Some (30 * 24)) = true).
Proof.
  unfold isQRCodeValid. split.
  - unfold validateQRCode.
    change (30 * 24 * 60 * 60 * 1000) with maxAge.
    rewrite Z.gtb_ltb.
    destruct (Z.ltb_spec maxAge (now env - qr_timestamp d)) as [Hold|Hyoung].
    + split; [intros _; apply Z.leb_gt; exact Hold|reflexivity].
    + split; [|intros H; apply Z.leb_gt in H; lia].
      intros H. exfalso. revert H.
      unfold bind, Registration_findById, ret.
      destruct (lookupRegistration s (qr_registrationId d)) as [r|];
        [|discriminate].
      destruct (negb _); [discriminate|].
      destruct (TicketStatus_eqb _ tk_used); [discriminate|].
      destruct (TicketStatus_eqb _ tk_cancelled); [discriminate|].
      destruct (negb _); discriminate.
  - intros H. apply Z.leb_le in H. apply Z.leb_le. lia.
Qed.
